(** * prep.py: standardisation of per-state licence files

    A shallow embedding of [src/prep.py] (class [Prep] with [_common],
    [nebraska], [north_dakota]; functions [prep_state], [prep_all_states])
    together with the slice of the Python string methods, of the pandas
    frame operations and of [os] that the program calls.

    Conventions of the embedding.
    - The text in a cell is a Python [str]: the list of its code points.
      White space is the set that [str.strip] removes.  The case of the
      ASCII characters is written out; the case of the other characters
      is read from the Unicode database, which is a parameter
      ([Unicode]).
    - A column label and a path are kept as [string]: the program only
      compares them, joins them and looks for the ASCII words Hunt and
      Fish in them.
    - pandas is a release from 1.5 to 2.x with its default options:
      [Series.str.zfill] is Python's [str.zfill], and the text that a
      reader gives has dtype [object].  A cell is a text value, the missing
      value [NaN], or a number; a column carries its dtype, [object] or a
      numeric one.  The extension dtypes (string, category), which neither
      reader gives, are not embedded; a statement that rests on the dtype
      of a text column says so.
    - A Python exception is the [Err] branch of [result]. *)

From Stdlib Require Import String Ascii List NArith ZArith Bool Arith Lia.
Import ListNotations.
Open Scope string_scope.
Open Scope list_scope.

(** ** Exceptions *)

Inductive error : Type :=
| KeyError (label : string)
| AttributeError
| TypeError
| ValueError
| FileNotFoundError
| ParserError.

Inductive result (A : Type) : Type :=
| Ok (a : A)
| Err (e : error).
Arguments Ok {A} a.
Arguments Err {A} e.

Definition bind {A B : Type} (m : result A) (k : A -> result B) : result B :=
  match m with
  | Ok a => k a
  | Err e => Err e
  end.

Notation "x <- m ;; k" := (bind m (fun x => k))
  (at level 61, m at next level, right associativity).

Fixpoint mapM {A B : Type} (f : A -> result B) (l : list A) : result (list B) :=
  match l with
  | [] => Ok []
  | a :: t => b <- f a ;; bs <- mapM f t ;; Ok (b :: bs)
  end.

(** ** Text *)

(** A Python [str]: its code points. *)
Abbreviation char := N (only parsing).
Abbreviation text := (list N) (only parsing).

Fixpoint of_string (s : string) : text :=
  match s with
  | EmptyString => []
  | String c t => N_of_ascii c :: of_string t
  end.

(** A literal stands for the text of its characters. *)
Coercion of_string : string >-> list.

Fixpoint text_eqb (a b : text) : bool :=
  match a, b with
  | [], [] => true
  | x :: a', y :: b' => N.eqb x y && text_eqb a' b'
  | _, _ => false
  end.

(** ** Python [str] methods *)

Module Text.

(** The characters that [str.strip] takes for white space: the ASCII
    ones (tab to carriage return, the four separators, the space) and
    U+0085, U+00A0, U+1680, U+2000 to U+200A, U+2028, U+2029, U+202F,
    U+205F, U+3000. *)
Definition isspace (c : char) : bool :=
  (((9 <=? c) && (c <=? 13)) || ((28 <=? c) && (c <=? 32)) ||
   (c =? 133) || (c =? 160) || (c =? 5760) ||
   ((8192 <=? c) && (c <=? 8202)) || (c =? 8232) || (c =? 8233) ||
   (c =? 8239) || (c =? 8287) || (c =? 12288))%N.

Definition isascii (c : char) : bool := (c <? 128)%N.

Definition isupper (c : char) : bool := ((65 <=? c) && (c <=? 90))%N.

Definition islower (c : char) : bool := ((97 <=? c) && (c <=? 122))%N.

Definition upper (c : char) : char := if islower c then (c - 32)%N else c.

Definition lower (c : char) : char := if isupper c then (c + 32)%N else c.

(** [s.lstrip()], [s.rstrip()], [s.strip()] with no argument. *)
Fixpoint lstrip (s : text) : text :=
  match s with
  | [] => []
  | c :: t => if isspace c then lstrip t else s
  end.

Fixpoint rstrip (s : text) : text :=
  match s with
  | [] => []
  | c :: t =>
      match rstrip t with
      | [] => if isspace c then [] else [c]
      | r => c :: r
      end
  end.

Definition strip (s : text) : text := rstrip (lstrip s).

(** [s.zfill(width)]: '0' characters are put in front of the text until
    it has [width] characters, after the first character when that is a
    sign; a text that already has [width] characters or more is returned
    as it is. *)
Definition zfill (width : nat) (s : text) : text :=
  let fill := repeat 48%N (width - length s) in
  match s with
  | c :: t => if ((c =? 43) || (c =? 45))%N then c :: fill ++ t else fill ++ s
  | [] => fill
  end.

(** The case entries of the Unicode database for the characters above
    127: whether the character is cased, its title case, and its lower
    case where it stands, between the text before it and the text after
    it (the lower case of a capital sigma depends on both). *)
Class Unicode : Type := {
  cased : char -> bool;
  titlecase : char -> text;
  lowercase : text -> char -> text -> text
}.

Section Case.

Context {U : Unicode}.

Definition iscased (c : char) : bool :=
  if isascii c then isupper c || islower c else cased c.

Definition totitle (c : char) : text :=
  if isascii c then [upper c] else titlecase c.

Definition tolower (before : text) (c : char) (after : text) : text :=
  if isascii c then [lower c] else lowercase before c after.

(** [s.title()]: a character is put in title case when the character
    before it is not cased and in lower case when it is; [before] is the
    text already read. *)
Fixpoint title_from (previous_is_cased : bool) (before s : text) : text :=
  match s with
  | [] => []
  | c :: t =>
      (if previous_is_cased then tolower before c t else totitle c)
      ++ title_from (iscased c) (before ++ [c]) t
  end.

Definition title (s : text) : text := title_from false [] s.

End Case.

(** [needle in hay] *)
Fixpoint contains (needle hay : string) : bool :=
  String.prefix needle hay ||
  match hay with
  | EmptyString => false
  | String _ t => contains needle t
  end.

End Text.

(** ** The pandas operations the program uses *)

Module Pandas.

Inductive cell : Type :=
| Str (s : text)
| NaN
| Num (n : Z).

Inductive dtype : Type := object | numeric.

Record Series : Type := mkSeries { dtype_of : dtype; values : list cell }.

(** A frame: the row labels and the labelled columns, left to right. *)
Record DataFrame : Type :=
  mkDataFrame { index : list Z; columns : list (string * Series) }.

Definition labels (df : DataFrame) : list string := map fst (columns df).
Definition nrows (df : DataFrame) : nat := length (index df).

Definition cell_eqb (a b : cell) : bool :=
  match a, b with
  | Str x, Str y => text_eqb x y
  | NaN, NaN => true
  | Num x, Num y => Z.eqb x y
  | _, _ => false
  end.

Fixpoint row_eqb (r1 r2 : list cell) : bool :=
  match r1, r2 with
  | [], [] => true
  | a :: t1, b :: t2 => cell_eqb a b && row_eqb t1 t2
  | _, _ => false
  end.

Definition is_str (c : cell) : bool :=
  match c with Str _ => true | _ => false end.

Definition is_num (c : cell) : bool :=
  match c with Num _ => true | _ => false end.

(** The [.str] accessor: refused on a column that is not of dtype [object],
    and on an [object] column whose values, the missing ones left out, are
    all numbers. *)
Definition str_accessor (x : Series) : result (list cell) :=
  match dtype_of x with
  | numeric => Err AttributeError
  | object =>
      if existsb is_num (values x) && negb (existsb is_str (values x))
      then Err AttributeError
      else Ok (values x)
  end.

(** A [.str] method maps the text values; any other value becomes [NaN]. *)
Definition str_method (f : text -> text) (c : cell) : cell :=
  match c with
  | Str s => Str (f s)
  | _ => NaN
  end.

Definition str_map (f : text -> text) (x : Series) : result Series :=
  vs <- str_accessor x ;;
  Ok (mkSeries object (map (str_method f) vs)).

Definition str_strip : Series -> result Series := str_map Text.strip.
Definition str_zfill (width : nat) : Series -> result Series :=
  str_map (Text.zfill width).
Definition str_title `{U : Text.Unicode} : Series -> result Series :=
  str_map Text.title.

(** [Series.apply(f)]: the dtype of the result is inferred from the values;
    an empty column keeps its dtype. *)
Definition series_apply (f : cell -> cell) (x : Series) : Series :=
  match values x with
  | [] => x
  | _ =>
      let vs := map f (values x) in
      mkSeries (if existsb is_str vs then object else numeric) vs
  end.

(** [df[name]] read as a column for its [.str]. With a repeated label
    pandas hands back a frame, which has no [.str]. *)
Definition getitem (df : DataFrame) (name : string) : result Series :=
  match filter (fun c => String.eqb (fst c) name) (columns df) with
  | [] => Err (KeyError name)
  | [c] => Ok (snd c)
  | _ => Err AttributeError
  end.

Definition has_column (df : DataFrame) (name : string) : bool :=
  existsb (String.eqb name) (labels df).

(** [df[name] = x]: an existing column is replaced where it stands, a new
    one is appended. *)
Definition setitem (df : DataFrame) (name : string) (x : Series) : DataFrame :=
  mkDataFrame (index df)
    (if has_column df name
     then map (fun c => if String.eqb (fst c) name then (name, x) else c)
              (columns df)
     else columns df ++ [(name, x)]).

(** [df[name] = ''] and the like: the scalar is broadcast over the rows. *)
Definition setitem_scalar (df : DataFrame) (name : string) (v : cell)
  : DataFrame :=
  setitem df name
    (mkSeries (if is_str v then object else numeric) (repeat v (nrows df))).

(** [df[name] = df[name].apply(f)] for a function [f] on values. With a
    repeated label [df[name]] is a frame, [f] is run on each of its columns
    as a whole and every column of that label is written again; for the
    functions of this program, which return 'Y' or their argument, that is
    [f] run on the values of each of them. *)
Definition apply_to_column (df : DataFrame) (name : string) (f : cell -> cell)
  : result DataFrame :=
  if has_column df name
  then Ok (mkDataFrame (index df)
             (map (fun c => if String.eqb (fst c) name
                            then (name, series_apply f (snd c)) else c)
                  (columns df)))
  else Err (KeyError name).

(** [df.apply(f)] column by column. A frame with no row or no column is
    copied without [f] being run on its columns. *)
Definition apply (f : Series -> result Series) (df : DataFrame)
  : result DataFrame :=
  match index df, columns df with
  | [], _ | _, [] => Ok df
  | _, _ =>
      cols <- mapM (fun c => x <- f (snd c) ;; Ok (fst c, x)) (columns df) ;;
      Ok (mkDataFrame (index df) cols)
  end.

(** The rows of a frame whose columns hold [n] values each. *)
Fixpoint rows_of (n : nat) (cols : list (list cell)) : list (list cell) :=
  match n with
  | O => []
  | S k => map (hd NaN) cols :: rows_of k (map (@tl cell) cols)
  end.

Definition rows (df : DataFrame) : list (list cell) :=
  rows_of (nrows df) (map (fun c => values (snd c)) (columns df)).

(** [df.duplicated()]: a row is marked when an equal row stands before it. *)
Fixpoint duplicated_from (seen rs : list (list cell)) : list bool :=
  match rs with
  | [] => []
  | r :: t => existsb (row_eqb r) seen :: duplicated_from (r :: seen) t
  end.

Definition duplicated (df : DataFrame) : list bool :=
  duplicated_from [] (rows df).

(** Boolean selection [x[mask]]. *)
Fixpoint select {A : Type} (mask : list bool) (l : list A) : list A :=
  match mask, l with
  | b :: m, a :: t => if b then a :: select m t else select m t
  | _, _ => []
  end.

(** [df.drop_duplicates()]: the first row of every group of equal rows is
    kept, with its label; missing values count as equal. (The frames that
    the program deduplicates have a column.) *)
Definition drop_duplicates (df : DataFrame) : DataFrame :=
  let keep := map negb (duplicated df) in
  mkDataFrame (select keep (index df))
    (map (fun c => (fst c, mkSeries (dtype_of (snd c))
                                    (select keep (values (snd c)))))
         (columns df)).

Fixpoint lookup (name : string) (cols : list (string * Series))
  : option Series :=
  match cols with
  | [] => None
  | (n, x) :: t => if String.eqb n name then Some x else lookup name t
  end.

Fixpoint unique (l : list string) : bool :=
  match l with
  | [] => true
  | a :: t => negb (existsb (String.eqb a) t) && unique t
  end.

(** The column called [name], or a column of [NaN] when there is none. *)
Definition column_or_nan (name : string) (df : DataFrame) : Series :=
  match lookup name (columns df) with
  | Some x => x
  | None => mkSeries numeric (repeat NaN (nrows df))
  end.

(** [df.reindex(columns=names)]: refused when the frame repeats a label; a
    name the frame does not have gives a column of [NaN]. *)
Definition reindex (df : DataFrame) (names : list string)
  : result DataFrame :=
  if unique (labels df)
  then Ok (mkDataFrame (index df)
             (map (fun n => (n, column_or_nan n df)) names))
  else Err ValueError.

(** [name in df] *)
Definition contains_label (name : string) (df : DataFrame) : bool :=
  has_column df name.

(** [df.drop(columns=names)]: every name has to be a label of the frame. *)
Definition drop (df : DataFrame) (names : list string) : result DataFrame :=
  match filter (fun n => negb (has_column df n)) names with
  | [] =>
      Ok (mkDataFrame (index df)
            (filter (fun c => negb (existsb (String.eqb (fst c)) names))
                    (columns df)))
  | missing :: _ => Err (KeyError missing)
  end.

Fixpoint assoc (name : string) (mapping : list (string * string)) : string :=
  match mapping with
  | [] => name
  | (old, new) :: t => if String.eqb old name then new else assoc name t
  end.

(** [df.rename(columns=mapping)]: a label the mapping does not have stays. *)
Definition rename (df : DataFrame) (mapping : list (string * string))
  : DataFrame :=
  mkDataFrame (index df)
    (map (fun c => (assoc (fst c) mapping, snd c)) (columns df)).

(** The labels of several frames, each once, in the order they come. *)
Fixpoint union_labels (seen : list string) (names : list string)
  : list string :=
  match names with
  | [] => []
  | n :: t =>
      if existsb (String.eqb n) seen then union_labels seen t
      else n :: union_labels (n :: seen) t
  end.

Definition is_object (d : dtype) : bool :=
  match d with object => true | numeric => false end.

(** [pd.concat(dfs)]: the frames are stacked, labels are kept, a column a
    frame lacks is filled with [NaN]; there must be a frame to stack. *)
Definition concat (dfs : list DataFrame) : result DataFrame :=
  match dfs with
  | [] => Err ValueError
  | _ =>
      let names := union_labels [] (flat_map labels dfs) in
      Ok (mkDataFrame (flat_map index dfs)
            (map (fun n =>
                    let parts := map (column_or_nan n) dfs in
                    (n, mkSeries
                          (if existsb (fun x => is_object (dtype_of x)) parts
                           then object else numeric)
                          (flat_map values parts)))
                 names))
  end.

(** A sheet read without a header row: its columns are known by position. *)
Record Sheet : Type :=
  mkSheet { sheet_index : list Z; sheet_columns : list Series }.

Definition sheet_rows (sh : Sheet) : nat := length (sheet_index sh).

Definition sheet_column (j : nat) (sh : Sheet) : Series :=
  match nth_error (sheet_columns sh) j with
  | Some x => x
  | None => mkSeries numeric (repeat NaN (sheet_rows sh))
  end.

Definition range (n : nat) : list Z := map Z.of_nat (seq 0 n).

(** [pd.concat(sheets, ignore_index=True)]: as [concat], the columns
    matched by position and the rows numbered afresh. *)
Definition concat_sheets (sheets : list Sheet) : result Sheet :=
  match sheets with
  | [] => Err ValueError
  | _ =>
      let width :=
        fold_right Nat.max 0 (map (fun sh => length (sheet_columns sh)) sheets) in
      Ok (mkSheet (range (length (flat_map sheet_index sheets)))
            (map (fun j =>
                    let parts := map (sheet_column j) sheets in
                    mkSeries
                      (if existsb (fun x => is_object (dtype_of x)) parts
                       then object else numeric)
                      (flat_map values parts))
                 (seq 0 width)))
  end.

(** [df.columns = names]: as many names as there are columns. *)
Definition set_columns (sh : Sheet) (names : list string)
  : result DataFrame :=
  if Nat.eqb (length names) (length (sheet_columns sh))
  then Ok (mkDataFrame (sheet_index sh) (combine names (sheet_columns sh)))
  else Err ValueError.

End Pandas.

(** ** [os.path.join], [os.listdir], [os.path.isfile] and the readers *)

Module Os.

Definition startswith_sep (s : string) : bool := String.prefix "/" s.

Fixpoint endswith_sep (s : string) : bool :=
  match s with
  | EmptyString => false
  | String c EmptyString => Ascii.eqb c "/"%char
  | String _ t => endswith_sep t
  end.

(** [join(a, b)] of [posixpath]. *)
Definition join (a b : string) : string :=
  if startswith_sep b then b
  else if String.eqb a "" || endswith_sep a then a ++ b
  else a ++ "/" ++ b.

End Os.

Import Pandas.

(** What the program reads from outside: the directory tree and the parsed
    source files. [read_csv PATH] stands for
    [pd.read_csv(PATH, sep='\t', dtype=str)] and [read_excel PATH] for
    [pd.read_excel(PATH, sheet_name=None, header=None)], sheets in order. *)
Class World : Type := {
  listdir : string -> result (list string);
  isfile : string -> bool;
  read_csv : string -> result DataFrame;
  read_excel : string -> result (list Sheet)
}.

(** ** class Prep *)

Module Prep.

Definition to_title : list string :=
  ["FirstName"; "MiddleName"; "LastName"; "Street"; "City"].

Definition standard_columns : list string :=
  ["FirstName"; "MiddleName"; "LastName"; "Suffix"; "Street"; "City";
   "State"; "Zip"; "Hunt"; "Fish"].

(** [lambda x: x.str.strip() if x.dtype == "object" else x] *)
Definition strip_if_object (x : Series) : result Series :=
  match dtype_of x with
  | object => str_strip x
  | numeric => Ok x
  end.

(** [for column in to_title: df[column] = df[column].str.title()] *)
Fixpoint title_columns `{U : Text.Unicode} (names : list string)
         (df : DataFrame) : result DataFrame :=
  match names with
  | [] => Ok df
  | column :: rest =>
      x <- getitem df column ;;
      x <- str_title x ;;
      title_columns rest (setitem df column x)
  end.

(** [lambda x: 'Y' if tag in PATH else x] *)
Definition tag_if_in (tag PATH : string) (x : cell) : cell :=
  if Text.contains tag PATH then Str "Y" else x.

Definition _common `{U : Text.Unicode} (df : DataFrame) (PATH : string)
  : result DataFrame :=
  (* Strip white space on string columns *)
  df <- apply strip_if_object df ;;
  (* Fill 0s at the front of zips shorter than length 5 *)
  zip <- getitem df "Zip" ;;
  zip <- str_zfill 5 zip ;;
  let df := setitem df "Zip" zip in
  (* Title case these columns in case they're not already *)
  df <- title_columns to_title df ;;
  (* Drop duplicates in a single source file, if there are any *)
  let df := drop_duplicates df in
  (* Make empty Hunt and Fish columns *)
  let df := setitem_scalar df "Hunt" (Str "") in
  let df := setitem_scalar df "Fish" (Str "") in
  (* Tag by the folder the file is in *)
  df <- apply_to_column df "Hunt" (tag_if_in "Hunt" PATH) ;;
  df <- apply_to_column df "Fish" (tag_if_in "Fish" PATH) ;;
  (* Arrange columns for easy reading *)
  reindex df standard_columns.

Definition nebraska_required : list string :=
  ["permitYear"; "Permit Type"; "FullName"].

Definition nebraska_names : list (string * string) :=
  [("firstName", "FirstName"); ("middleName", "MiddleName");
   ("lastName", "LastName"); ("street", "Street"); ("city", "City");
   ("state", "State"); ("zip", "Zip")].

Definition nebraska `{U : Text.Unicode} `{W : World} (PATH : string)
  : result DataFrame :=
  df <- read_csv PATH ;;
  (* Drop 'Sex' and 'email' columns if they're present *)
  df <- (if contains_label "Sex" df then drop df ["Sex"] else Ok df) ;;
  df <- (if contains_label "email" df then drop df ["email"] else Ok df) ;;
  (* Drop common columns about the hunting or fishing permit *)
  df <- drop df nebraska_required ;;
  (* Rename columns to standard format *)
  let df := rename df nebraska_names in
  _common df PATH.

Definition north_dakota_names : list string :=
  ["LastName"; "FirstName"; "MiddleName"; "Street"; "City"; "State"; "Zip"].

Definition north_dakota `{U : Text.Unicode} `{W : World} (PATH : string)
  : result DataFrame :=
  sheets <- read_excel PATH ;;
  raw <- concat_sheets sheets ;;
  df <- set_columns raw north_dakota_names ;;
  _common df PATH.

(** [getattr(prep, method)], called with the file path: one of the two
    state methods; [_common], which wants a frame and a path; a name that
    [Prep] does not define is no attribute (the names that every Python
    object has are left out). *)
Definition getattr `{U : Text.Unicode} `{W : World} (method : string)
  : result (string -> result DataFrame) :=
  if String.eqb method "nebraska" then Ok nebraska
  else if String.eqb method "north_dakota" then Ok north_dakota
  else if String.eqb method "_common" then Ok (fun _ => Err TypeError)
  else Err AttributeError.

End Prep.

(** ** Module level functions *)

(** [[join(d, f) for f in listdir(d) if keep(join(d, f))]] *)
Definition listing `{W : World} (keep : string -> bool) (d : string)
  : result (list string) :=
  names <- listdir d ;;
  Ok (filter keep (map (Os.join d) names)).

Definition prep_state `{U : Text.Unicode} `{W : World}
           (state_dir method : string)
  : result DataFrame :=
  (* Get all the subfolders in a state folder *)
  folders <- listing (fun p => negb (isfile p)) state_dir ;;
  (* Get all the files in each of the state's subfolders *)
  files <- mapM (listing isfile) folders ;;
  let files := List.concat files in
  (* Call the state's Prep method for each source file *)
  dfs <- mapM (fun file => f <- Prep.getattr method ;; f file) files ;;
  (* Concatenate all the dataframes in the list *)
  df <- concat dfs ;;
  (* Drop duplicates *)
  Ok (drop_duplicates df).

Definition prep_all_states `{U : Text.Unicode} `{W : World}
  : result DataFrame :=
  state_dfs <- mapM (fun sm => prep_state (fst sm) (snd sm))
                    (combine ["Nebraska"; "North Dakota"]
                             ["nebraska"; "north_dakota"]) ;;
  concat state_dfs.

(** * Notions used in the statements *)

Import Text Prep.

Section Program.

Context {U : Unicode}.

(** ** The stages of [_common] *)

(** Lines 31 to 40: strip, pad the Zip column, title-case. *)
Definition clean (df : DataFrame) : result DataFrame :=
  df <- apply strip_if_object df ;;
  zip <- getitem df "Zip" ;;
  zip <- str_zfill 5 zip ;;
  title_columns to_title (setitem df "Zip" zip).

(** Lines 46 to 51: the Hunt and Fish columns. *)
Definition tag (df : DataFrame) (PATH : string) : result DataFrame :=
  let df := setitem_scalar df "Hunt" (Str "") in
  let df := setitem_scalar df "Fish" (Str "") in
  df <- apply_to_column df "Hunt" (tag_if_in "Hunt" PATH) ;;
  apply_to_column df "Fish" (tag_if_in "Fish" PATH).

(** What a [.str] method returns on a column it accepts. *)
Definition str_col (f : text -> text) (x : Series) : Series :=
  mkSeries object (map (str_method f) (values x)).

(** The text function that [clean] ends up applying in the column [n]. *)
Definition text_of (n : string) (s : text) : text :=
  if String.eqb n "Zip" then zfill 5 (strip s)
  else if existsb (String.eqb n) to_title then title (strip s)
  else strip s.

(** What [clean] makes of the column [x] called [n]: a column that is not
    of dtype [object] is not touched. *)
Definition clean_column (n : string) (x : Series) : Series :=
  match dtype_of x with
  | object => str_col (text_of n) x
  | numeric => x
  end.

(** The frame that [clean] returns when it returns. *)
Definition cleaned (df : DataFrame) : DataFrame :=
  mkDataFrame (index df)
    (map (fun c => (fst c, clean_column (fst c) (snd c))) (columns df)).

(** [_common] with line 43, the deduplication, left out: the standardized
    form of every source row, in the order of the source. *)
Definition without_deduplication (df : DataFrame) (PATH : string)
  : result DataFrame :=
  c <- clean df ;;
  t <- tag c PATH ;;
  reindex t standard_columns.

(** How many times the row [r] stands among [rs]. *)
Definition occurrences (r : list cell) (rs : list (list cell)) : nat :=
  length (filter (row_eqb r) rs).

(** Every column holds one value for each row. *)
Definition well_formed (df : DataFrame) : Prop :=
  Forall (fun c => length (values (snd c)) = nrows df) (columns df).

(** ** The stages of [prep_state] *)

(** Lines 113 to 121: the files of the subfolders of a state folder. *)
Definition state_files `{W : World} (state_dir : string) : result (list string) :=
  folders <- listing (fun p => negb (isfile p)) state_dir ;;
  files <- mapM (listing isfile) folders ;;
  Ok (List.concat files).

(** Line 130: [getattr(prep, method)(file)]. *)
Definition run `{W : World} (method file : string) : result DataFrame :=
  f <- Prep.getattr method ;; f file.

(** Every column of the sheet holds one value for each row. *)
Definition sheet_well_formed (sh : Sheet) : Prop :=
  Forall (fun x => length (values x) = sheet_rows sh) (sheet_columns sh).

(** The readers give frames and sheets with one value per row in every
    column. *)
Definition reads_well_formed `{W : World} : Prop :=
  (forall p df, read_csv p = Ok df -> well_formed df) /\
  (forall p sheets, read_excel p = Ok sheets ->
                    Forall sheet_well_formed sheets).

(** [prep_state] from line 116 on, for the subfolders found on line 113. *)
Definition prep_folders `{W : World} (folders : list string) (method : string)
  : result DataFrame :=
  files <- mapM (listing isfile) folders ;;
  dfs <- mapM (run method) (List.concat files) ;;
  df <- concat dfs ;;
  Ok (drop_duplicates df).

(** ** Auxiliary notions *)

(** What [title] makes of an ASCII character, [b] telling whether the
    character before it is cased. *)
Definition title_char (b : bool) (c : char) : char :=
  if b then lower c else upper c.

(** [title] on a text of ASCII characters. *)
Fixpoint ascii_title_from (b : bool) (s : text) : text :=
  match s with
  | [] => []
  | c :: t => title_char b c :: ascii_title_from (isupper c || islower c) t
  end.

(** A text of ASCII characters, and values whose texts are such. *)
Definition ascii_text (s : text) : bool := forallb isascii s.

Definition ascii_values (l : list cell) : bool :=
  forallb (fun c => match c with Str s => ascii_text s | _ => true end) l.

(** The text starts with a sign. *)
Definition signed (s : text) : bool :=
  match s with
  | c :: _ => ((c =? 43) || (c =? 45))%N
  | [] => false
  end.

(** The text with '0' characters on its left up to [width] characters, as
    the claim about the Zip step has it. *)
Definition left_padded (width : nat) (s : text) : text :=
  repeat 48%N (width - length s) ++ s.

(** The name and address columns hold ASCII texts. *)
Definition ascii_names (df : DataFrame) : Prop :=
  forall n x, In n to_title -> getitem df n = Ok x ->
              ascii_values (values x) = true.

(** A text with no white space at either end. *)
Definition stripped (s : text) : Prop := lstrip s = s /\ rstrip s = s.

(** [needle in hay] holds exactly when [hay] is some text, then [needle],
    then some text. *)
Definition occurs_in (needle hay : string) : Prop :=
  exists a b, hay = (a ++ needle ++ b)%string.

(** The columns called [n], and what [getitem] makes of them. *)
Definition named (n : string) (cols : list (string * Series)) :=
  filter (fun c => String.eqb (fst c) n) cols.

(** [map_named n h] rewrites with [h] the columns called [n]. *)
Definition map_named (n : string) (h : Series -> Series)
           (cols : list (string * Series)) : list (string * Series) :=
  map (fun c => (fst c, if String.eqb (fst c) n then h (snd c) else snd c))
      cols.

(** There is one column called [n], and it is of dtype [object]. *)
Definition reads_text (n : string) (cols : list (string * Series)) : Prop :=
  exists c, named n cols = [c] /\ dtype_of (snd c) = object.

(** The columns after the loop over [names] of [title_columns]. *)
Fixpoint titled (names : list string) (cols : list (string * Series))
  : list (string * Series) :=
  match names with
  | [] => cols
  | n :: rest => titled rest (map_named n (str_col title) cols)
  end.

(** What a run of the loop that returns tells about the columns it read. *)
Fixpoint title_accepts (names : list string) (cols : list (string * Series))
  : Prop :=
  match names with
  | [] => True
  | n :: rest =>
      reads_text n cols /\
      title_accepts rest (map_named n (str_col title) cols)
  end.

(** What [strip_if_object] returns when it returns. *)
Definition strip_col (x : Series) : Series :=
  match dtype_of x with
  | object => str_col strip x
  | numeric => x
  end.

(** The column that [tag] writes for one of the two flags. *)
Definition flag (name PATH : string) (n : nat) : Series :=
  series_apply (tag_if_in name PATH) (mkSeries object (repeat (Str "") n)).

(** The [.str] accessor takes the column. *)
Definition accepted (x : Series) : Prop := str_accessor x = Ok (values x).

(** What makes the loop over [names] return: each column is there once,
    of dtype [object], and holds no number when the loop comes to it. *)
Fixpoint title_ready (names : list string) (cols : list (string * Series))
  : Prop :=
  match names with
  | [] => True
  | n :: rest =>
      (exists c, named n cols = [c] /\ dtype_of (snd c) = object /\
                 existsb is_num (values (snd c)) = false) /\
      title_ready rest (map_named n (str_col title) cols)
  end.

(** The frame without its columns called one of [names]. *)
Definition without (names : list string) (df : DataFrame) : DataFrame :=
  mkDataFrame (index df)
    (filter (fun c => negb (existsb (String.eqb (fst c)) names)) (columns df)).

(** The frame that [nebraska] hands to [_common]. *)
Definition nebraska_standardized (df : DataFrame) : DataFrame :=
  rename (without nebraska_required (without ["email"] (without ["Sex"] df)))
         nebraska_names.

(** What [read_csv] with [dtype=str] gives: [object] columns of texts and
    missing values. *)
Definition all_text (df : DataFrame) : Prop :=
  Forall (fun c => dtype_of (snd c) = object /\
                   existsb is_num (values (snd c)) = false)
         (columns df).

(** The rows that [drop_duplicates] keeps, given the rows met so far. *)
Definition kept (seen rs : list (list cell)) : list (list cell) :=
  select (map negb (duplicated_from seen rs)) rs.

(** The rows, read by position. *)
Definition row_at (cols : list (list cell)) (i : nat) : list cell :=
  map (fun col => nth i col NaN) cols.

(** A column that [clean] would leave as it is. *)
Definition settled (n : string) (x : Series) : Prop := clean_column n x = x.

(** The rows that line 43 keeps: a row goes when its cleaned form is the
    cleaned form of a row before it. *)
Definition kept_rows (df : DataFrame) : list bool :=
  map negb (duplicated (cleaned df)).

(** The widest sheet of a workbook. *)
Definition width (sheets : list Sheet) : nat :=
  fold_right Nat.max 0 (map (fun sh => length (sheet_columns sh)) sheets).

(** Column [j] of the sheets of a workbook, one sheet under the other. *)
Definition stacked (j : nat) (sheets : list Sheet) : Series :=
  let parts := map (sheet_column j) sheets in
  mkSeries (if existsb (fun x => is_object (dtype_of x)) parts
            then object else numeric)
           (flat_map values parts).

(** [os.listdir] gives names, none of which starts with the separator. *)
Definition relative_names `{W : World} : Prop :=
  forall d names, listdir d = Ok names ->
    forall n, In n names -> Os.startswith_sep n = false.

(** ** Sample inputs *)

(** A column of texts. *)
Definition text_column (l : list string) : Series :=
  mkSeries object (map (fun s => Str (of_string s)) l).

(** A frame as [read_csv] with [dtype=str] gives it: one text column for
    each header, rows labelled from 0. *)
Definition text_frame (cols : list (string * list string)) : DataFrame :=
  mkDataFrame
    (range (match cols with [] => 0 | c :: _ => length (snd c) end))
    (map (fun c => (fst c, text_column (snd c))) cols).

(** A frame with the seven columns of a renamed Nebraska file. *)
Definition standard_frame (first middle last street city state zip : list string)
  : DataFrame :=
  text_frame [("FirstName", first); ("MiddleName", middle); ("LastName", last);
              ("Street", street); ("City", city); ("State", state);
              ("Zip", zip)].

(** One licence holder, listed twice, and a second one. *)
Definition sample : DataFrame :=
  standard_frame [" john"; "john"; "MARY"] ["q"; "q"; "ann"]
                 ["doe"; "doe "; "o'neil"]
                 ["123 main st"; "123 main st"; "4 elm st"]
                 ["lincoln"; "lincoln"; "omaha"] ["NE"; "NE"; "NE"]
                 ["685"; "685"; "68102"].

(** A file of the Hunt folder of Nebraska. *)
Definition sample_path : string := "Nebraska/Hunt/permits 2020.txt".

(** What [_common] makes of [sample]. *)
Definition sample_out : DataFrame :=
  mkDataFrame [0; 2]%Z
    [("FirstName", text_column ["John"; "Mary"]);
     ("MiddleName", text_column ["Q"; "Ann"]);
     ("LastName", text_column ["Doe"; "O'Neil"]);
     ("Suffix", mkSeries numeric [NaN; NaN]);
     ("Street", text_column ["123 Main St"; "4 Elm St"]);
     ("City", text_column ["Lincoln"; "Omaha"]);
     ("State", text_column ["NE"; "NE"]);
     ("Zip", text_column ["00685"; "68102"]);
     ("Hunt", text_column ["Y"; "Y"]);
     ("Fish", text_column [""; ""])].

(** A nine-digit code written without its dash. *)
Definition long_zip : DataFrame :=
  standard_frame ["john"] ["q"] ["doe"] ["123 main st"] ["lincoln"] ["NE"]
                 ["685011234"].

(** A record whose Zip field is empty in the file: [read_csv] gives the
    missing value. *)
Definition missing_zip : DataFrame :=
  setitem long_zip "Zip" (mkSeries object [NaN]).

(** A record whose Zip field starts with a sign. *)
Definition signed_zip : DataFrame :=
  standard_frame ["john"] ["q"] ["doe"] ["123 main st"] ["lincoln"] ["NE"]
                 ["-12"].

(** What [_common] makes of [signed_zip]. *)
Definition signed_zip_out : DataFrame :=
  mkDataFrame [0]%Z
    [("FirstName", text_column ["John"]);
     ("MiddleName", text_column ["Q"]);
     ("LastName", text_column ["Doe"]);
     ("Suffix", mkSeries numeric [NaN]);
     ("Street", text_column ["123 Main St"]);
     ("City", text_column ["Lincoln"]);
     ("State", text_column ["NE"]);
     ("Zip", text_column ["-0012"]);
     ("Hunt", text_column ["Y"]);
     ("Fish", text_column [""])].

(** The entries of the Unicode database for the characters of the samples
    that are not ASCII: the capital I with a dot above (U+0130) is cased,
    is its own title case, and has for lower case an i followed by the
    combining dot above (U+0307), which is not cased. A sample has no other
    character above 127; such a character is entered as caseless. *)
Definition sample_unicode : Unicode := {|
  cased := fun c => (c =? 304)%N;
  titlecase := fun c => [c];
  lowercase := fun _ c _ => if (c =? 304)%N then [105; 775]%N else [c]
|}.

(** A licence holder called DEMIR, the I with a dot above, and what
    [_common] makes of the record, and of that in turn. *)
Definition demir : DataFrame :=
  setitem long_zip "FirstName"
          (mkSeries object [Str [68; 69; 77; 304; 82]%N]).

Definition demir_out : DataFrame :=
  mkDataFrame [0]%Z
    [("FirstName", mkSeries object [Str [68; 101; 109; 105; 775; 114]%N]);
     ("MiddleName", text_column ["Q"]);
     ("LastName", text_column ["Doe"]);
     ("Suffix", mkSeries numeric [NaN]);
     ("Street", text_column ["123 Main St"]);
     ("City", text_column ["Lincoln"]);
     ("State", text_column ["NE"]);
     ("Zip", text_column ["685011234"]);
     ("Hunt", text_column ["Y"]);
     ("Fish", text_column [""])].

Definition demir_again : DataFrame :=
  setitem demir_out "FirstName"
          (mkSeries object [Str [68; 101; 109; 105; 775; 82]%N]).

(** Zip values short and long, with letters, and missing. *)
Definition zip_column : Series :=
  mkSeries object [Str "685"; Str "685011234"; Str "K1A 0B1"; Str "AB"; NaN].

(** A workbook of two sheets. *)
Definition sheet_a : Sheet :=
  mkSheet [0; 1]%Z
    [text_column ["olson"; "berg"]; text_column ["ole"; "lena"];
     text_column ["j"; "m"]; text_column ["1 1st ave"; "22 main st"];
     text_column ["fargo"; "minot"]; text_column ["ND"; "ND"];
     text_column ["58102"; "58701"]].

Definition sheet_b : Sheet :=
  mkSheet [0]%Z
    [text_column ["zahn"]; text_column ["al"]; text_column [" k"];
     text_column ["3 oak st"]; text_column ["bismarck"]; text_column ["ND"];
     text_column ["5850"]].

(** Two Nebraska files; the second has no Sex and no email column, and
    lists again the first licence holder of the first file. *)
Definition nebraska_2020 : DataFrame :=
  text_frame
    [("permitYear", ["2020"; "2020"]); ("Permit Type", ["deer"; "elk"]);
     ("FullName", ["JOHN Q DOE"; "MARY ANN O'NEIL"]);
     ("firstName", ["JOHN"; "MARY"]); ("middleName", ["Q"; "ANN"]);
     ("lastName", ["DOE"; "O'NEIL"]);
     ("street", ["123 MAIN ST"; "4 ELM ST"]); ("city", ["LINCOLN"; "OMAHA"]);
     ("state", ["NE"; "NE"]); ("zip", ["685"; "68102"]);
     ("Sex", ["M"; "F"]); ("email", ["jd@example.org"; ""])].

Definition nebraska_2021 : DataFrame :=
  text_frame
    [("permitYear", ["2021"]); ("Permit Type", ["turkey"]);
     ("FullName", ["JOHN Q DOE"]);
     ("firstName", ["john "]); ("middleName", ["q"]); ("lastName", ["doe"]);
     ("street", ["123 main st"]); ("city", ["lincoln"]);
     ("state", ["NE"]); ("zip", ["00685"])].

(** The same file without its permitYear column. *)
Definition nebraska_no_year : DataFrame :=
  text_frame
    [("Permit Type", ["turkey"]); ("FullName", ["JOHN Q DOE"]);
     ("firstName", ["john "]); ("middleName", ["q"]); ("lastName", ["doe"]);
     ("street", ["123 main st"]); ("city", ["lincoln"]);
     ("state", ["NE"]); ("zip", ["00685"])].

(** The entry of a table of paths, or the error of a path not found. *)
Definition one_of {A : Type} (table : list (string * A)) (p : string)
  : result A :=
  match find (fun e => String.eqb (fst e) p) table with
  | Some e => Ok (snd e)
  | None => Err FileNotFoundError
  end.

(** A small tree: Nebraska with two hunting files and an empty Fish folder,
    North Dakota with one workbook, Iowa with nothing but an empty folder. *)
Definition sample_world : World := {|
  listdir := one_of
    [("Nebraska", ["Hunt"; "Fish"; "notes.txt"]);
     ("Nebraska/Hunt", ["2020.txt"; "2021.txt"]);
     ("Nebraska/Fish", []);
     ("North Dakota", ["Hunt"]);
     ("North Dakota/Hunt", ["a.xlsx"]);
     ("Iowa", ["Fish"]);
     ("Iowa/Fish", [])];
  isfile := fun p =>
    existsb (String.eqb p)
      ["Nebraska/notes.txt"; "Nebraska/Hunt/2020.txt";
       "Nebraska/Hunt/2021.txt"; "Nebraska/Hunt/no year.txt";
       "North Dakota/Hunt/a.xlsx"];
  read_csv := one_of
    [("Nebraska/Hunt/2020.txt", nebraska_2020);
     ("Nebraska/Hunt/2021.txt", nebraska_2021);
     ("Nebraska/Hunt/no year.txt", nebraska_no_year)];
  read_excel := one_of [("North Dakota/Hunt/a.xlsx", [sheet_a; sheet_b])]
|}.

(** What [north_dakota] makes of the workbook. *)
Definition north_dakota_out : DataFrame :=
  mkDataFrame [0; 1; 2]%Z
    [("FirstName", text_column ["Ole"; "Lena"; "Al"]);
     ("MiddleName", text_column ["J"; "M"; "K"]);
     ("LastName", text_column ["Olson"; "Berg"; "Zahn"]);
     ("Suffix", mkSeries numeric [NaN; NaN; NaN]);
     ("Street", text_column ["1 1St Ave"; "22 Main St"; "3 Oak St"]);
     ("City", text_column ["Fargo"; "Minot"; "Bismarck"]);
     ("State", text_column ["ND"; "ND"; "ND"]);
     ("Zip", text_column ["58102"; "58701"; "05850"]);
     ("Hunt", text_column ["Y"; "Y"; "Y"]);
     ("Fish", text_column [""; ""; ""])].

(** [zip_column] after the Zip step. *)
Definition zip_column_padded : Series :=
  mkSeries object
    [Str "00685"; Str "685011234"; Str "K1A 0B1"; Str "000AB"; NaN].

(** The claim that every Zip value of a frame is a text of 5 characters. *)
Definition zip_all_five (out : DataFrame) : Prop :=
  forall zip, getitem out "Zip" = Ok zip ->
    Forall (fun c => exists s, c = Str s /\ length s = 5) (values zip).

(** A file with a header and no record. *)
Definition no_rows : DataFrame := standard_frame [] [] [] [] [] [] [].

(** The columns that a state transform hands to [_common]. *)
Definition source_columns : list string :=
  ["FirstName"; "MiddleName"; "LastName"; "Suffix"; "Street"; "City";
   "State"; "Zip"].

(** One licence holder listed with two telephone numbers: the rows differ
    in a column that the output does not keep. A third row repeats the
    first. *)
Definition two_phones : DataFrame :=
  text_frame
    [("FirstName", ["john"; "john"; "john"]); ("MiddleName", ["q"; "q"; "q"]);
     ("LastName", ["doe"; "doe"; "doe"]);
     ("Street", ["123 main st"; "123 main st"; "123 main st"]);
     ("City", ["lincoln"; "lincoln"; "lincoln"]); ("State", ["NE"; "NE"; "NE"]);
     ("Zip", ["68501"; "68501"; "68501"]);
     ("phone", ["402-555-0100"; "402-555-0199"; "402-555-0100"])].

(** The standardized row of the licence holder of [two_phones]. *)
Definition john_doe : list cell :=
  [Str "John"; Str "Q"; Str "Doe"; NaN; Str "123 Main St"; Str "Lincoln";
   Str "NE"; Str "68501"; Str "Y"; Str ""].

(** What [_common] makes of [two_phones], and of that in turn. *)
Definition two_phones_out : DataFrame :=
  mkDataFrame [0; 1]%Z
    [("FirstName", text_column ["John"; "John"]);
     ("MiddleName", text_column ["Q"; "Q"]);
     ("LastName", text_column ["Doe"; "Doe"]);
     ("Suffix", mkSeries numeric [NaN; NaN]);
     ("Street", text_column ["123 Main St"; "123 Main St"]);
     ("City", text_column ["Lincoln"; "Lincoln"]);
     ("State", text_column ["NE"; "NE"]);
     ("Zip", text_column ["68501"; "68501"]);
     ("Hunt", text_column ["Y"; "Y"]);
     ("Fish", text_column [""; ""])].

Definition two_phones_again : DataFrame :=
  mkDataFrame [0]%Z
    [("FirstName", text_column ["John"]);
     ("MiddleName", text_column ["Q"]);
     ("LastName", text_column ["Doe"]);
     ("Suffix", mkSeries numeric [NaN]);
     ("Street", text_column ["123 Main St"]);
     ("City", text_column ["Lincoln"]);
     ("State", text_column ["NE"]);
     ("Zip", text_column ["68501"]);
     ("Hunt", text_column ["Y"]);
     ("Fish", text_column [""])].

(** The first licence holder is listed again in the third row. *)
Definition listed_twice : DataFrame :=
  standard_frame ["john"; "mary"; "john"] ["q"; "ann"; "q"]
                 ["doe"; "o'neil"; "doe"]
                 ["123 main st"; "4 elm st"; "123 main st"]
                 ["lincoln"; "omaha"; "lincoln"] ["NE"; "NE"; "NE"]
                 ["68501"; "68102"; "68501"].

(** What [_common] makes of [listed_twice]. *)
Definition listed_twice_out : DataFrame :=
  mkDataFrame [0; 1]%Z
    [("FirstName", text_column ["John"; "Mary"]);
     ("MiddleName", text_column ["Q"; "Ann"]);
     ("LastName", text_column ["Doe"; "O'Neil"]);
     ("Suffix", mkSeries numeric [NaN; NaN]);
     ("Street", text_column ["123 Main St"; "4 Elm St"]);
     ("City", text_column ["Lincoln"; "Omaha"]);
     ("State", text_column ["NE"; "NE"]);
     ("Zip", text_column ["68501"; "68102"]);
     ("Hunt", text_column ["Y"; "Y"]);
     ("Fish", text_column [""; ""])].

(** What [prep_state] makes of the Nebraska folder of [sample_world]. *)
Definition nebraska_state : DataFrame :=
  mkDataFrame [0; 1]%Z
    [("FirstName", text_column ["John"; "Mary"]);
     ("MiddleName", text_column ["Q"; "Ann"]);
     ("LastName", text_column ["Doe"; "O'Neil"]);
     ("Suffix", mkSeries numeric [NaN; NaN]);
     ("Street", text_column ["123 Main St"; "4 Elm St"]);
     ("City", text_column ["Lincoln"; "Omaha"]);
     ("State", text_column ["NE"; "NE"]);
     ("Zip", text_column ["00685"; "68102"]);
     ("Hunt", text_column ["Y"; "Y"]);
     ("Fish", text_column [""; ""])].

(** A record without a Zip column, and one whose Zip column a spreadsheet
    reader has typed as numbers. *)
Definition no_zip : DataFrame :=
  text_frame [("FirstName", ["john"]); ("MiddleName", ["q"]);
              ("LastName", ["doe"]); ("Street", ["123 main st"]);
              ("City", ["lincoln"]); ("State", ["NE"])].

Definition numeric_zip : DataFrame :=
  setitem long_zip "Zip" (mkSeries numeric [Num 68501]).

(** What [nebraska] makes of the second Nebraska file. *)
Definition nebraska_2021_out : DataFrame :=
  mkDataFrame [0]%Z
    [("FirstName", text_column ["John"]);
     ("MiddleName", text_column ["Q"]);
     ("LastName", text_column ["Doe"]);
     ("Suffix", mkSeries numeric [NaN]);
     ("Street", text_column ["123 Main St"]);
     ("City", text_column ["Lincoln"]);
     ("State", text_column ["NE"]);
     ("Zip", text_column ["00685"]);
     ("Hunt", text_column ["Y"]);
     ("Fish", text_column [""])].

(** The first Nebraska file as it would be without its Sex and email
    columns, and a tree where the file is that. *)
Definition nebraska_2020_bare : DataFrame :=
  text_frame
    [("permitYear", ["2020"; "2020"]); ("Permit Type", ["deer"; "elk"]);
     ("FullName", ["JOHN Q DOE"; "MARY ANN O'NEIL"]);
     ("firstName", ["JOHN"; "MARY"]); ("middleName", ["Q"; "ANN"]);
     ("lastName", ["DOE"; "O'NEIL"]);
     ("street", ["123 MAIN ST"; "4 ELM ST"]); ("city", ["LINCOLN"; "OMAHA"]);
     ("state", ["NE"; "NE"]); ("zip", ["685"; "68102"])].

Definition bare_world : World := {|
  listdir := @listdir sample_world;
  isfile := @isfile sample_world;
  read_csv := one_of [("Nebraska/Hunt/2020.txt", nebraska_2020_bare)];
  read_excel := @read_excel sample_world
|}.

(** A sheet without the zip column. *)
Definition sheet_short : Sheet :=
  mkSheet [0]%Z
    [text_column ["zahn"]; text_column ["al"]; text_column ["k"];
     text_column ["3 oak st"]; text_column ["bismarck"]; text_column ["ND"]].

(** A tree whose North Dakota workbook has that sheet only. *)
Definition short_world : World := {|
  listdir := @listdir sample_world;
  isfile := @isfile sample_world;
  read_csv := @read_csv sample_world;
  read_excel := one_of [("North Dakota/Hunt/short.xlsx", [sheet_short])]
|}.

(** A tree whose Nebraska Hunt folder holds a good file and the file
    without its permitYear column. *)
Definition no_year_world : World := {|
  listdir := one_of
    [("Nebraska", ["Hunt"]);
     ("Nebraska/Hunt", ["2020.txt"; "no year.txt"])];
  isfile := @isfile sample_world;
  read_csv := @read_csv sample_world;
  read_excel := @read_excel sample_world
|}.

(** A county folder whose own name holds Fish, with one hunting file. *)
Definition fisher_world : World := {|
  listdir := one_of
    [("Fisher County", ["Hunt"]);
     ("Fisher County/Hunt", ["2021.txt"])];
  isfile := String.eqb "Fisher County/Hunt/2021.txt";
  read_csv := one_of [("Fisher County/Hunt/2021.txt", nebraska_2021)];
  read_excel := one_of []
|}.

(** What [prep_state] makes of that folder. *)
Definition fisher_out : DataFrame :=
  setitem nebraska_2021_out "Fish" (text_column ["Y"]).

(** What [prep_all_states] makes of [sample_world]. *)
Definition all_states : DataFrame :=
  mkDataFrame [0; 1; 0; 1; 2]%Z
    [("FirstName", text_column ["John"; "Mary"; "Ole"; "Lena"; "Al"]);
     ("MiddleName", text_column ["Q"; "Ann"; "J"; "M"; "K"]);
     ("LastName", text_column ["Doe"; "O'Neil"; "Olson"; "Berg"; "Zahn"]);
     ("Suffix", mkSeries numeric [NaN; NaN; NaN; NaN; NaN]);
     ("Street", text_column ["123 Main St"; "4 Elm St"; "1 1St Ave";
                             "22 Main St"; "3 Oak St"]);
     ("City", text_column ["Lincoln"; "Omaha"; "Fargo"; "Minot"; "Bismarck"]);
     ("State", text_column ["NE"; "NE"; "ND"; "ND"; "ND"]);
     ("Zip", text_column ["00685"; "68102"; "58102"; "58701"; "05850"]);
     ("Hunt", text_column ["Y"; "Y"; "Y"; "Y"; "Y"]);
     ("Fish", text_column [""; ""; ""; ""; ""])].

(** * Facts about the text methods *)

(** Decides the comparisons of a goal about character codes, the
    comparisons inside a test first. *)
Ltac is_plain a :=
  lazymatch a with
  | context [if _ then _ else _] => fail
  | _ => idtac
  end.

Ltac by_codes :=
  repeat (match goal with
          | |- context [(?a <=? ?b)%N] =>
              is_plain a; is_plain b; destruct (N.leb_spec a b)
          | |- context [(?a <? ?b)%N] =>
              is_plain a; is_plain b; destruct (N.ltb_spec a b)
          | |- context [(?a =? ?b)%N] =>
              is_plain a; is_plain b; destruct (N.eqb_spec a b)
          end; cbn [andb orb negb]; try lia);
  try reflexivity.

Lemma isspace_title_char b c : isspace (title_char b c) = isspace c.
Proof.
  unfold title_char, upper, lower, islower, isupper.
  destruct b; by_codes; unfold isspace; by_codes.
Qed.

Lemma isletter_title_char b c :
  isupper (title_char b c) || islower (title_char b c)
  = isupper c || islower c.
Proof.
  unfold title_char, upper, lower, islower, isupper. destruct b; by_codes.
Qed.

Lemma title_char_twice b c : title_char b (title_char b c) = title_char b c.
Proof.
  unfold title_char, upper, lower, islower, isupper. destruct b; by_codes.
Qed.

Lemma isascii_title_char b c : isascii c = true -> isascii (title_char b c) = true.
Proof.
  unfold title_char, upper, lower, islower, isupper, isascii.
  intro H. apply N.ltb_lt in H. destruct b; by_codes.
Qed.

(** On a text of ASCII characters [title] reads no entry of the Unicode
    database. *)
Lemma title_from_ascii (s : text) :
  ascii_text s = true ->
  forall b before, title_from b before s = ascii_title_from b s.
Proof.
  induction s as [|c t IH]; intros H b before; [reflexivity|].
  cbn [ascii_text forallb] in H. apply andb_true_iff in H. destruct H as [Hc Ht].
  cbn [title_from ascii_title_from]. unfold tolower, totitle, iscased.
  rewrite Hc, (IH Ht). unfold title_char. destruct b; reflexivity.
Qed.

Lemma title_ascii (s : text) :
  ascii_text s = true -> title s = ascii_title_from false s.
Proof. intro H. apply (title_from_ascii s H). Qed.

Lemma ascii_title_from_ascii (s : text) :
  ascii_text s = true -> forall b, ascii_text (ascii_title_from b s) = true.
Proof.
  induction s as [|c t IH]; intros H b; [reflexivity|].
  cbn [ascii_text forallb] in H. apply andb_true_iff in H. destruct H as [Hc Ht].
  cbn [ascii_title_from ascii_text forallb].
  rewrite (isascii_title_char b c Hc). exact (IH Ht _).
Qed.

Lemma ascii_title_from_twice (s : text) :
  forall b, ascii_title_from b (ascii_title_from b s) = ascii_title_from b s.
Proof.
  induction s as [|c t IH]; intro b; [reflexivity|].
  cbn [ascii_title_from].
  rewrite title_char_twice, isletter_title_char, IH. reflexivity.
Qed.

Lemma ascii_title (s : text) :
  ascii_text s = true -> ascii_text (title s) = true.
Proof.
  intro H. rewrite (title_ascii s H). now apply ascii_title_from_ascii.
Qed.

(** Title-casing a title-cased text of ASCII characters changes nothing. *)
Lemma title_title (s : text) :
  ascii_text s = true -> title (title s) = title s.
Proof.
  intro H. rewrite (title_ascii s H).
  rewrite title_ascii by now apply ascii_title_from_ascii.
  apply ascii_title_from_twice.
Qed.

Lemma rstrip_cons_nonempty c t x r :
  rstrip t = x :: r -> rstrip (c :: t) = c :: rstrip t.
Proof. intro E. cbn [rstrip]. rewrite E. reflexivity. Qed.

Lemma rstrip_rstrip (s : text) : rstrip (rstrip s) = rstrip s.
Proof.
  induction s as [|c t IH]; [reflexivity|].
  cbn [rstrip]. destruct (rstrip t) as [|x r] eqn:E.
  - destruct (isspace c) eqn:Ec; cbn [rstrip]; [reflexivity|].
    rewrite Ec. reflexivity.
  - rewrite (rstrip_cons_nonempty c _ x r IH). rewrite IH. reflexivity.
Qed.

Lemma length_lstrip (s : text) : length (lstrip s) <= length s.
Proof.
  induction s as [|a u IHu]; cbn [lstrip length]; [lia|].
  destruct (isspace a); cbn [length]; lia.
Qed.

Lemma lstrip_head (s : text) :
  lstrip s = s <->
  match s with [] => True | c :: _ => isspace c = false end.
Proof.
  destruct s as [|c t]; cbn [lstrip]; [tauto|].
  destruct (isspace c) eqn:E; split; intro H; try reflexivity; try discriminate.
  exfalso. pose proof (length_lstrip t) as L.
  rewrite H in L. cbn [length] in L. lia.
Qed.

Lemma rstrip_keeps_head c t :
  isspace c = false -> exists r, rstrip (c :: t) = c :: r.
Proof.
  intro E. cbn [rstrip]. destruct (rstrip t) as [|x r].
  - rewrite E. eauto.
  - eauto.
Qed.

Lemma lstrip_lstrip (s : text) : lstrip (lstrip s) = lstrip s.
Proof.
  induction s as [|c t IH]; [reflexivity|].
  cbn [lstrip]. destruct (isspace c) eqn:E; [exact IH|].
  cbn [lstrip]. rewrite E. reflexivity.
Qed.

Lemma stripped_strip (s : text) : stripped (strip s).
Proof.
  unfold stripped, strip. split; [|apply rstrip_rstrip].
  apply lstrip_head.
  pose proof (proj1 (lstrip_head (lstrip s)) (lstrip_lstrip s)) as H.
  destruct (lstrip s) as [|c t]; [exact I|].
  destruct (rstrip_keeps_head c t H) as [r ->]. exact H.
Qed.

Lemma strip_stripped (s : text) : stripped s -> strip s = s.
Proof. intros [L R]. unfold strip. rewrite L. exact R. Qed.

Lemma strip_strip (s : text) : strip (strip s) = strip s.
Proof. apply strip_stripped, stripped_strip. Qed.

Lemma ascii_lstrip (s : text) :
  ascii_text s = true -> ascii_text (lstrip s) = true.
Proof.
  induction s as [|c t IH]; intro H; [reflexivity|].
  cbn [lstrip]. destruct (isspace c); [|exact H].
  cbn [ascii_text forallb] in H. apply andb_true_iff in H. now apply IH.
Qed.

Lemma ascii_rstrip (s : text) :
  ascii_text s = true -> ascii_text (rstrip s) = true.
Proof.
  induction s as [|c t IH]; intro H; [reflexivity|].
  cbn [ascii_text forallb] in H. apply andb_true_iff in H. destruct H as [Hc Ht].
  specialize (IH Ht). cbn [rstrip]. destruct (rstrip t) as [|x r].
  - destruct (isspace c); [reflexivity|].
    cbn [ascii_text forallb]. now rewrite Hc.
  - cbn [ascii_text forallb] in *. now rewrite Hc.
Qed.

Lemma ascii_strip (s : text) :
  ascii_text s = true -> ascii_text (strip s) = true.
Proof. intro H. apply ascii_rstrip, ascii_lstrip, H. Qed.

Lemma rstrip_ascii_title_from (s : text) :
  forall b, rstrip (ascii_title_from b s) = ascii_title_from b (rstrip s).
Proof.
  induction s as [|c t IH]; intro b; [reflexivity|].
  cbn [ascii_title_from rstrip]. rewrite IH.
  destruct (rstrip t) as [|x r].
  - cbn [ascii_title_from]. rewrite isspace_title_char.
    destruct (isspace c); reflexivity.
  - reflexivity.
Qed.

Lemma stripped_title (s : text) :
  ascii_text s = true -> stripped s -> stripped (title s).
Proof.
  intros Ha [L R]. rewrite (title_ascii s Ha). split.
  - apply lstrip_head. apply lstrip_head in L.
    destruct s as [|c t]; [exact I|].
    cbn [ascii_title_from]. rewrite isspace_title_char. exact L.
  - rewrite rstrip_ascii_title_from, R. reflexivity.
Qed.

Lemma length_zfill w s : length (zfill w s) = Nat.max w (length s).
Proof.
  unfold zfill. destruct s as [|c t].
  - rewrite repeat_length. cbn [length]. lia.
  - destruct ((c =? 43) || (c =? 45))%N; cbn [length];
      rewrite length_app, repeat_length; cbn [length]; lia.
Qed.

Lemma zfill_long w s : w <= length s -> zfill w s = s.
Proof.
  intro H. unfold zfill. replace (w - length s) with 0 by lia.
  destruct s as [|c t]; [reflexivity|].
  destruct ((c =? 43) || (c =? 45))%N; reflexivity.
Qed.

Lemma zfill_zfill w s : zfill w (zfill w s) = zfill w s.
Proof. apply zfill_long. rewrite length_zfill. lia. Qed.

Lemma rstrip_zeros n : rstrip (repeat 48%N n) = repeat 48%N n.
Proof.
  induction n as [|n IH]; [reflexivity|].
  cbn [repeat rstrip]. rewrite IH. destruct (repeat 48%N n); reflexivity.
Qed.

Lemma rstrip_after a s x r :
  rstrip s = x :: r -> rstrip (a ++ s) = a ++ rstrip s.
Proof.
  intro E. induction a as [|c a IH]; [reflexivity|].
  cbn [app rstrip]. rewrite IH, E. destruct a; reflexivity.
Qed.

Lemma rstrip_zeros_before n s : rstrip s = s -> rstrip (repeat 48%N n ++ s) = repeat 48%N n ++ s.
Proof.
  intro R. destruct s as [|x r].
  - rewrite app_nil_r. apply rstrip_zeros.
  - rewrite (rstrip_after _ _ x r); rewrite R; reflexivity.
Qed.

(** Zero-filling a text with no white space at its ends leaves none. *)
Lemma stripped_zfill w s : stripped s -> stripped (zfill w s).
Proof.
  intros [L R]. unfold zfill.
  destruct (w - length s) as [|k] eqn:Ek.
  { destruct s as [|c t]; [split; reflexivity|].
    destruct ((c =? 43) || (c =? 45))%N; split; assumption. }
  destruct s as [|c t]; [split; [reflexivity | apply rstrip_zeros]|].
  destruct ((c =? 43) || (c =? 45))%N eqn:Es.
  - apply lstrip_head in L. split.
    + apply lstrip_head. exact L.
    + destruct (rstrip_keeps_head c t L) as [r' Hr]. rewrite Hr in R.
      assert (rstrip (repeat 48%N (S k) ++ t) = repeat 48%N (S k) ++ t) as E.
      { apply rstrip_zeros_before. cbn [rstrip] in Hr.
        destruct (rstrip t) as [|x r] eqn:Et.
        - destruct (isspace c); [discriminate|].
          inversion Hr; inversion R; congruence.
        - inversion Hr; inversion R; congruence. }
      cbn [rstrip]. rewrite E. reflexivity.
  - split.
    + apply lstrip_head. reflexivity.
    + now apply rstrip_zeros_before.
Qed.

Open Scope string_scope.

Lemma prefix_iff (n h : string) :
  String.prefix n h = true <-> exists b, h = n ++ b.
Proof.
  revert h. induction n as [|c n IH]; intro h; simpl.
  - destruct h; split; eauto.
  - destruct h as [|d h]; [split; [discriminate | intros [b Hb]; discriminate]|].
    simpl. destruct (ascii_dec c d) as [->|Hne].
    + rewrite IH. split; intros [b Hb]; exists b; [now rewrite Hb | now inversion Hb].
    + split; [discriminate | intros [b Hb]; inversion Hb; subst; contradiction].
Qed.

Lemma contains_iff (n h : string) : contains n h = true <-> occurs_in n h.
Proof.
  unfold occurs_in. induction h as [|d h IH].
  - change (contains n "") with (String.prefix n "" || false).
    rewrite orb_false_r, prefix_iff. split.
    + intros [b Hb]. exists "", b. exact Hb.
    + intros [a [b Hb]]. destruct a; [eauto | discriminate].
  - change (contains n (String d h))
      with (String.prefix n (String d h) || contains n h).
    rewrite orb_true_iff, IH, prefix_iff. split.
    + intros [[b Hb] | [a [b Hb]]].
      * exists "", b. exact Hb.
      * exists (String d a), b. simpl. now rewrite Hb.
    + intros [a [b Hb]]. destruct a as [|c a].
      * left. eauto.
      * right. inversion Hb. eauto.
Qed.

Open Scope list_scope.

(** * Facts about [result] *)

Lemma bind_Ok {A B : Type} (m : result A) (k : A -> result B) (b : B) :
  bind m k = Ok b -> exists a, m = Ok a /\ k a = Ok b.
Proof. destruct m as [a|e]; simpl; [eauto | discriminate]. Qed.

(** Splits a successful [x <- m ;; k] met in hypothesis [H]. *)
Ltac bind_inv H x Hx :=
  apply bind_Ok in H; destruct H as [x [Hx H]].

Lemma Ok_inj {A : Type} (a b : A) : Ok a = Ok b -> a = b.
Proof. intro H. now inversion H. Qed.

Lemma mapM_Ok {A B : Type} (f : A -> result B) (l : list A) (l' : list B) :
  mapM f l = Ok l' -> Forall2 (fun a b => f a = Ok b) l l'.
Proof.
  revert l'. induction l as [|a t IH]; intros l' H; simpl in H.
  - inversion H. constructor.
  - bind_inv H b Hb. bind_inv H bs Hbs. inversion H; subst.
    constructor; auto.
Qed.

Lemma Forall2_In_r {A B : Type} (R : A -> B -> Prop) l l' b :
  Forall2 R l l' -> In b l' -> exists a, In a l /\ R a b.
Proof.
  intro H. induction H as [|x y l l' Hxy _ IH]; intro Hin; [contradiction|].
  destruct Hin as [<-|Hin].
  - exists x. split; [now left | exact Hxy].
  - destruct (IH Hin) as (a & Ha & Hr). exists a. split; [now right | exact Hr].
Qed.

Lemma Forall2_In_l {A B : Type} (R : A -> B -> Prop) l l' a :
  Forall2 R l l' -> In a l -> exists b, In b l' /\ R a b.
Proof.
  intro H. induction H as [|x y l l' Hxy _ IH]; intro Hin; [contradiction|].
  destruct Hin as [<-|Hin].
  - exists y. split; [now left | exact Hxy].
  - destruct (IH Hin) as (b & Hb & Hr). exists b. split; [now right | exact Hr].
Qed.

Lemma mapM_total {A B : Type} (f : A -> result B) (g : A -> B) (l : list A) :
  (forall a, In a l -> f a = Ok (g a)) -> mapM f l = Ok (map g l).
Proof.
  induction l as [|a t IH]; intro H; simpl; [reflexivity|].
  rewrite (H a (or_introl eq_refl)). simpl.
  rewrite IH by (intros; apply H; now right). reflexivity.
Qed.

Lemma mapM_app {A B : Type} (f : A -> result B) (l1 l2 : list A) :
  mapM f (l1 ++ l2) =
  (a <- mapM f l1 ;; b <- mapM f l2 ;; Ok (a ++ b)).
Proof.
  induction l1 as [|x t IH]; simpl.
  - destruct (mapM f l2); reflexivity.
  - destruct (f x); simpl; [|reflexivity].
    rewrite IH. destruct (mapM f t); simpl; [|reflexivity].
    destruct (mapM f l2); reflexivity.
Qed.

(** * Facts about columns and frames *)

Lemma Series_eta (x : Series) : mkSeries (dtype_of x) (values x) = x.
Proof. destruct x; reflexivity. Qed.

Lemma DataFrame_eta (df : DataFrame) :
  mkDataFrame (index df) (columns df) = df.
Proof. destruct df; reflexivity. Qed.

Lemma unique_NoDup (l : list string) : unique l = true <-> NoDup l.
Proof.
  induction l as [|a t IH]; simpl.
  - split; [constructor | reflexivity].
  - rewrite andb_true_iff, negb_true_iff, IH. split.
    + intros [H1 H2]. constructor; [|exact H2].
      intro Hin. assert (existsb (String.eqb a) t = true) as E.
      { apply existsb_exists. exists a. split; [exact Hin | apply String.eqb_refl]. }
      congruence.
    + intro H. inversion H as [|? ? Hn Hd]; subst. split; [|exact Hd].
      destruct (existsb (String.eqb a) t) eqn:E; [|reflexivity].
      apply existsb_exists in E. destruct E as [b [Hb Eb]].
      apply String.eqb_eq in Eb. subst b. contradiction.
Qed.

Lemma has_column_In (df : DataFrame) (n : string) :
  has_column df n = true <-> In n (labels df).
Proof.
  unfold has_column. rewrite existsb_exists. split.
  - intros [m [Hm E]]. apply String.eqb_eq in E. now subst.
  - intro H. exists n. split; [exact H | apply String.eqb_refl].
Qed.

Lemma lookup_None (n : string) (cols : list (string * Series)) :
  lookup n cols = None <-> ~ In n (map fst cols).
Proof.
  induction cols as [|[m x] t IH]; simpl; [tauto|].
  destruct (String.eqb m n) eqn:E.
  - apply String.eqb_eq in E. split; [discriminate | intro H; exfalso; auto].
  - apply String.eqb_neq in E. rewrite IH. tauto.
Qed.

Lemma lookup_In (n : string) (x : Series) (cols : list (string * Series)) :
  lookup n cols = Some x -> In (n, x) cols.
Proof.
  induction cols as [|[m y] t IH]; simpl; [discriminate|].
  destruct (String.eqb m n) eqn:E.
  - apply String.eqb_eq in E. intro H. inversion H; subst. now left.
  - intro H. right. auto.
Qed.

Lemma In_lookup (n : string) (x : Series) (cols : list (string * Series)) :
  NoDup (map fst cols) -> In (n, x) cols -> lookup n cols = Some x.
Proof.
  induction cols as [|[m y] t IH]; simpl; [tauto|].
  intros Hd [H|H]; inversion Hd as [|? ? Hn Hd']; subst.
  - inversion H; subst. now rewrite String.eqb_refl.
  - destruct (String.eqb m n) eqn:E; [|auto].
    apply String.eqb_eq in E. subst m. exfalso. apply Hn.
    apply (in_map fst) in H. exact H.
Qed.

Lemma named_lookup n cols c rest :
  named n cols = c :: rest -> lookup n cols = Some (snd c).
Proof.
  unfold named. induction cols as [|[m y] t IH]; simpl; [discriminate|].
  destruct (String.eqb m n) eqn:E; [|exact IH].
  intro H. inversion H. reflexivity.
Qed.

Lemma getitem_lookup df n x :
  getitem df n = Ok x -> lookup n (columns df) = Some x.
Proof.
  unfold getitem. fold (named n (columns df)).
  destruct (named n (columns df)) as [|c [|c' rest]] eqn:E; try discriminate.
  intro H. inversion H; subst. exact (named_lookup _ _ _ _ E).
Qed.

Lemma getitem_has_column df n x :
  getitem df n = Ok x -> has_column df n = true.
Proof.
  intro H. apply getitem_lookup, lookup_In in H.
  apply has_column_In. apply (in_map fst) in H. exact H.
Qed.

Lemma named_NoDup n cols :
  NoDup (map fst cols) ->
  named n cols = match lookup n cols with Some x => [(n, x)] | None => [] end.
Proof.
  unfold named. induction cols as [|[m y] t IH]; simpl; [reflexivity|].
  intro Hd. inversion Hd as [|? ? Hn Hd']; subst.
  destruct (String.eqb m n) eqn:E.
  - apply String.eqb_eq in E. subst m. rewrite IH by exact Hd'.
    apply lookup_None in Hn. rewrite Hn. reflexivity.
  - auto.
Qed.

Lemma lookup_getitem df n x :
  NoDup (labels df) -> lookup n (columns df) = Some x -> getitem df n = Ok x.
Proof.
  intros Hd H. unfold getitem. fold (named n (columns df)).
  rewrite (named_NoDup _ _ Hd), H. reflexivity.
Qed.

Lemma labels_map_named n h cols : map fst (map_named n h cols) = map fst cols.
Proof. unfold map_named. rewrite map_map. reflexivity. Qed.

Lemma named_single n cols c :
  named n cols = [c] -> forall d, In d cols -> fst d = n -> d = c.
Proof.
  unfold named. intros H d Hd En.
  assert (In d (filter (fun c => String.eqb (fst c) n) cols)) as Hin.
  { apply filter_In. split; [exact Hd|]. rewrite En. apply String.eqb_refl. }
  rewrite H in Hin. destruct Hin as [E|[]]. now symmetry.
Qed.

(** Assigning to a column that was read from the frame rewrites that one
    column. *)
Lemma setitem_getitem df n x h :
  getitem df n = Ok x ->
  setitem df n (h x) = mkDataFrame (index df) (map_named n h (columns df)).
Proof.
  intro H. unfold setitem. rewrite (getitem_has_column _ _ _ H).
  f_equal. unfold map_named. apply map_ext_in. intros d Hd.
  destruct (String.eqb (fst d) n) eqn:E; [|now destruct d].
  apply String.eqb_eq in E.
  unfold getitem in H. fold (named n (columns df)) in H.
  destruct (named n (columns df)) as [|c [|c' rest]] eqn:En; try discriminate.
  inversion H; subst x. pose proof (named_single _ _ _ En d Hd E) as Hc.
  subst c. rewrite E. reflexivity.
Qed.

Lemma lookup_setitem_same df n x :
  lookup n (columns (setitem df n x)) = Some x.
Proof.
  unfold setitem. simpl. destruct (has_column df n) eqn:E.
  - apply has_column_In in E. unfold labels in E.
    induction (columns df) as [|[m y] t IH]; simpl in *; [contradiction|].
    destruct (String.eqb m n) eqn:Em; simpl.
    + now rewrite String.eqb_refl.
    + rewrite Em. apply IH. destruct E as [E|E]; [|exact E].
      apply String.eqb_neq in Em. contradiction.
  - assert (~ In n (labels df)) as Hn.
    { intro Hin. apply has_column_In in Hin. congruence. }
    unfold labels in Hn.
    induction (columns df) as [|[m y] t IH]; simpl in *.
    + now rewrite String.eqb_refl.
    + destruct (String.eqb m n) eqn:Em.
      * apply String.eqb_eq in Em. exfalso. auto.
      * apply IH. auto.
Qed.

Lemma lookup_setitem_other df n m x :
  n <> m -> lookup n (columns (setitem df m x)) = lookup n (columns df).
Proof.
  intro Hne. unfold setitem. simpl. destruct (has_column df m).
  - induction (columns df) as [|[k y] t IH]; simpl; [reflexivity|].
    destruct (String.eqb k m) eqn:Ek; simpl.
    + apply String.eqb_eq in Ek. subst k.
      assert (String.eqb m n = false) as E by (apply String.eqb_neq; auto).
      rewrite E. exact IH.
    + destruct (String.eqb k n); [reflexivity | exact IH].
  - induction (columns df) as [|[k y] t IH]; simpl.
    + assert (String.eqb m n = false) as E by (apply String.eqb_neq; auto).
      now rewrite E.
    + destruct (String.eqb k n); [reflexivity | exact IH].
Qed.

Lemma labels_setitem df n x :
  labels (setitem df n x) =
  if has_column df n then labels df else labels df ++ [n].
Proof.
  unfold setitem, labels. simpl. destruct (has_column df n).
  - rewrite map_map. apply map_ext_in. intros [m y] _. simpl.
    destruct (String.eqb m n) eqn:E; [|reflexivity].
    apply String.eqb_eq in E. now subst.
  - rewrite map_app. reflexivity.
Qed.

Lemma NoDup_labels_setitem df n x :
  NoDup (labels df) -> NoDup (labels (setitem df n x)).
Proof.
  intro H. rewrite labels_setitem. destruct (has_column df n) eqn:E; [exact H|].
  assert (~ In n (labels df)) as Hn.
  { intro Hin. apply has_column_In in Hin. congruence. }
  apply NoDup_app; [exact H | repeat constructor; simpl; tauto |].
  intros a Ha [<-|[]]. contradiction.
Qed.

Lemma well_formed_setitem df n x :
  well_formed df -> length (values x) = nrows df -> well_formed (setitem df n x).
Proof.
  unfold well_formed, setitem, nrows. simpl. intros H Hx.
  destruct (has_column df n).
  - apply Forall_map. eapply Forall_impl; [|exact H].
    intros [m y] Hy. simpl in *. destruct (String.eqb m n); simpl; assumption.
  - apply Forall_app. split; [exact H | repeat constructor; exact Hx].
Qed.

(** * The stages of [_common] *)

Lemma _common_stages (df : DataFrame) (PATH : string) :
  _common df PATH =
  (c <- clean df ;; t <- tag (drop_duplicates c) PATH ;;
   reindex t standard_columns).
Proof.
  unfold _common, clean, tag.
  destruct (apply strip_if_object df) as [df1|]; cbn [bind]; [|reflexivity].
  destruct (getitem df1 "Zip") as [zip|]; cbn [bind]; [|reflexivity].
  destruct (str_zfill 5 zip) as [zip'|]; cbn [bind]; [|reflexivity].
  destruct (title_columns to_title (setitem df1 "Zip" zip')) as [c|];
    cbn [bind]; [|reflexivity].
  match goal with
  | |- bind ?m _ = _ => destruct m as [hunt|]; cbn [bind]; [|reflexivity]
  end.
  match goal with
  | |- bind ?m _ = _ => destruct m as [fish|]; cbn [bind]; reflexivity
  end.
Qed.

Lemma str_map_Ok f x y :
  str_map f x = Ok y -> dtype_of x = object /\ y = str_col f x.
Proof.
  unfold str_map, str_accessor, str_col. destruct (dtype_of x); [|discriminate].
  destruct (existsb is_num (values x) && negb (existsb is_str (values x)));
    simpl; [discriminate|].
  intro H. inversion H. auto.
Qed.

Lemma is_num_str_method f c : is_num (str_method f c) = false.
Proof. destruct c; reflexivity. Qed.

Lemma no_num_str_col f x : existsb is_num (values (str_col f x)) = false.
Proof.
  unfold str_col. simpl. induction (values x) as [|c t IH]; [reflexivity|].
  simpl. now rewrite is_num_str_method.
Qed.

(** A column without numbers among its values is accepted by [.str]. *)
Lemma str_map_total f x :
  dtype_of x = object -> existsb is_num (values x) = false ->
  str_map f x = Ok (str_col f x).
Proof.
  intros Hd Hn. unfold str_map, str_accessor. rewrite Hd, Hn. reflexivity.
Qed.

Lemma str_method_compose f g c :
  str_method f (str_method g c) = str_method (fun s => f (g s)) c.
Proof. destruct c; reflexivity. Qed.

Lemma str_col_compose f g x :
  str_col f (str_col g x) = str_col (fun s => f (g s)) x.
Proof.
  unfold str_col. simpl. rewrite map_map. f_equal.
  apply map_ext. intro c. apply str_method_compose.
Qed.

Lemma reads_text_all n cols :
  reads_text n cols ->
  forall d, In d cols -> fst d = n -> dtype_of (snd d) = object.
Proof.
  intros (c & E & Hd) d Hin En. now rewrite (named_single _ _ _ E d Hin En).
Qed.

(** One step [df[n] = df[n].str.f()]. *)
Lemma str_step df n f z z' :
  getitem df n = Ok z -> str_map f z = Ok z' ->
  setitem df n z' = mkDataFrame (index df) (map_named n (str_col f) (columns df))
  /\ reads_text n (columns df).
Proof.
  intros Hg Hs. apply str_map_Ok in Hs. destruct Hs as [Hd ->]. split.
  - apply (setitem_getitem df n z (str_col f) Hg).
  - unfold getitem in Hg. fold (named n (columns df)) in Hg.
    destruct (named n (columns df)) as [|c [|c' rest]] eqn:E; try discriminate.
    inversion Hg; subst z. exists c. auto.
Qed.

Lemma title_columns_Ok names :
  forall df c, title_columns names df = Ok c ->
    c = mkDataFrame (index df) (titled names (columns df)) /\
    title_accepts names (columns df).
Proof.
  induction names as [|n rest IH]; intros df c H; simpl in H.
  - inversion H. split; [symmetry; apply DataFrame_eta | exact I].
  - bind_inv H z Hz. bind_inv H z' Hz'.
    destruct (str_step df n title z z' Hz Hz') as [Hset Hacc].
    apply IH in H. rewrite Hset in H. simpl in H. destruct H as [-> Ht].
    simpl. auto.
Qed.

Lemma dtype_strip_col x : dtype_of (strip_col x) = dtype_of x.
Proof. unfold strip_col. destruct (dtype_of x) eqn:E; [reflexivity | exact E]. Qed.

Lemma strip_if_object_Ok x y : strip_if_object x = Ok y -> y = strip_col x.
Proof.
  unfold strip_if_object, strip_col, str_strip.
  destruct (dtype_of x); intro H.
  - apply str_map_Ok in H. tauto.
  - now inversion H.
Qed.

Lemma empty_column_fixed (h : Series -> Series) (x : Series) :
  values x = [] -> (dtype_of x = object -> h x = mkSeries object []) ->
  (dtype_of x = numeric -> h x = x) -> h x = x.
Proof.
  destruct x as [[] v]; simpl; intros -> Ho Hn; auto.
Qed.

Lemma strip_col_empty x : values x = [] -> strip_col x = x.
Proof.
  intro H. apply empty_column_fixed; [exact H | |]; unfold strip_col;
    intros ->; [|reflexivity].
  unfold str_col. now rewrite H.
Qed.

Lemma clean_column_empty n x : values x = [] -> clean_column n x = x.
Proof.
  intro H. apply empty_column_fixed; [exact H | |]; unfold clean_column;
    intros ->; [|reflexivity].
  unfold str_col. now rewrite H.
Qed.

Lemma map_fixed {A : Type} (g : A -> A) (l : list A) :
  (forall a, In a l -> g a = a) -> map g l = l.
Proof.
  intro H. rewrite <- (map_id l) at 2. apply map_ext_in. exact H.
Qed.

Lemma apply_strip_Ok df df1 :
  well_formed df -> apply strip_if_object df = Ok df1 ->
  df1 = mkDataFrame (index df)
          (map (fun c => (fst c, strip_col (snd c))) (columns df)).
Proof.
  intros Hwf H. unfold apply in H.
  assert (forall A (a : A) l, length (a :: l) <> 0) as Hlen by (simpl; lia).
  destruct (index df) as [|i idx] eqn:Ei.
  - inversion H; subst df1. rewrite <- Ei, map_fixed; [now rewrite DataFrame_eta|].
    intros [n x] Hin. simpl. f_equal. apply strip_col_empty.
    unfold well_formed in Hwf. rewrite Forall_forall in Hwf.
    specialize (Hwf _ Hin). unfold nrows in Hwf. rewrite Ei in Hwf. simpl in Hwf.
    now apply length_zero_iff_nil.
  - destruct (columns df) as [|c cols] eqn:Ec.
    + inversion H; subst df1. destruct df; simpl in *. now subst.
    + bind_inv H cols' Hm. inversion H; subst df1. f_equal.
      apply mapM_Ok in Hm. clear -Hm.
      induction Hm as [|a b l l' Hab _ IH]; [reflexivity|].
      simpl. rewrite <- IH. f_equal.
      bind_inv Hab y Hy. inversion Hab. now rewrite (strip_if_object_Ok _ _ Hy).
Qed.

Lemma str_col_strip_col f x :
  dtype_of x = object ->
  str_col f (strip_col x) = str_col (fun s => f (strip s)) x.
Proof.
  intro H. unfold strip_col. rewrite H. apply str_col_compose.
Qed.

Lemma clean_column_object n x :
  dtype_of x = object -> clean_column n x = str_col (text_of n) x.
Proof. intro H. unfold clean_column. now rewrite H. Qed.

Lemma clean_column_plain n x :
  String.eqb n "Zip" = false -> existsb (String.eqb n) to_title = false ->
  clean_column n x = strip_col x.
Proof.
  intros Hz Ht. unfold clean_column, strip_col, str_col, text_of.
  destruct (dtype_of x); [|reflexivity].
  f_equal. apply map_ext. intros [s| |]; cbn [str_method]; try reflexivity.
  now rewrite Hz, Ht.
Qed.

(** On a well-formed frame, [clean] can only return [cleaned]. *)
Lemma clean_Ok df c : well_formed df -> clean df = Ok c -> c = cleaned df.
Proof.
  intros Hwf H. unfold clean in H.
  bind_inv H df1 H1. bind_inv H z Hz. bind_inv H z' Hz'.
  apply (apply_strip_Ok _ _ Hwf) in H1. subst df1.
  destruct (str_step _ _ _ _ _ Hz Hz') as [Hset Hzip].
  rewrite Hset in H. apply title_columns_Ok in H. destruct H as [-> Hacc].
  cbn [index columns] in *. unfold cleaned. f_equal.
  cbn [to_title titled title_accepts] in *.
  destruct Hacc as (A1 & A2 & A3 & A4 & A5 & _).
  pose proof (reads_text_all _ _ Hzip) as B0. clear Hzip. rename B0 into Hzip.
  pose proof (reads_text_all _ _ A1) as B1. clear A1. rename B1 into A1.
  pose proof (reads_text_all _ _ A2) as B2. clear A2. rename B2 into A2.
  pose proof (reads_text_all _ _ A3) as B3. clear A3. rename B3 into A3.
  pose proof (reads_text_all _ _ A4) as B4. clear A4. rename B4 into A4.
  pose proof (reads_text_all _ _ A5) as B5. clear A5. rename B5 into A5.
  unfold map_named in *. rewrite !map_map in *. apply map_ext_in.
  intros [m x] Hin. cbn [fst snd].
  assert (forall (G : string * Series -> string * Series),
             In (G (m, x)) (map G (columns df))) as Hmap
      by (intro G; apply in_map; exact Hin).
  specialize (Hzip _ (Hmap _)). specialize (A1 _ (Hmap _)).
  specialize (A2 _ (Hmap _)). specialize (A3 _ (Hmap _)).
  specialize (A4 _ (Hmap _)). specialize (A5 _ (Hmap _)).
  clear Hmap Hin Hset Hz Hz'. cbn [fst snd] in *.
  destruct (String.eqb m "Zip") eqn:E0.
  { apply String.eqb_eq in E0. subst m. cbn in *.
    specialize (Hzip eq_refl). rewrite dtype_strip_col in Hzip.
    rewrite clean_column_object, str_col_strip_col by exact Hzip. reflexivity. }
  cbn [fst snd] in *.
  destruct (String.eqb m "FirstName") eqn:E1.
  { apply String.eqb_eq in E1. subst m. cbn in *.
    specialize (A1 eq_refl). rewrite dtype_strip_col in A1.
    rewrite clean_column_object, str_col_strip_col by exact A1. reflexivity. }
  cbn [fst snd] in *.
  destruct (String.eqb m "MiddleName") eqn:E2.
  { apply String.eqb_eq in E2. subst m. cbn in *.
    specialize (A2 eq_refl). rewrite dtype_strip_col in A2.
    rewrite clean_column_object, str_col_strip_col by exact A2. reflexivity. }
  cbn [fst snd] in *.
  destruct (String.eqb m "LastName") eqn:E3.
  { apply String.eqb_eq in E3. subst m. cbn in *.
    specialize (A3 eq_refl). rewrite dtype_strip_col in A3.
    rewrite clean_column_object, str_col_strip_col by exact A3. reflexivity. }
  cbn [fst snd] in *.
  destruct (String.eqb m "Street") eqn:E4.
  { apply String.eqb_eq in E4. subst m. cbn in *.
    specialize (A4 eq_refl). rewrite dtype_strip_col in A4.
    rewrite clean_column_object, str_col_strip_col by exact A4. reflexivity. }
  cbn [fst snd] in *.
  destruct (String.eqb m "City") eqn:E5.
  { apply String.eqb_eq in E5. subst m. cbn in *.
    specialize (A5 eq_refl). rewrite dtype_strip_col in A5.
    rewrite clean_column_object, str_col_strip_col by exact A5. reflexivity. }
  f_equal. symmetry. apply clean_column_plain; [exact E0|].
  cbn [to_title existsb]. now rewrite E1, E2, E3, E4, E5.
Qed.

Lemma apply_shape f df df1 :
  apply f df = Ok df1 -> index df1 = index df /\ labels df1 = labels df.
Proof.
  unfold apply. intro H.
  destruct (index df) as [|i idx] eqn:Ei.
  - inversion H; subst. auto.
  - destruct (columns df) as [|c cols] eqn:Ec.
    + inversion H; subst. auto.
    + bind_inv H cols' Hm. inversion H; subst df1. simpl. split; [reflexivity|].
      apply mapM_Ok in Hm. unfold labels. rewrite Ec. cbn [columns].
      clear H. generalize dependent (c :: cols). intros l _ Hm.
      induction Hm as [|a b l l' Hab _ IH]; [reflexivity|].
      simpl. rewrite IH. f_equal.
      bind_inv Hab y Hy. now inversion Hab.
Qed.

Lemma labels_titled names cols : map fst (titled names cols) = map fst cols.
Proof.
  revert cols. induction names as [|n rest IH]; intro cols; [reflexivity|].
  simpl. now rewrite IH, labels_map_named.
Qed.

(** [clean] keeps the row labels and the column labels. *)
Lemma clean_shape df c :
  clean df = Ok c -> index c = index df /\ labels c = labels df.
Proof.
  intro H. unfold clean in H.
  bind_inv H df1 H1. bind_inv H z Hz. bind_inv H z' Hz'.
  apply apply_shape in H1. destruct H1 as [Hi Hl].
  destruct (str_step _ _ _ _ _ Hz Hz') as [Hset _].
  rewrite Hset in H. apply title_columns_Ok in H. destruct H as [-> _].
  unfold labels in *. cbn [columns index].
  rewrite labels_titled, labels_map_named. auto.
Qed.

Lemma labels_drop_duplicates df : labels (drop_duplicates df) = labels df.
Proof.
  unfold drop_duplicates, labels. simpl. rewrite map_map. reflexivity.
Qed.

Lemma values_flag name PATH n :
  values (flag name PATH n) =
  repeat (Str (if contains name PATH then "Y" else "")) n.
Proof.
  unfold flag, series_apply, tag_if_in. simpl.
  destruct n as [|n]; [reflexivity|].
  cbn [repeat map values]. f_equal; [destruct (contains name PATH); reflexivity|].
  induction n as [|n IH]; [reflexivity|].
  simpl. rewrite IH. destruct (contains name PATH); reflexivity.
Qed.

Lemma dtype_flag name PATH n : dtype_of (flag name PATH n) = object.
Proof.
  unfold flag, series_apply, tag_if_in. simpl.
  destruct n as [|n]; [reflexivity|]. simpl.
  destruct (contains name PATH); reflexivity.
Qed.

Lemma has_column_setitem df m y name :
  has_column (setitem df m y) name
  = has_column df name || String.eqb name m.
Proof.
  unfold has_column at 1. rewrite labels_setitem.
  destruct (has_column df m) eqn:Em.
  - fold (has_column df name).
    destruct (String.eqb name m) eqn:E; [|now rewrite orb_false_r].
    apply String.eqb_eq in E. subst m. rewrite Em. reflexivity.
  - rewrite existsb_app. cbn [existsb]. now rewrite orb_false_r.
Qed.

(** Writing the column again after [f] has been run on it. *)
Lemma apply_to_column_same df name x f :
  apply_to_column (setitem df name x) name f
  = Ok (setitem df name (series_apply f x)).
Proof.
  unfold apply_to_column. rewrite has_column_setitem, String.eqb_refl, orb_true_r.
  f_equal. unfold setitem. cbn [index columns]. f_equal.
  destruct (has_column df name) eqn:E.
  - rewrite map_map. apply map_ext. intros [m y]. cbn [fst snd].
    destruct (String.eqb m name) eqn:Em; cbn [fst snd]; rewrite ?Em;
      [rewrite String.eqb_refl|]; reflexivity.
  - rewrite map_app. cbn [map fst snd]. rewrite String.eqb_refl. f_equal.
    apply map_fixed. intros [m y] Hin. cbn [fst].
    destruct (String.eqb m name) eqn:Em; [|reflexivity].
    apply String.eqb_eq in Em. subst m. exfalso.
    assert (has_column df name = true) as Hc
        by (apply has_column_In; unfold labels; now apply (in_map fst) in Hin).
    congruence.
Qed.

(** [f] run on one column and another column written: in either order. *)
Lemma apply_to_column_other df m y name f :
  name <> m ->
  apply_to_column (setitem df m y) name f
  = (r <- apply_to_column df name f ;; Ok (setitem r m y)).
Proof.
  intro Hne. unfold apply_to_column. rewrite has_column_setitem.
  assert (String.eqb name m = false) as E by now apply String.eqb_neq.
  assert (String.eqb m name = false) as E' by (apply String.eqb_neq; auto).
  rewrite E, orb_false_r. destruct (has_column df name); [|reflexivity].
  cbn [bind]. f_equal. unfold setitem. cbn [index columns].
  assert (has_column
            (mkDataFrame (index df)
               (map (fun c => if String.eqb (fst c) name
                              then (name, series_apply f (snd c)) else c)
                    (columns df))) m
          = has_column df m) as Hm.
  { unfold has_column, labels. cbn [columns]. rewrite map_map. f_equal.
    apply map_ext. intros [k z]. cbn [fst snd].
    destruct (String.eqb k name) eqn:Ek; [|reflexivity].
    apply String.eqb_eq in Ek. now subst k. }
  rewrite Hm. f_equal. destruct (has_column df m).
  - rewrite !map_map. apply map_ext. intros [k z]. cbn [fst snd].
    destruct (String.eqb k m) eqn:Ek; cbn [fst snd].
    + apply String.eqb_eq in Ek. subst k. rewrite E'. cbn [fst].
      rewrite String.eqb_refl. reflexivity.
    + destruct (String.eqb k name) eqn:Ek'; cbn [fst]; [|now rewrite Ek].
      rewrite E. reflexivity.
  - rewrite map_app. cbn [map fst]. rewrite E'. reflexivity.
Qed.

(** The frame that [tag] returns. *)
Lemma tag_flags df PATH :
  tag df PATH
  = Ok (setitem (setitem df "Hunt" (flag "Hunt" PATH (nrows df)))
                "Fish" (flag "Fish" PATH (nrows df))).
Proof.
  unfold tag, setitem_scalar. cbn [is_str].
  rewrite apply_to_column_other by discriminate.
  rewrite apply_to_column_same. cbn [bind].
  change (nrows (setitem df "Hunt" _)) with (nrows df).
  rewrite apply_to_column_same. reflexivity.
Qed.

Lemma tag_Ok df PATH t :
  tag df PATH = Ok t ->
  index t = index df /\
  lookup "Hunt" (columns t) = Some (flag "Hunt" PATH (nrows df)) /\
  lookup "Fish" (columns t) = Some (flag "Fish" PATH (nrows df)) /\
  (forall n, n <> "Hunt" -> n <> "Fish" ->
             lookup n (columns t) = lookup n (columns df)) /\
  (NoDup (labels t) -> NoDup (labels df)) /\
  (forall n, In n (labels df) -> In n (labels t)).
Proof.
  rewrite tag_flags. intro H. apply Ok_inj in H. subst t.
  repeat split.
  - rewrite lookup_setitem_other, lookup_setitem_same by discriminate. reflexivity.
  - apply lookup_setitem_same.
  - intros n H1 H2. now rewrite !lookup_setitem_other by auto.
  - rewrite !labels_setitem.
    repeat match goal with
           | |- context [if ?b then _ else _] => destruct b
           end; intro Hd; auto;
      repeat (apply NoDup_app_remove_r in Hd); auto.
  - intros n Hn. rewrite !labels_setitem.
    repeat match goal with
           | |- context [if ?b then _ else _] => destruct b
           end; repeat (apply in_or_app; left); auto.
Qed.

Lemma reindex_Ok df names out :
  reindex df names = Ok out ->
  NoDup (labels df) /\
  out = mkDataFrame (index df) (map (fun n => (n, column_or_nan n df)) names).
Proof.
  unfold reindex. destruct (unique (labels df)) eqn:E; [|discriminate].
  intro H. inversion H. split; [now apply unique_NoDup | reflexivity].
Qed.

(** What a successful run of [_common] went through. *)
Lemma _common_Ok df PATH out :
  _common df PATH = Ok out ->
  exists c t,
    clean df = Ok c /\ tag (drop_duplicates c) PATH = Ok t /\
    NoDup (labels t) /\
    out = mkDataFrame (index t)
            (map (fun n => (n, column_or_nan n t)) standard_columns).
Proof.
  rewrite _common_stages. intro H.
  bind_inv H c Hc. bind_inv H t Ht. apply reindex_Ok in H.
  exists c, t. tauto.
Qed.

Lemma sample_runs : _common sample sample_path = Ok sample_out.
Proof. vm_compute. reflexivity. Qed.

(** * The output columns *)

Lemma _common_labels (df : DataFrame) (PATH : string) (out : DataFrame) :
  _common df PATH = Ok out -> labels out = standard_columns.
Proof.
  intro H. apply _common_Ok in H. destruct H as (c & t & _ & _ & _ & ->).
  reflexivity.
Qed.

(** C7. Whatever the record set and the path, a run of [_common] that
    returns gives a frame whose columns are exactly the ten standard ones,
    in the fixed order FirstName, MiddleName, LastName, Suffix, Street,
    City, State, Zip, Hunt, Fish. *)
Theorem common_output_columns (df : DataFrame) (PATH : string) (out : DataFrame) :
  _common df PATH = Ok out ->
  labels out =
    ["FirstName"; "MiddleName"; "LastName"; "Suffix"; "Street"; "City";
     "State"; "Zip"; "Hunt"; "Fish"]
  /\ length (columns out) = 10.
Proof.
  intro H. apply _common_labels in H. unfold labels in *.
  split; [exact H|]. rewrite <- (length_map fst), H. reflexivity.
Qed.

(** * Hunt and Fish *)

(** C3. In the output of [_common] the Hunt column holds "Y" on every row
    when "Hunt" occurs somewhere in the path and "" on every row when it
    does not, and the Fish column does the same for "Fish"; neither flag
    looks at the other. *)
Theorem hunt_fish_follow_path (df : DataFrame) (PATH : string) (out : DataFrame) :
  _common df PATH = Ok out ->
  exists hunt fish,
    getitem out "Hunt" = Ok hunt /\ getitem out "Fish" = Ok fish /\
    (occurs_in "Hunt" PATH -> values hunt = repeat (Str "Y") (nrows out)) /\
    (~ occurs_in "Hunt" PATH -> values hunt = repeat (Str "") (nrows out)) /\
    (occurs_in "Fish" PATH -> values fish = repeat (Str "Y") (nrows out)) /\
    (~ occurs_in "Fish" PATH -> values fish = repeat (Str "") (nrows out)).
Proof.
  intro H. apply _common_Ok in H. destruct H as (c & t & _ & Ht & _ & ->).
  apply tag_Ok in Ht. destruct Ht as (Hi & Hh & Hf & _).
  exists (flag "Hunt" PATH (nrows t)), (flag "Fish" PATH (nrows t)).
  assert (nrows t = nrows (drop_duplicates c)) as Hn
      by (unfold nrows; now rewrite Hi).
  unfold getitem, column_or_nan. cbn [columns map standard_columns filter fst snd].
  rewrite Hh, Hf, Hn. cbn.
  repeat split; try reflexivity; unfold nrows; cbn [index];
    rewrite values_flag; intro Hp.
  - apply contains_iff in Hp. rewrite Hp. now rewrite Hi.
  - destruct (contains "Hunt" PATH) eqn:E; [|now rewrite Hi].
    apply contains_iff in E. contradiction.
  - apply contains_iff in Hp. rewrite Hp. now rewrite Hi.
  - destruct (contains "Fish" PATH) eqn:E; [|now rewrite Hi].
    apply contains_iff in E. contradiction.
Qed.

Example hunt_folder :
  exists out, _common long_zip "Nebraska/Hunt/2020.txt" = Ok out /\
              getitem out "Hunt" = Ok (text_column ["Y"]) /\
              getitem out "Fish" = Ok (text_column [""]).
Proof. eexists. split; [vm_compute; reflexivity | split; reflexivity]. Qed.

Example other_folder :
  exists out, _common long_zip "Nebraska/Trap/2020.txt" = Ok out /\
              getitem out "Hunt" = Ok (text_column [""]) /\
              getitem out "Fish" = Ok (text_column [""]).
Proof. eexists. split; [vm_compute; reflexivity | split; reflexivity]. Qed.

Example hunt_and_fish_folder :
  exists out, _common long_zip "Nebraska/HuntFish/2020.txt" = Ok out /\
              getitem out "Hunt" = Ok (text_column ["Y"]) /\
              getitem out "Fish" = Ok (text_column ["Y"]).
Proof. eexists. split; [vm_compute; reflexivity | split; reflexivity]. Qed.

(** * Suffix in North Dakota *)

Lemma labels_combine (names : list string) (cols : list Series) :
  length names = length cols -> map fst (combine names cols) = names.
Proof.
  revert cols. induction names as [|n t IH]; intros [|x cols] H; simpl in *;
    try reflexivity; try discriminate.
  f_equal. apply IH. lia.
Qed.

Lemma set_columns_Ok sh names df :
  set_columns sh names = Ok df ->
  labels df = names /\ index df = sheet_index sh /\
  length names = length (sheet_columns sh) /\
  columns df = combine names (sheet_columns sh).
Proof.
  unfold set_columns.
  destruct (Nat.eqb (length names) (length (sheet_columns sh))) eqn:E;
    [|discriminate].
  apply Nat.eqb_eq in E. intro H. inversion H; subst df.
  unfold labels. simpl. now rewrite labels_combine.
Qed.

Lemma lookup_fresh (g : string -> Series) (names : list string) (n : string) :
  In n names -> lookup n (map (fun m => (m, g m)) names) = Some (g n).
Proof.
  induction names as [|m t IH]; simpl; [tauto|].
  destruct (String.eqb m n) eqn:E.
  - apply String.eqb_eq in E. now subst.
  - apply String.eqb_neq in E. intros [H|H]; [contradiction | auto].
Qed.

(** A label that the source frame does not have, and that [_common] does
    not write, comes out as a column of [NaN]. *)
Lemma missing_column_is_NaN df PATH out n :
  _common df PATH = Ok out -> ~ In n (labels df) ->
  In n standard_columns -> n <> "Hunt" -> n <> "Fish" ->
  lookup n (columns out) = Some (mkSeries numeric (repeat NaN (nrows out))).
Proof.
  intros H Hn Hstd H1 H2.
  apply _common_Ok in H. destruct H as (c & t & Hc & Ht & _ & ->).
  apply clean_shape in Hc. destruct Hc as [_ Hl].
  apply tag_Ok in Ht. destruct Ht as (_ & _ & _ & Hother & _).
  assert (lookup n (columns t) = None) as Hnone.
  { rewrite Hother by assumption. apply lookup_None.
    fold (labels (drop_duplicates c)). now rewrite labels_drop_duplicates, Hl. }
  cbn [columns]. rewrite lookup_fresh by exact Hstd.
  unfold column_or_nan. rewrite Hnone. reflexivity.
Qed.

(** C10. In the output of [north_dakota] the Suffix column holds the
    missing value on every row: the seven names given to the sheet columns
    do not include Suffix, so the reordering creates the column; no Suffix
    value is a text, the empty text included. *)
Theorem north_dakota_suffix_is_missing `{W : World} (PATH : string) (out : DataFrame) :
  north_dakota PATH = Ok out ->
  exists suffix,
    getitem out "Suffix" = Ok suffix /\
    values suffix = repeat NaN (nrows out) /\
    (forall c, In c (values suffix) -> is_str c = false /\ c <> Str "").
Proof.
  unfold north_dakota. intro Hnd.
  bind_inv Hnd sheets Hs. bind_inv Hnd raw Hr. bind_inv Hnd df Hdf.
  apply set_columns_Ok in Hdf. destruct Hdf as (Hl & _).
  assert (lookup "Suffix" (columns out)
          = Some (mkSeries numeric (repeat NaN (nrows out)))) as Hsuf.
  { apply (missing_column_is_NaN df PATH); try discriminate; auto.
    - rewrite Hl. unfold north_dakota_names. simpl.
      intuition discriminate.
    - simpl. tauto. }
  exists (mkSeries numeric (repeat NaN (nrows out))).
  pose proof (_common_labels _ _ _ Hnd) as Hlab.
  split; [|split].
  - apply lookup_getitem; [|exact Hsuf].
    rewrite Hlab. apply unique_NoDup. reflexivity.
  - reflexivity.
  - cbn [values]. intros c Hc. apply repeat_spec in Hc. subst c.
    split; [reflexivity | discriminate].
Qed.

(** * The Zip column *)

Lemma zip_step_example : str_zfill 5 zip_column = Ok zip_column_padded.
Proof. reflexivity. Qed.

Lemma named_map_entry n (G : string * Series -> Series) cols :
  named n (map (fun c => (fst c, G c)) cols)
  = map (fun c => (fst c, G c)) (named n cols).
Proof.
  unfold named. induction cols as [|c t IH]; [reflexivity|].
  simpl. destruct (String.eqb (fst c) n); simpl; now rewrite IH.
Qed.

Lemma lookup_map_entry n (G : string -> Series -> Series) cols :
  lookup n (map (fun c => (fst c, G (fst c) (snd c))) cols)
  = option_map (G n) (lookup n cols).
Proof.
  induction cols as [|[m x] t IH]; [reflexivity|].
  simpl. destruct (String.eqb m n) eqn:E; [|exact IH].
  apply String.eqb_eq in E. now subst.
Qed.

Lemma In_select {A : Type} (mask : list bool) (l : list A) (a : A) :
  In a (select mask l) -> In a l.
Proof.
  revert l. induction mask as [|b m IH]; intros [|x l]; simpl; try tauto.
  destruct b; simpl; intros H; [destruct H|]; auto.
Qed.

Lemma named_fst n cols c : named n cols = [c] -> fst c = n.
Proof.
  intro H. assert (In c (named n cols)) as Hin by (rewrite H; now left).
  unfold named in Hin. apply filter_In in Hin.
  now apply String.eqb_eq.
Qed.

Lemma named_one_of_map n (G : string * Series -> Series) cols c :
  named n (map (fun c => (fst c, G c)) cols) = [c] ->
  exists a, named n cols = [a] /\ fst a = n /\ c = (n, G a).
Proof.
  rewrite named_map_entry. intro H.
  destruct (named n cols) as [|a [|b l]] eqn:E; try discriminate.
  exists a. pose proof (named_fst _ _ _ E) as Hn.
  inversion H. rewrite Hn. auto.
Qed.

Lemma getitem_named df n a : named n (columns df) = [a] -> getitem df n = Ok (snd a).
Proof. intro H. unfold getitem. fold (named n (columns df)). now rewrite H. Qed.

(** From the column that a step of [clean] read back to the source column. *)
Ltac back_to_source H a :=
  let c := fresh "c" in
  let Hd := fresh "Hd" in
  let E := fresh "E" in
  let Ec := fresh "Ec" in
  destruct H as (c & H & Hd);
  unfold map_named in H; rewrite ?map_map in H;
  apply named_one_of_map in H; destruct H as (a & E & H & Ec);
  subst c; cbn [fst snd] in Hd; rewrite ?H in Hd; cbn in Hd;
  rewrite dtype_strip_col in Hd.

(** [clean] reads the Zip column and the five name and address columns of
    the source, which have to be of dtype [object], and leaves in each of
    them the text function of that column applied to what it read. *)
Lemma clean_reads df c n :
  well_formed df -> clean df = Ok c -> In n ("Zip" :: to_title) ->
  exists x, getitem df n = Ok x /\ dtype_of x = object /\
            getitem c n = Ok (str_col (text_of n) x).
Proof.
  intros Hwf H Hn. pose proof (clean_Ok _ _ Hwf H) as Hc.
  assert (exists a, named n (columns df) = [a] /\ fst a = n /\
                    dtype_of (snd a) = object) as (a & En & Hfst & Hd).
  { unfold clean in H.
    bind_inv H df1 H1. bind_inv H z Hz. bind_inv H z' Hz'.
    apply (apply_strip_Ok _ _ Hwf) in H1. subst df1.
    destruct (str_step _ _ _ _ _ Hz Hz') as [Hset Hzip].
    rewrite Hset in H. apply title_columns_Ok in H. destruct H as [_ Hacc].
    cbn [index columns to_title titled title_accepts] in *.
    destruct Hacc as (A1 & A2 & A3 & A4 & A5 & _).
    cbn [In] in Hn.
    destruct Hn as [<-|[<-|[<-|[<-|[<-|[<-|[]]]]]]].
    - back_to_source Hzip a. eauto.
    - back_to_source A1 a. eauto.
    - back_to_source A2 a. eauto.
    - back_to_source A3 a. eauto.
    - back_to_source A4 a. eauto.
    - back_to_source A5 a. eauto. }
  exists (snd a). split; [now apply getitem_named|]. split; [exact Hd|].
  subst c. unfold getitem, cleaned. cbn [columns].
  fold (named n (map (fun c => (fst c, clean_column (fst c) (snd c))) (columns df))).
  rewrite (named_map_entry n (fun c => clean_column (fst c) (snd c))), En.
  cbn [map snd]. rewrite Hfst, clean_column_object by exact Hd. reflexivity.
Qed.

Lemma getitem_reindexed idx (g : string -> Series) names n :
  NoDup names -> In n names ->
  getitem (mkDataFrame idx (map (fun m => (m, g m)) names)) n = Ok (g n).
Proof.
  intros Hd Hin. apply lookup_getitem.
  - unfold labels. cbn [columns]. rewrite map_map. cbn [fst].
    now rewrite map_id.
  - now apply lookup_fresh.
Qed.

Lemma NoDup_standard_columns : NoDup standard_columns.
Proof. apply unique_NoDup. reflexivity. Qed.

Lemma lookup_drop_duplicates n df :
  lookup n (columns (drop_duplicates df))
  = option_map
      (fun x => mkSeries (dtype_of x)
                  (select (map negb (duplicated df)) (values x)))
      (lookup n (columns df)).
Proof.
  unfold drop_duplicates. cbn [columns].
  apply (lookup_map_entry n
           (fun _ x => mkSeries (dtype_of x)
                         (select (map negb (duplicated df)) (values x)))).
Qed.

(** A column of the source that [_common] does not write reaches the
    output with the rows that the deduplication keeps. *)
Lemma _common_column df PATH out c n :
  _common df PATH = Ok out -> clean df = Ok c ->
  In n standard_columns -> n <> "Hunt" -> n <> "Fish" ->
  getitem out n =
  Ok match lookup n (columns c) with
     | Some x => mkSeries (dtype_of x)
                   (select (map negb (duplicated c)) (values x))
     | None => mkSeries numeric (repeat NaN (nrows out))
     end.
Proof.
  intros H Hc Hn H1 H2.
  apply _common_Ok in H. destruct H as (c' & t & Hc' & Ht & _ & ->).
  rewrite Hc in Hc'. inversion Hc'; subst c'. clear Hc'.
  apply tag_Ok in Ht. destruct Ht as (_ & _ & _ & Hother & _).
  rewrite (getitem_reindexed _ (fun m => column_or_nan m t))
    by (auto using NoDup_standard_columns).
  unfold column_or_nan. rewrite Hother, lookup_drop_duplicates by assumption.
  destruct (lookup n (columns c)); reflexivity.
Qed.

(** * When [_common] returns *)

Lemma accepted_no_num x :
  dtype_of x = object -> existsb is_num (values x) = false -> accepted x.
Proof. intros Hd Hn. unfold accepted, str_accessor. now rewrite Hd, Hn. Qed.

Lemma strip_if_object_total x :
  (dtype_of x = object -> accepted x) -> strip_if_object x = Ok (strip_col x).
Proof.
  unfold strip_if_object, strip_col, str_strip, str_map, accepted.
  destruct (dtype_of x); intro H; [|reflexivity].
  rewrite H by reflexivity. reflexivity.
Qed.

Lemma strip_frame_empty df :
  well_formed df -> index df = [] ->
  df = mkDataFrame (index df)
         (map (fun c => (fst c, strip_col (snd c))) (columns df)).
Proof.
  intros Hwf Ei. rewrite map_fixed; [now rewrite DataFrame_eta|].
  intros [n x] Hin. simpl. f_equal. apply strip_col_empty.
  unfold well_formed in Hwf. rewrite Forall_forall in Hwf.
  specialize (Hwf _ Hin). unfold nrows in Hwf. rewrite Ei in Hwf.
  now apply length_zero_iff_nil.
Qed.

Lemma apply_strip_total df :
  well_formed df ->
  (forall d, In d (columns df) -> dtype_of (snd d) = object -> accepted (snd d)) ->
  apply strip_if_object df
  = Ok (mkDataFrame (index df)
          (map (fun c => (fst c, strip_col (snd c))) (columns df))).
Proof.
  intros Hwf Hacc. unfold apply.
  destruct (index df) as [|i idx] eqn:Ei.
  - f_equal. rewrite <- Ei. now apply strip_frame_empty.
  - destruct (columns df) as [|c cols] eqn:Ec.
    + f_equal. destruct df; simpl in *. now subst.
    + rewrite (mapM_total _ (fun c => (fst c, strip_col (snd c)))); [reflexivity|].
      intros a Ha. rewrite strip_if_object_total; [reflexivity|].
      apply Hacc. exact Ha.
Qed.

Lemma title_columns_total names :
  forall idx cols, title_ready names cols ->
    title_columns names (mkDataFrame idx cols)
    = Ok (mkDataFrame idx (titled names cols)).
Proof.
  induction names as [|n rest IH]; intros idx cols H; [reflexivity|].
  destruct H as ((c & En & Hd & Hn) & Hrest).
  cbn [title_columns].
  assert (getitem (mkDataFrame idx cols) n = Ok (snd c)) as Hg
      by (apply getitem_named; exact En).
  rewrite Hg. cbn [bind]. unfold str_title.
  rewrite (str_map_total _ _ Hd Hn). cbn [bind].
  rewrite (setitem_getitem _ _ _ (str_col title) Hg). cbn [index columns].
  now apply IH.
Qed.

Ltac ready_from H :=
  let a := fresh "a" in
  let En := fresh "En" in
  let Hd := fresh "Hd" in
  destruct H as (a & En & Hd);
  unfold map_named; rewrite ?map_map;
  rewrite (named_map_entry _ _ _), En; cbn [map fst snd];
  rewrite (named_fst _ _ _ En); cbn;
  eexists; split; [reflexivity|]; cbn [snd];
  unfold strip_col; rewrite Hd; split; [reflexivity | apply no_num_str_col].

Lemma clean_total df :
  well_formed df ->
  (forall d, In d (columns df) -> dtype_of (snd d) = object -> accepted (snd d)) ->
  (forall n, In n ("Zip" :: to_title) -> reads_text n (columns df)) ->
  clean df = Ok (cleaned df).
Proof.
  intros Hwf Hacc Hsix.
  assert (exists c, clean df = Ok c) as [c Hc].
  { unfold clean. rewrite (apply_strip_total _ Hwf Hacc). cbn [bind].
    pose proof (Hsix "Zip" (or_introl eq_refl)) as (a & En & Hd).
    set (df1 := mkDataFrame (index df) _).
    assert (getitem df1 "Zip" = Ok (str_col strip (snd a))) as Hg.
    { unfold getitem, df1. cbn [columns].
      fold (named "Zip" (map (fun c => (fst c, strip_col (snd c))) (columns df))).
      rewrite (named_map_entry "Zip" (fun c => strip_col (snd c))), En.
      cbn [map snd]. unfold strip_col. now rewrite Hd. }
    rewrite Hg. cbn [bind]. unfold str_zfill.
    rewrite str_map_total by (reflexivity || apply no_num_str_col).
    cbn [bind]. rewrite (setitem_getitem _ _ _ (str_col (zfill 5)) Hg).
    unfold df1. cbn [index columns].
    rewrite title_columns_total; [eauto|].
    cbn [to_title title_ready].
    pose proof (Hsix "FirstName") as H1. pose proof (Hsix "MiddleName") as H2.
    pose proof (Hsix "LastName") as H3. pose proof (Hsix "Street") as H4.
    pose proof (Hsix "City") as H5.
    specialize (H1 ltac:(simpl; tauto)). specialize (H2 ltac:(simpl; tauto)).
    specialize (H3 ltac:(simpl; tauto)). specialize (H4 ltac:(simpl; tauto)).
    specialize (H5 ltac:(simpl; tauto)).
    repeat split.
    - ready_from H1.
    - ready_from H2.
    - ready_from H3.
    - ready_from H4.
    - ready_from H5. }
  now rewrite Hc, (clean_Ok _ _ Hwf Hc).
Qed.

Lemma length_select {A B : Type} (mask : list bool) (l : list A) (l' : list B) :
  length l = length l' -> length (select mask l) = length (select mask l').
Proof.
  revert l l'. induction mask as [|b m IH]; intros [|a l] [|a' l'] H;
    simpl in *; try reflexivity; try discriminate.
  destruct b; simpl; rewrite (IH l l') by lia; reflexivity.
Qed.

Lemma well_formed_cleaned df : well_formed df -> well_formed (cleaned df).
Proof.
  unfold well_formed, cleaned, nrows. cbn [index columns]. intro H.
  apply Forall_map. eapply Forall_impl; [|exact H].
  intros [n x] Hx. cbn [fst snd] in *. unfold clean_column, str_col.
  destruct (dtype_of x); [|exact Hx]. cbn [values]. now rewrite length_map.
Qed.

Lemma well_formed_drop_duplicates df :
  well_formed df -> well_formed (drop_duplicates df).
Proof.
  unfold well_formed, drop_duplicates, nrows. cbn [index columns]. intro H.
  apply Forall_map. eapply Forall_impl; [|exact H].
  intros [n x] Hx. cbn [fst snd values] in *. now apply length_select.
Qed.

Lemma length_values_flag name PATH n : length (values (flag name PATH n)) = n.
Proof. rewrite values_flag. apply repeat_length. Qed.

Lemma tag_total df PATH :
  NoDup (labels df) ->
  exists t, tag df PATH = Ok t /\ NoDup (labels t) /\
            (well_formed df -> well_formed t).
Proof.
  intro Hd. rewrite tag_flags. eexists. split; [reflexivity|]. split.
  - repeat apply NoDup_labels_setitem. exact Hd.
  - intro Hwf.
    repeat apply well_formed_setitem; try exact Hwf;
      apply length_values_flag.
Qed.

Lemma well_formed_reindexed t names :
  well_formed t ->
  well_formed (mkDataFrame (index t) (map (fun n => (n, column_or_nan n t)) names)).
Proof.
  intro H. unfold well_formed, nrows. cbn [index columns].
  apply Forall_map. apply Forall_forall. intros n _. cbn [snd].
  unfold column_or_nan. destruct (lookup n (columns t)) as [x|] eqn:E.
  - apply lookup_In in E. unfold well_formed in H. rewrite Forall_forall in H.
    exact (H _ E).
  - apply repeat_length.
Qed.

(** [_common] returns on a well-formed frame with distinct labels whose
    [object] columns the [.str] accessor takes and whose Zip, name and
    address columns are [object] columns. *)
Lemma _common_total df PATH :
  well_formed df -> NoDup (labels df) ->
  (forall d, In d (columns df) -> dtype_of (snd d) = object -> accepted (snd d)) ->
  (forall n, In n ("Zip" :: to_title) -> reads_text n (columns df)) ->
  exists out, _common df PATH = Ok out /\ well_formed out /\
              nrows out = nrows (drop_duplicates (cleaned df)).
Proof.
  intros Hwf Hd Hacc Hsix. rewrite _common_stages.
  rewrite (clean_total _ Hwf Hacc Hsix). cbn [bind].
  destruct (tag_total (drop_duplicates (cleaned df)) PATH) as (t & Ht & Hdt & Hwt).
  { rewrite labels_drop_duplicates. unfold labels, cleaned. cbn [columns].
    rewrite map_map. exact Hd. }
  rewrite Ht. cbn [bind]. unfold reindex.
  rewrite (proj2 (unique_NoDup _) Hdt).
  eexists. split; [reflexivity|]. split.
  - apply well_formed_reindexed, Hwt, well_formed_drop_duplicates,
      well_formed_cleaned, Hwf.
  - unfold nrows. cbn [index]. apply tag_Ok in Ht. now destruct Ht as [-> _].
Qed.

Lemma _common_well_formed df PATH out :
  well_formed df -> _common df PATH = Ok out -> well_formed out.
Proof.
  intros Hwf H. destruct (_common_Ok _ _ _ H) as (c & t & Hc & Ht & Hd & ->).
  apply well_formed_reindexed.
  pose proof (clean_Ok _ _ Hwf Hc) as ->.
  destruct (tag_total (drop_duplicates (cleaned df)) PATH) as (t' & Ht' & _ & Hwt).
  { apply tag_Ok in Ht. destruct Ht as (_ & _ & _ & _ & Hnd & _). auto. }
  rewrite Ht in Ht'. inversion Ht'; subst t'.
  apply Hwt, well_formed_drop_duplicates, well_formed_cleaned, Hwf.
Qed.

Lemma select_nil {A : Type} (mask : list bool) : select mask (@nil A) = [].
Proof. destruct mask as [|[] m]; reflexivity. Qed.

Lemma getitem_reads df n x :
  getitem df n = Ok x -> dtype_of x = object -> reads_text n (columns df).
Proof.
  unfold getitem, reads_text. fold (named n (columns df)).
  destruct (named n (columns df)) as [|c [|c' rest]]; try discriminate.
  intros H Hd. inversion H; subst x. eauto.
Qed.

(** C8. A record set with no row whose labels are distinct and whose Zip,
    name and address columns are text columns goes through [_common]
    without an exception; the result has the ten standard columns in order
    and no row. *)
Theorem empty_record_set_passes (df : DataFrame) (PATH : string) :
  well_formed df -> index df = [] -> NoDup (labels df) ->
  (forall n,
      In n ["Zip"; "FirstName"; "MiddleName"; "LastName"; "Street"; "City"] ->
      exists x, getitem df n = Ok x /\ dtype_of x = object) ->
  exists out,
    _common df PATH = Ok out /\
    labels out =
      ["FirstName"; "MiddleName"; "LastName"; "Suffix"; "Street"; "City";
       "State"; "Zip"; "Hunt"; "Fish"] /\
    index out = [] /\
    Forall (fun c => values (snd c) = []) (columns out).
Proof.
  intros Hwf Hi Hd Hsix.
  destruct (_common_total df PATH Hwf Hd) as (out & Hout & Hwo & Hn).
  - intros d Hin Hobj. apply accepted_no_num; [exact Hobj|].
    unfold well_formed in Hwf. rewrite Forall_forall in Hwf.
    specialize (Hwf _ Hin). unfold nrows in Hwf. rewrite Hi in Hwf.
    apply length_zero_iff_nil in Hwf. now rewrite Hwf.
  - intros n Hin. destruct (Hsix n Hin) as (x & Hx & Hobj).
    exact (getitem_reads _ _ _ Hx Hobj).
  - exists out. split; [exact Hout|]. split; [exact (_common_labels _ _ _ Hout)|].
    assert (nrows out = 0) as H0.
    { rewrite Hn. unfold nrows, drop_duplicates, cleaned. cbn [index].
      now rewrite Hi, select_nil. }
    split; [now apply length_zero_iff_nil|].
    unfold well_formed in Hwo. eapply Forall_impl; [|exact Hwo].
    intros c Hc. cbn beta in Hc. rewrite H0 in Hc. now apply length_zero_iff_nil.
Qed.

(** * Nebraska *)

Lemma drop_Ok df names :
  (forall n, In n names -> In n (labels df)) ->
  drop df names = Ok (without names df).
Proof.
  intro H. unfold drop.
  replace (filter (fun n => negb (has_column df n)) names) with (@nil string);
    [reflexivity|].
  symmetry. induction names as [|n t IH]; [reflexivity|].
  simpl. rewrite (proj2 (has_column_In df n)) by (apply H; now left).
  simpl. apply IH. intros m Hm. apply H. now right.
Qed.

Lemma drop_Err df names n :
  In n names -> ~ In n (labels df) ->
  exists m, In m names /\ drop df names = Err (KeyError m).
Proof.
  intros Hin Hn. unfold drop.
  destruct (filter (fun n => negb (has_column df n)) names) as [|m rest] eqn:E.
  - exfalso. assert (In n (filter (fun n => negb (has_column df n)) names)) as H.
    { apply filter_In. split; [exact Hin|].
      destruct (has_column df n) eqn:Eh; [|reflexivity].
      apply has_column_In in Eh. contradiction. }
    now rewrite E in H.
  - exists m. split; [|reflexivity].
    assert (In m (filter (fun n => negb (has_column df n)) names)) as H
        by (rewrite E; now left).
    apply filter_In in H. tauto.
Qed.

Lemma labels_without names df :
  labels (without names df)
  = filter (fun n => negb (existsb (String.eqb n) names)) (labels df).
Proof.
  unfold labels, without. cbn [columns].
  induction (columns df) as [|[m x] t IH]; [reflexivity|].
  simpl. destruct (existsb (String.eqb m) names); simpl; now rewrite IH.
Qed.

Lemma In_labels_without names df n :
  In n (labels (without names df)) <-> In n (labels df) /\ ~ In n names.
Proof.
  rewrite labels_without, filter_In, negb_true_iff. split; intros [H1 H2];
    (split; [exact H1|]).
  - intro Hin. assert (existsb (String.eqb n) names = true) as E.
    { apply existsb_exists. exists n. split; [exact Hin | apply String.eqb_refl]. }
    congruence.
  - destruct (existsb (String.eqb n) names) eqn:E; [|reflexivity].
    apply existsb_exists in E. destruct E as (m & Hm & Em).
    apply String.eqb_eq in Em. subst m. contradiction.
Qed.

Lemma filter_all {A : Type} (p : A -> bool) (l : list A) :
  (forall a, In a l -> p a = true) -> filter p l = l.
Proof.
  induction l as [|a t IH]; intro H; [reflexivity|].
  simpl. rewrite (H a (or_introl eq_refl)). f_equal. apply IH.
  intros b Hb. apply H. now right.
Qed.

(** [if n in df: df.drop(columns=[n])] *)
Lemma drop_if_present n df :
  (if contains_label n df then drop df [n] else Ok df) = Ok (without [n] df).
Proof.
  unfold contains_label. destruct (has_column df n) eqn:E.
  - apply drop_Ok. intros m [<-|[]]. now apply has_column_In.
  - f_equal. unfold without. rewrite <- (DataFrame_eta df) at 1. f_equal.
    symmetry. apply filter_all. intros [m x] Hin. cbn [fst existsb].
    rewrite orb_false_r. apply negb_true_iff, String.eqb_neq. intros ->.
    apply (in_map fst) in Hin. cbn [fst] in Hin. fold (labels df) in Hin.
    apply has_column_In in Hin. congruence.
Qed.

Section Nebraska.

Context `{W : World}.

Lemma nebraska_runs_common PATH df :
  read_csv PATH = Ok df ->
  (forall n, In n nebraska_required -> In n (labels df)) ->
  nebraska PATH = _common (nebraska_standardized df) PATH.
Proof.
  intros Hread Hreq. unfold nebraska. rewrite Hread. cbn [bind].
  rewrite drop_if_present. cbn [bind]. rewrite drop_if_present. cbn [bind].
  rewrite drop_Ok; [reflexivity|].
  intros n Hn. rewrite !In_labels_without. specialize (Hreq n Hn).
  repeat split; [exact Hreq | |]; simpl in *;
    decompose [or] Hn; subst; intuition discriminate.
Qed.

Lemma nebraska_stops PATH df n :
  read_csv PATH = Ok df -> In n nebraska_required -> ~ In n (labels df) ->
  exists m, In m nebraska_required /\ nebraska PATH = Err (KeyError m).
Proof.
  intros Hread Hin Hn. unfold nebraska. rewrite Hread. cbn [bind].
  rewrite drop_if_present. cbn [bind]. rewrite drop_if_present. cbn [bind].
  destruct (drop_Err (without ["email"] (without ["Sex"] df))
                     nebraska_required n Hin) as (m & Hm & E).
  - rewrite !In_labels_without. tauto.
  - exists m. rewrite E. auto.
Qed.

Lemma In_columns_standardized df n x :
  In (n, x) (columns df) ->
  ~ In n ("Sex" :: "email" :: nebraska_required) ->
  In (assoc n nebraska_names, x) (columns (nebraska_standardized df)).
Proof.
  intros Hin Hn. unfold nebraska_standardized, rename, without. cbn [columns index].
  apply (in_map (fun c => (assoc (fst c) nebraska_names, snd c)) _ (n, x)).
  repeat (apply filter_In; split); [exact Hin | | |]; cbn [fst];
    apply negb_true_iff;
    match goal with
    | |- existsb ?p ?l = false =>
        destruct (existsb p l) eqn:E; [|reflexivity];
        apply existsb_exists in E; destruct E as (m & Hm & Em);
        apply String.eqb_eq in Em; subst m; exfalso; apply Hn;
        simpl in *; tauto
    end.
Qed.

Lemma columns_standardized_from df c :
  In c (columns (nebraska_standardized df)) ->
  exists d, In d (columns df) /\ snd c = snd d.
Proof.
  unfold nebraska_standardized, rename, without. cbn [columns index].
  intro H. apply in_map_iff in H. destruct H as (d & <- & Hd).
  repeat (apply filter_In in Hd; destruct Hd as [Hd _]).
  exists d. auto.
Qed.

(** Renamed labels that are distinct stay distinct when labels are dropped. *)
Lemma NoDup_map_filter (rename_label : string -> string) (keep : string -> bool) :
  forall names : list string,
    NoDup (map rename_label names) ->
    NoDup (map rename_label (filter keep names)).
Proof.
  intro names. induction names as [|a t IH]; intro H; [constructor|].
  simpl in *. inversion H as [|? ? Hn Hd]; subst.
  destruct (keep a); [|auto]. simpl. constructor; [|auto].
  intro Hin. apply Hn. apply in_map_iff in Hin. destruct Hin as (b & Eb & Hb).
  apply filter_In in Hb. apply in_map_iff. exists b. tauto.
Qed.

Lemma labels_standardized df :
  labels (nebraska_standardized df)
  = map (fun n => assoc n nebraska_names)
        (labels (without nebraska_required
                   (without ["email"] (without ["Sex"] df)))).
Proof.
  unfold nebraska_standardized, rename, labels. cbn [columns].
  now rewrite !map_map.
Qed.

Lemma NoDup_labels_standardized df :
  NoDup (labels (rename df nebraska_names)) ->
  NoDup (labels (nebraska_standardized df)).
Proof.
  intro H. rewrite labels_standardized, !labels_without.
  repeat apply NoDup_map_filter.
  unfold rename, labels in *. cbn [columns] in H. rewrite map_map in *.
  exact H.
Qed.

Lemma well_formed_standardized df :
  well_formed df -> well_formed (nebraska_standardized df).
Proof.
  unfold well_formed, nebraska_standardized, rename, without, nrows.
  cbn [index columns]. intro H. rewrite Forall_forall in *.
  intros c Hc. apply in_map_iff in Hc. destruct Hc as (d & <- & Hd).
  repeat (apply filter_In in Hd; destruct Hd as [Hd _]).
  exact (H _ Hd).
Qed.

Lemma nebraska_returns PATH df :
  read_csv PATH = Ok df ->
  well_formed df -> all_text df ->
  NoDup (labels (rename df nebraska_names)) ->
  (forall n, In n nebraska_required -> In n (labels df)) ->
  (forall n, In n ["firstName"; "middleName"; "lastName"; "street"; "city";
                   "zip"] -> In n (labels df)) ->
  exists out, nebraska PATH = Ok out /\ well_formed out.
Proof.
  intros Hread Hwf Htext Hd Hreq Hsrc.
  rewrite (nebraska_runs_common PATH df Hread Hreq).
  pose proof (NoDup_labels_standardized _ Hd) as Hd'.
  unfold all_text in Htext. rewrite Forall_forall in Htext.
  destruct (_common_total (nebraska_standardized df) PATH) as (out & Ho & Hwo & _).
  - now apply well_formed_standardized.
  - exact Hd'.
  - intros c Hc Hobj. destruct (columns_standardized_from _ _ Hc) as (d & Hin & ->).
    apply accepted_no_num; apply (Htext _ Hin).
  - assert (forall src, In src ["firstName"; "middleName"; "lastName"; "street";
                                "city"; "zip"] ->
                        reads_text (assoc src nebraska_names)
                                   (columns (nebraska_standardized df))) as Hall.
    { intros src Hin. pose proof (Hsrc src Hin) as Hl.
      unfold labels in Hl. apply in_map_iff in Hl.
      destruct Hl as ([m x] & Em & Hx). cbn [fst] in Em. subst m.
      apply (getitem_reads (nebraska_standardized df) _ x).
      - apply lookup_getitem; [exact Hd'|].
        apply In_lookup; [exact Hd'|].
        apply In_columns_standardized; [exact Hx|].
        simpl in *. decompose [or] Hin; subst; intuition discriminate.
      - apply (Htext _ Hx). }
    intros n Hn. cbn [In to_title] in Hn.
    destruct Hn as [<-|[<-|[<-|[<-|[<-|[<-|[]]]]]]].
    + apply (Hall "zip"). simpl. tauto.
    + apply (Hall "firstName"). simpl. tauto.
    + apply (Hall "middleName"). simpl. tauto.
    + apply (Hall "lastName"). simpl. tauto.
    + apply (Hall "street"). simpl. tauto.
    + apply (Hall "city"). simpl. tauto.
  - eauto.
Qed.

(** C6. [nebraska] on a parsed file of text columns whose renamed header
    repeats no name returns a frame as soon as the three permit columns and
    the six name, address and zip columns are there, whether or not Sex and
    email are: a file without them is processed, and the output has neither
    column. A file that lacks permitYear, Permit Type or FullName makes
    [nebraska] raise KeyError on one of these three names. *)
Theorem nebraska_optional_and_required_columns
        (PATH : string) (df : DataFrame) :
  read_csv PATH = Ok df ->
  (well_formed df -> all_text df ->
   NoDup (labels (rename df nebraska_names)) ->
   (forall n, In n ["permitYear"; "Permit Type"; "FullName"; "firstName";
                    "middleName"; "lastName"; "street"; "city"; "zip"] ->
              In n (labels df)) ->
   exists out, nebraska PATH = Ok out /\
               ~ In "Sex" (labels out) /\ ~ In "email" (labels out)) /\
  (forall n, In n ["permitYear"; "Permit Type"; "FullName"] ->
             ~ In n (labels df) ->
   exists m, In m ["permitYear"; "Permit Type"; "FullName"] /\
             nebraska PATH = Err (KeyError m)).
Proof.
  intro Hread. split.
  - intros Hwf Htext Hd Hcols.
    destruct (nebraska_returns PATH df Hread Hwf Htext Hd) as (out & Ho & _).
    + intros n Hn. apply Hcols. simpl in *. tauto.
    + intros n Hn. apply Hcols. simpl in *. tauto.
    + exists out. split; [exact Ho|].
      rewrite (nebraska_runs_common PATH df Hread) in Ho
        by (intros n Hn; apply Hcols; simpl in *; tauto).
      rewrite (_common_labels _ _ _ Ho). simpl. intuition discriminate.
  - intros n Hin Hn. exact (nebraska_stops PATH df n Hread Hin Hn).
Qed.

End Nebraska.

(** * Rows and duplicates *)

Lemma text_eqb_eq (a b : text) : text_eqb a b = true <-> a = b.
Proof.
  revert b. induction a as [|x a IH]; intros [|y b]; cbn [text_eqb];
    try (split; [discriminate | intro H; inversion H]); [tauto|].
  rewrite andb_true_iff, N.eqb_eq, IH.
  split; [intros [-> ->]; reflexivity | intro H; inversion H; auto].
Qed.

Lemma cell_eqb_eq (a b : cell) : cell_eqb a b = true <-> a = b.
Proof.
  destruct a, b; simpl; try (split; [discriminate | intro H; inversion H]).
  - rewrite text_eqb_eq. split; intro H; [now subst | now inversion H].
  - tauto.
  - rewrite Z.eqb_eq. split; intro H; [now subst | now inversion H].
Qed.

Lemma row_eqb_eq (r1 r2 : list cell) : row_eqb r1 r2 = true <-> r1 = r2.
Proof.
  revert r2. induction r1 as [|a t IH]; intros [|b u]; simpl;
    try (split; [discriminate | intro H; inversion H]); [tauto|].
  rewrite andb_true_iff, cell_eqb_eq, IH.
  split; [intros [-> ->]; reflexivity | intro H; inversion H; auto].
Qed.

Lemma seen_iff (r : list cell) (seen : list (list cell)) :
  existsb (row_eqb r) seen = true <-> In r seen.
Proof.
  rewrite existsb_exists. split.
  - intros (x & Hx & E). apply row_eqb_eq in E. now subst.
  - intro H. exists r. split; [exact H | now apply row_eqb_eq].
Qed.

Lemma kept_cons seen r rs :
  kept seen (r :: rs)
  = if existsb (row_eqb r) seen then kept (r :: seen) rs
    else r :: kept (r :: seen) rs.
Proof. unfold kept. simpl. destruct (existsb (row_eqb r) seen); reflexivity. Qed.

Lemma In_kept rs : forall seen r,
  In r (kept seen rs) <-> In r rs /\ ~ In r seen.
Proof.
  induction rs as [|a t IH]; intros seen r.
  - unfold kept. simpl. tauto.
  - rewrite kept_cons. destruct (existsb (row_eqb a) seen) eqn:E.
    + apply seen_iff in E. rewrite IH. simpl. split.
      * intros [H1 H2]. split; [now right | tauto].
      * intros [[->|H1] H2]; [contradiction|]. split; [exact H1|].
        intros [->|H]; contradiction.
    + assert (~ In a seen) as Ha.
      { intro H. apply seen_iff in H. congruence. }
      simpl. rewrite IH. simpl. split.
      * intros [->|[H1 H2]]; [tauto|]. split; [now right | tauto].
      * intros [[->|H1] H2]; [now left|].
        destruct (row_eqb a r) eqn:Er; [apply row_eqb_eq in Er; now left|].
        assert (a <> r) as Hne by (intro Heq; apply row_eqb_eq in Heq; congruence).
        right. split; [exact H1|]. intros [E'|H]; [now apply Hne | contradiction].
Qed.

Lemma NoDup_kept rs : forall seen, NoDup (kept seen rs).
Proof.
  induction rs as [|a t IH]; intro seen; [constructor|].
  rewrite kept_cons. destruct (existsb (row_eqb a) seen); [apply IH|].
  constructor; [|apply IH]. rewrite In_kept. simpl. tauto.
Qed.

(** Rows that are all different, and different from the rows met so far:
    none is marked. *)
Lemma duplicated_from_NoDup rs : forall seen,
  NoDup rs -> (forall r, In r rs -> ~ In r seen) ->
  duplicated_from seen rs = repeat false (length rs).
Proof.
  induction rs as [|a t IH]; intros seen Hd Hs; [reflexivity|].
  inversion Hd as [|? ? Hn Hd']; subst. simpl.
  destruct (existsb (row_eqb a) seen) eqn:E.
  - apply seen_iff in E. exfalso. apply (Hs a); [now left | exact E].
  - f_equal. apply IH; [exact Hd'|].
    intros r Hr [<-|H]; [contradiction|]. apply (Hs r); [now right | exact H].
Qed.

Lemma select_all {A : Type} (l : list A) :
  select (map negb (repeat false (length l))) l = l.
Proof. induction l as [|a t IH]; [reflexivity|]. simpl. now rewrite IH. Qed.

Lemma select_all_longer {A : Type} (n : nat) (l : list A) :
  length l = n -> select (map negb (repeat false n)) l = l.
Proof. intros <-. apply select_all. Qed.

Lemma select_map {A B : Type} (f : A -> B) (mask : list bool) (l : list A) :
  select mask (map f l) = map f (select mask l).
Proof.
  revert l. induction mask as [|b m IH]; intros [|a l]; simpl; try reflexivity.
  destruct b; simpl; now rewrite IH.
Qed.

Lemma select_repeat {A : Type} (mask : list bool) (a : A) (n : nat) :
  select mask (repeat a n) = repeat a (length (select mask (repeat a n))).
Proof.
  revert n. induction mask as [|b m IH]; intros [|n]; simpl; try reflexivity.
  destruct b; simpl; now rewrite <- IH.
Qed.

Lemma length_rows_of n : forall cols, length (rows_of n cols) = n.
Proof. induction n as [|n IH]; intro cols; simpl; [reflexivity | now rewrite IH]. Qed.

(** Selecting in every column selects the rows. *)
Lemma rows_of_select (mask : list bool) :
  forall (n : nat) (idx : list Z) (cols : list (list cell)),
    length mask = n -> length idx = n ->
    Forall (fun col => length col = n) cols ->
    rows_of (length (select mask idx)) (map (select mask) cols)
    = select mask (rows_of n cols).
Proof.
  induction mask as [|b m IH]; intros n idx cols Hm Hi Hc.
  - simpl in Hm. subst n. reflexivity.
  - destruct n as [|n]; [discriminate|]. destruct idx as [|i idx]; [discriminate|].
    simpl in Hm, Hi.
    assert (Forall (fun col => length col = n) (map (@tl cell) cols)) as Htl.
    { apply Forall_map. eapply Forall_impl; [|exact Hc].
      intros [|a col] H; simpl in *; [discriminate | lia]. }
    assert (map (select (b :: m)) cols
            = map (fun col => if b then hd NaN col :: select m (tl col)
                              else select m (tl col)) cols) as Hsel.
    { apply map_ext_in. intros col Hin. rewrite Forall_forall in Hc.
      specialize (Hc _ Hin). destruct col as [|a col]; [discriminate|].
      reflexivity. }
    rewrite Hsel. cbn [rows_of select].
    specialize (IH n idx (map (@tl cell) cols) ltac:(lia) ltac:(lia) Htl).
    rewrite map_map in IH.
    destruct b; cbn [length rows_of].
    + rewrite !map_map. cbn [hd tl]. f_equal. exact IH.
    + exact IH.
Qed.

Lemma rows_drop_duplicates df :
  well_formed df -> rows (drop_duplicates df) = kept [] (rows df).
Proof.
  intro Hwf. unfold rows at 1, drop_duplicates, nrows, kept, duplicated.
  cbn [index columns]. rewrite map_map. cbn [snd values].
  rewrite <- (map_map (fun c => values (snd c))
                      (select (map negb (duplicated_from [] (rows df))))).
  apply rows_of_select.
  - rewrite length_map.
    assert (forall rs seen, length (duplicated_from seen rs) = length rs) as Hl.
    { induction rs as [|r t IH]; intro seen; simpl; [reflexivity | now rewrite IH]. }
    rewrite Hl. unfold rows. apply length_rows_of.
  - reflexivity.
  - apply Forall_map. exact Hwf.
Qed.

Lemma rows_of_row_at n : forall cols,
  rows_of n cols = map (row_at cols) (seq 0 n).
Proof.
  induction n as [|n IH]; intro cols; [reflexivity|].
  cbn [rows_of seq map]. f_equal.
  - unfold row_at. apply map_ext. intros [|a col]; reflexivity.
  - rewrite IH, <- seq_shift, map_map. apply map_ext. intro i.
    unfold row_at. rewrite map_map. apply map_ext.
    intros [|a col]; [destruct i; reflexivity | reflexivity].
Qed.

Lemma NoDup_map_via {A B C : Type} (F : A -> B) (G : A -> C) (l : list A) :
  (forall i j, In i l -> In j l -> F i = F j -> G i = G j) ->
  NoDup (map G l) -> NoDup (map F l).
Proof.
  induction l as [|a t IH]; intros Hfg Hd; [constructor|].
  simpl in *. inversion Hd as [|? ? Hn Hd']; subst. constructor.
  - intro Hin. apply Hn. apply in_map_iff in Hin. destruct Hin as (b & Eb & Hb).
    apply in_map_iff. exists b. split; [|exact Hb].
    apply Hfg; auto.
  - apply IH; auto.
Qed.

Lemma map_eq_pointwise {A B : Type} (f g : A -> B) (l : list A) :
  map f l = map g l -> forall a, In a l -> f a = g a.
Proof.
  induction l as [|x t IH]; intros H a Hin; [contradiction|].
  simpl in H. inversion H. destruct Hin as [<-|Hin]; auto.
Qed.

Lemma rows_row_at df :
  rows df = map (row_at (map (fun c => values (snd c)) (columns df)))
                (seq 0 (nrows df)).
Proof. apply rows_of_row_at. Qed.

(** When the source has no column beyond the eight that the output takes
    from it, two rows of the output are equal only if the rows they come
    from are: the output has no row twice. *)
Lemma NoDup_rows_common df PATH out :
  well_formed df -> incl (labels df) source_columns ->
  _common df PATH = Ok out -> NoDup (rows out).
Proof.
  intros Hwf Hincl H.
  destruct (_common_Ok _ _ _ H) as (c & t & Hc & Ht & Hdt & ->).
  pose proof (clean_Ok _ _ Hwf Hc) as ->.
  set (d := drop_duplicates (cleaned df)) in *.
  assert (NoDup (rows d)) as Hrows.
  { unfold d. rewrite rows_drop_duplicates by now apply well_formed_cleaned.
    apply NoDup_kept. }
  apply tag_Ok in Ht. destruct Ht as (Hi & _ & _ & Hother & Hnd & _).
  specialize (Hnd Hdt).
  rewrite rows_row_at in *. unfold nrows in *. cbn [index columns] in *.
  rewrite Hi. revert Hrows. apply NoDup_map_via. intros i j _ _ Hij.
  unfold row_at in *. rewrite !map_map in *. cbn [snd] in Hij.
  apply map_ext_in. intros [m x] Hin. cbn [snd].
  assert (In m source_columns) as Hm.
  { apply Hincl. apply (in_map fst) in Hin. fold (labels d) in Hin.
    unfold d in Hin. rewrite labels_drop_duplicates in Hin.
    unfold cleaned, labels in Hin. cbn [columns] in Hin.
    now rewrite map_map in Hin. }
  assert (In m standard_columns /\ m <> "Hunt" /\ m <> "Fish") as (Hs & H1 & H2).
  { simpl in Hm. decompose [or] Hm; subst; try contradiction;
      (split; [simpl; tauto | split; discriminate]). }
  pose proof (map_eq_pointwise _ _ _ Hij m Hs) as E. cbn beta in E.
  unfold column_or_nan in E.
  rewrite (Hother m H1 H2), (In_lookup m x _ Hnd Hin) in E. exact E.
Qed.

(** * Running [_common] on its own output *)

Lemma ascii_values_In l s :
  ascii_values l = true -> In (Str s) l -> ascii_text s = true.
Proof.
  unfold ascii_values. rewrite forallb_forall. intros H Hin. exact (H _ Hin).
Qed.

Lemma In_to_title n : existsb (String.eqb n) to_title = true <-> In n to_title.
Proof.
  rewrite existsb_exists. split.
  - intros (m & Hm & E). apply String.eqb_eq in E. now subst.
  - intro H. exists n. split; [exact H | apply String.eqb_refl].
Qed.

(** The text function of a column, run on its own result, changes
    nothing: for a name or an address, when the text is ASCII. *)
Lemma text_of_twice n s :
  (In n to_title -> ascii_text s = true) ->
  text_of n (text_of n s) = text_of n s.
Proof.
  intro Ha. unfold text_of. destruct (String.eqb n "Zip").
  - rewrite (strip_stripped (zfill 5 (strip s))).
    + apply zfill_zfill.
    + apply stripped_zfill, stripped_strip.
  - destruct (existsb (String.eqb n) to_title) eqn:E.
    + apply In_to_title in E. specialize (Ha E).
      rewrite (strip_stripped (title (strip s))).
      * apply title_title. now apply ascii_strip.
      * apply stripped_title; [now apply ascii_strip | apply stripped_strip].
    + apply strip_strip.
Qed.

Lemma settled_clean_column n x :
  (In n to_title -> ascii_values (values x) = true) ->
  settled n (clean_column n x).
Proof.
  intro Ha. unfold settled, clean_column. destruct (dtype_of x) eqn:E.
  - cbn [dtype_of str_col]. rewrite str_col_compose. unfold str_col.
    f_equal. apply map_ext_in.
    intros [s| |] Hin; cbn [str_method]; try reflexivity.
    rewrite text_of_twice; [reflexivity|].
    intro Hn. exact (ascii_values_In _ _ (Ha Hn) Hin).
  - now rewrite E.
Qed.

Lemma settled_select n x mask :
  settled n x -> settled n (mkSeries (dtype_of x) (select mask (values x))).
Proof.
  unfold settled, clean_column. cbn [dtype_of]. intro H.
  destruct (dtype_of x) eqn:E; [|reflexivity].
  unfold str_col in *. cbn [values]. f_equal.
  apply (f_equal values) in H. cbn [values] in H.
  now rewrite <- select_map, H.
Qed.

Lemma settled_numeric n l : settled n (mkSeries numeric l).
Proof. reflexivity. Qed.

Lemma settled_flag name PATH k :
  name = "Hunt" \/ name = "Fish" -> settled name (flag name PATH k).
Proof.
  intro Hn. unfold settled. rewrite clean_column_object by apply dtype_flag.
  rewrite <- (Series_eta (flag name PATH k)) at 2.
  rewrite dtype_flag. unfold str_col. f_equal. rewrite values_flag.
  induction k as [|k IH]; [reflexivity|].
  cbn [repeat map]. rewrite IH. f_equal.
  destruct Hn as [-> | ->]; destruct (contains _ PATH); reflexivity.
Qed.

Lemma settled_no_num n x :
  settled n x -> dtype_of x = object -> existsb is_num (values x) = false.
Proof.
  unfold settled. intros H Hd. rewrite clean_column_object in H by exact Hd.
  rewrite <- H. apply no_num_str_col.
Qed.

(** Every column of the output of [_common] is settled, when the names
    and addresses of the source are ASCII. *)
Lemma settled_common df PATH out :
  well_formed df -> ascii_names df -> _common df PATH = Ok out ->
  forall c, In c (columns out) -> settled (fst c) (snd c).
Proof.
  intros Hwf Hascii H.
  destruct (_common_Ok _ _ _ H) as (c & t & Hc & Ht & Hdt & ->).
  assert (forall n x, In n to_title -> lookup n (columns df) = Some x ->
                      ascii_values (values x) = true) as Ha.
  { intros n x Hn Hl.
    destruct (clean_reads df c n Hwf Hc (or_intror Hn)) as (x' & Hx' & _).
    pose proof (getitem_lookup _ _ _ Hx') as Hl'.
    rewrite Hl in Hl'. inversion Hl'; subst x'. exact (Hascii n x Hn Hx'). }
  pose proof (clean_Ok _ _ Hwf Hc) as ->.
  apply tag_Ok in Ht. destruct Ht as (Hi & Hh & Hf & Hother & _).
  cbn [columns]. intros e He. apply in_map_iff in He.
  destruct He as (n & <- & Hn). cbn [fst snd]. unfold column_or_nan.
  destruct (string_dec n "Hunt") as [->|H1];
    [rewrite Hh; apply settled_flag; now left|].
  destruct (string_dec n "Fish") as [->|H2];
    [rewrite Hf; apply settled_flag; now right|].
  rewrite (Hother n H1 H2), lookup_drop_duplicates.
  unfold cleaned. cbn [columns].
  rewrite (lookup_map_entry n clean_column).
  destruct (lookup n (columns df)) as [x|] eqn:El; cbn [option_map];
    [|apply settled_numeric].
  apply settled_select, settled_clean_column.
  intro Hn'. exact (Ha n x Hn' El).
Qed.

Lemma cleaned_settled df :
  (forall c, In c (columns df) -> settled (fst c) (snd c)) -> cleaned df = df.
Proof.
  intro H. unfold cleaned. rewrite map_fixed; [apply DataFrame_eta|].
  intros [n x] Hin. cbn [fst snd]. f_equal. exact (H _ Hin).
Qed.

Lemma drop_duplicates_NoDup df :
  well_formed df -> NoDup (rows df) -> drop_duplicates df = df.
Proof.
  intros Hwf Hd. unfold drop_duplicates, duplicated.
  rewrite (duplicated_from_NoDup _ [] Hd) by (intros r _ []).
  unfold rows at 1 2. rewrite length_rows_of.
  rewrite (select_all_longer _ (index df)) by reflexivity.
  rewrite <- (DataFrame_eta df) at 3. f_equal.
  apply map_fixed. intros [n x] Hin. cbn [fst snd]. f_equal.
  unfold well_formed in Hwf. rewrite Forall_forall in Hwf.
  rewrite (select_all_longer _ (values x)) by exact (Hwf _ Hin).
  apply Series_eta.
Qed.

(** The Zip, name and address columns of the output are text columns. *)
Lemma common_reads_text df PATH out n :
  well_formed df -> _common df PATH = Ok out -> In n ("Zip" :: to_title) ->
  reads_text n (columns out).
Proof.
  intros Hwf H Hn.
  destruct (_common_Ok _ _ _ H) as (c & _ & Hc & _).
  destruct (clean_reads df c n Hwf Hc Hn) as (x & _ & _ & Hg).
  pose proof (_common_column df PATH out c n H Hc) as Ho.
  rewrite (getitem_lookup _ _ _ Hg) in Ho.
  eapply getitem_reads.
  - apply Ho; cbn [In to_title] in Hn; decompose [or] Hn; subst;
      try contradiction; (simpl; tauto) || discriminate.
  - reflexivity.
Qed.

(** C4, as the code has it. On a well-formed record set with no column
    beyond FirstName, MiddleName, LastName, Suffix, Street, City, State and
    Zip, whose Zip column and five name and address columns are of dtype
    [object], and whose names and addresses (the five title-cased columns)
    are ASCII texts, running [_common] on its own output, with the same
    path, returns that output again. *)
Theorem common_twice (df : DataFrame) (PATH : string) (out : DataFrame) :
  well_formed df ->
  incl (labels df)
       ["FirstName"; "MiddleName"; "LastName"; "Suffix"; "Street"; "City";
        "State"; "Zip"] ->
  (forall n x, In n ["Zip"; "FirstName"; "MiddleName"; "LastName"; "Street";
                     "City"] ->
               getitem df n = Ok x -> dtype_of x = object) ->
  (forall n x, In n ["FirstName"; "MiddleName"; "LastName"; "Street"; "City"] ->
               getitem df n = Ok x -> ascii_values (values x) = true) ->
  _common df PATH = Ok out ->
  _common out PATH = Ok out.
Proof.
  intros Hwf Hincl _ Hascii H.
  pose proof (_common_well_formed _ _ _ Hwf H) as Hwo.
  pose proof (settled_common _ _ _ Hwf Hascii H) as Hset.
  pose proof (NoDup_rows_common _ _ _ Hwf Hincl H) as Hrows.
  assert (NoDup (labels out)) as Hdo.
  { rewrite (_common_labels _ _ _ H). apply NoDup_standard_columns. }
  rewrite _common_stages. rewrite clean_total.
  - rewrite (cleaned_settled _ Hset). cbn [bind].
    rewrite (drop_duplicates_NoDup _ Hwo Hrows).
    destruct (tag_total out PATH Hdo) as (t' & Ht' & Hdt' & _).
    rewrite Ht'. cbn [bind]. unfold reindex.
    rewrite (proj2 (unique_NoDup _) Hdt'). f_equal.
    apply tag_Ok in Ht'. destruct Ht' as (Hi' & Hh' & Hf' & Hother' & _).
    destruct (_common_Ok _ _ _ H) as (c & t & Hc & Ht & Hdt & Eout).
    apply tag_Ok in Ht. destruct Ht as (Hi & Hh & Hf & _).
    assert (columns out = map (fun n => (n, column_or_nan n t)) standard_columns)
      as Ecols by (rewrite Eout; reflexivity).
    assert (nrows out = nrows (drop_duplicates c)) as En
        by (rewrite Eout; unfold nrows; cbn [index]; now rewrite Hi).
    rewrite Hi'.
    transitivity (mkDataFrame (index out) (columns out));
      [|apply DataFrame_eta].
    f_equal. rewrite Ecols.
    apply map_ext_in. intros n Hn. f_equal. unfold column_or_nan at 1.
    destruct (string_dec n "Hunt") as [->|H1].
    { rewrite Hh', En. unfold column_or_nan. now rewrite Hh. }
    destruct (string_dec n "Fish") as [->|H2].
    { rewrite Hf', En. unfold column_or_nan. now rewrite Hf. }
    rewrite (Hother' n H1 H2), Ecols, lookup_fresh by exact Hn. reflexivity.
  - exact Hwo.
  - intros d Hin Hobj. apply accepted_no_num; [exact Hobj|].
    apply (settled_no_num (fst d)); auto.
  - intros n Hn. exact (common_reads_text df PATH out n Hwf H Hn).
Qed.

(** * Duplicates *)

Lemma occurrences_NoDup r rs : NoDup rs -> In r rs -> occurrences r rs = 1.
Proof.
  unfold occurrences. induction rs as [|a t IH]; intros Hd Hin; [contradiction|].
  inversion Hd as [|? ? Hn Hd']; subst. simpl.
  destruct (row_eqb r a) eqn:E.
  - apply row_eqb_eq in E. subst a. simpl. f_equal.
    clear -Hn. induction t as [|b t IH]; [reflexivity|].
    simpl in *. destruct (row_eqb r b) eqn:E.
    + apply row_eqb_eq in E. subst b. tauto.
    + apply IH. tauto.
  - destruct Hin as [->|Hin]; [|auto].
    assert (row_eqb r r = true) by now apply row_eqb_eq. congruence.
Qed.

Lemma nth_error_rows df i :
  i < nrows df ->
  nth_error (rows df) i
  = Some (row_at (map (fun c => values (snd c)) (columns df)) i).
Proof.
  intro Hi. rewrite rows_row_at, nth_error_map, nth_error_seq.
  destruct (Nat.ltb_spec i (nrows df)) as [_|H]; [reflexivity | lia].
Qed.

Lemma In_rows df r :
  In r (rows df) <->
  exists i, i < nrows df /\
            r = row_at (map (fun c => values (snd c)) (columns df)) i.
Proof.
  rewrite rows_row_at, in_map_iff. split.
  - intros (i & <- & Hi). apply in_seq in Hi. exists i. split; [lia | reflexivity].
  - intros (i & Hi & ->). exists i. split; [reflexivity|]. apply in_seq. lia.
Qed.

Lemma nth_repeat_same {A : Type} (a : A) n i : nth i (repeat a n) a = a.
Proof.
  revert i. induction n as [|n IH]; intros [|i]; simpl; auto.
Qed.

Lemma nth_flag name PATH n i :
  i < n ->
  nth i (values (flag name PATH n)) NaN
  = Str (if contains name PATH then "Y" else "").
Proof.
  intro Hi. rewrite values_flag.
  rewrite (nth_indep _ NaN (Str (if contains name PATH then "Y" else "")))
    by (rewrite repeat_length; exact Hi).
  apply nth_repeat_same.
Qed.

Lemma row_at_map_values (g : string -> Series) names i :
  row_at (map (fun c => values (snd c)) (map (fun n => (n, g n)) names)) i
  = map (fun n => nth i (values (g n)) NaN) names.
Proof. unfold row_at. rewrite !map_map. reflexivity. Qed.

Lemma nth_clean_column n x i :
  nth i (values (clean_column n x)) NaN
  = match dtype_of x with
    | object => str_method (text_of n) (nth i (values x) NaN)
    | numeric => nth i (values x) NaN
    end.
Proof.
  unfold clean_column, str_col. destruct (dtype_of x); [|reflexivity].
  cbn [values]. now rewrite <- (map_nth (str_method (text_of n))).
Qed.

(** The row of the arranged frame at [i] is made of the row of the tagged
    source frame at [i]: rows equal before are equal after. *)
Lemma arranged_row src t PATH i j k l :
  tag src PATH = Ok t -> k < nrows src ->
  forall src' t', tag src' PATH = Ok t' -> l < nrows src' ->
    (forall n, match lookup n (columns src), lookup n (columns src') with
               | Some x, Some x' => nth k (values x) NaN = nth l (values x') NaN
               | None, None => True
               | _, _ => False
               end) ->
    i = k -> j = l ->
    row_at (map (fun c => values (snd c))
                (map (fun n => (n, column_or_nan n t)) standard_columns)) i
    = row_at (map (fun c => values (snd c))
                  (map (fun n => (n, column_or_nan n t')) standard_columns)) j.
Proof.
  intros Ht Hk src' t' Ht' Hl Hcols -> ->.
  rewrite !row_at_map_values. apply map_ext_in. intros n Hn.
  apply tag_Ok in Ht, Ht'.
  destruct Ht as (_ & Hh & Hf & Hother & _).
  destruct Ht' as (_ & Hh' & Hf' & Hother' & _).
  unfold column_or_nan.
  destruct (string_dec n "Hunt") as [->|H1];
    [rewrite Hh, Hh', !nth_flag by assumption; reflexivity|].
  destruct (string_dec n "Fish") as [->|H2];
    [rewrite Hf, Hf', !nth_flag by assumption; reflexivity|].
  rewrite (Hother n H1 H2), (Hother' n H1 H2). specialize (Hcols n).
  destruct (lookup n (columns src)), (lookup n (columns src'));
    try contradiction; [exact Hcols|].
  cbn [values]. now rewrite !nth_repeat_same.
Qed.

Lemma row_at_columns df i :
  row_at (map (fun c => values (snd c)) (columns df)) i
  = map (fun c => nth i (values (snd c)) NaN) (columns df).
Proof. unfold row_at. now rewrite map_map. Qed.

Lemma row_at_drop_duplicates df k :
  row_at (map (fun c => values (snd c)) (columns (drop_duplicates df))) k
  = map (fun c => nth k (select (map negb (duplicated df)) (values (snd c))) NaN)
        (columns df).
Proof.
  unfold row_at, drop_duplicates. cbn [columns]. rewrite !map_map. reflexivity.
Qed.

(** The standardized form of every source row stands in the output, and
    source rows that are equal have the same standardized form. *)
Lemma common_keeps_every_row df PATH out :
  well_formed df -> _common df PATH = Ok out ->
  exists full,
    without_deduplication df PATH = Ok full /\ nrows full = nrows df /\
    (forall i j, i < nrows df -> j < nrows df ->
                 nth_error (rows df) i = nth_error (rows df) j ->
                 nth_error (rows full) i = nth_error (rows full) j) /\
    (forall r, In r (rows full) -> In r (rows out)).
Proof.
  intros Hwf H.
  destruct (_common_Ok _ _ _ H) as (c & t & Hc & Ht & Hdt & ->).
  pose proof (clean_Ok _ _ Hwf Hc) as ->.
  pose proof (well_formed_cleaned _ Hwf) as Hwc.
  assert (NoDup (labels (cleaned df))) as Hdc.
  { pose proof (tag_Ok _ _ _ Ht) as (_ & _ & _ & _ & Hnd & _).
    rewrite <- labels_drop_duplicates. auto. }
  destruct (tag_total (cleaned df) PATH Hdc) as (tc & Htc & Hdtc & _).
  pose proof (tag_Ok _ _ _ Htc) as (Hic & _).
  pose proof (tag_Ok _ _ _ Ht) as (Hi & _).
  assert (nrows (cleaned df) = nrows df) as Hnc by reflexivity.
  exists (mkDataFrame (index tc)
            (map (fun n => (n, column_or_nan n tc)) standard_columns)).
  split; [|split; [|split]].
  - unfold without_deduplication. rewrite Hc. cbn [bind]. rewrite Htc.
    cbn [bind]. unfold reindex. now rewrite (proj2 (unique_NoDup _) Hdtc).
  - unfold nrows. cbn [index]. now rewrite Hic.
  - intros i j Hli Hlj Hij.
    rewrite !nth_error_rows in * by (unfold nrows in *; cbn [index]; try rewrite Hic;
                                     assumption).
    f_equal. inversion Hij as [Hrow]. cbn [columns].
    apply (arranged_row (cleaned df) tc PATH i j i j Htc Hli
                        (cleaned df) tc Htc Hlj); try reflexivity.
    intro n. unfold cleaned. cbn [columns].
    rewrite (lookup_map_entry n clean_column).
    destruct (lookup n (columns df)) as [x|] eqn:E; cbn [option_map]; [|exact I].
    rewrite !nth_clean_column. rewrite !row_at_columns in Hrow.
    pose proof (map_eq_pointwise _ _ _ Hrow (n, x) (lookup_In _ _ _ E)) as Hx.
    cbn [snd] in Hx. now rewrite Hx.
  - intros r Hr. apply In_rows in Hr. destruct Hr as (i & Hli & ->).
    unfold nrows in Hli. cbn [index columns] in Hli. rewrite Hic in Hli.
    fold (nrows (cleaned df)) in Hli.
    set (rc := row_at (map (fun c => values (snd c)) (columns (cleaned df))) i).
    assert (In rc (rows (drop_duplicates (cleaned df)))) as Hin.
    { rewrite rows_drop_duplicates by exact Hwc. apply In_kept.
      split; [|intros []]. apply In_rows. exists i. auto. }
    apply In_rows in Hin. destruct Hin as (k & Hlk & Hk).
    apply In_rows. exists k. split.
    + unfold nrows. cbn [index]. now rewrite Hi.
    + cbn [columns].
      apply (arranged_row (cleaned df) tc PATH i k i k Htc Hli
                          (drop_duplicates (cleaned df)) t Ht Hlk);
        try reflexivity.
      intro n. rewrite lookup_drop_duplicates.
      destruct (lookup n (columns (cleaned df))) as [x|] eqn:E;
        cbn [option_map]; [|exact I].
      cbn [values]. unfold rc in Hk.
      rewrite row_at_columns, row_at_drop_duplicates in Hk.
      exact (map_eq_pointwise _ _ _ Hk (n, x) (lookup_In _ _ _ E)).
Qed.

(** * The state aggregator *)

Section StateAggregator.

Context `{W : World}.

Lemma prep_state_stages (state_dir method : string) :
  prep_state state_dir method =
  (files <- state_files state_dir ;;
   dfs <- mapM (run method) files ;;
   df <- concat dfs ;;
   Ok (drop_duplicates df)).
Proof.
  unfold prep_state, state_files, run.
  destruct (listing (fun p => negb (isfile p)) state_dir) as [folders|];
    cbn [bind]; [|reflexivity].
  destruct (mapM (listing isfile) folders) as [files|]; cbn [bind]; reflexivity.
Qed.

Lemma drop_Ok_inv df names d : drop df names = Ok d -> d = without names df.
Proof.
  unfold drop, without.
  destruct (filter (fun n => negb (has_column df n)) names); [|discriminate].
  intro H. now inversion H.
Qed.

Lemma nebraska_Ok PATH out :
  nebraska PATH = Ok out ->
  exists raw, read_csv PATH = Ok raw /\
              _common (nebraska_standardized raw) PATH = Ok out.
Proof.
  unfold nebraska. intro H. bind_inv H raw Hraw.
  rewrite drop_if_present in H. cbn [bind] in H.
  rewrite drop_if_present in H. cbn [bind] in H.
  bind_inv H d Hd. apply drop_Ok_inv in Hd. subst d.
  exists raw. split; [exact Hraw | exact H].
Qed.

Lemma length_flat_map_values {A B : Type} (rows_of_part : A -> nat)
      (g : A -> list B) (l : list A) :
  (forall a, In a l -> length (g a) = rows_of_part a) ->
  length (flat_map g l) = list_sum (map rows_of_part l).
Proof.
  intro H. induction l as [|a t IH]; [reflexivity|].
  simpl. rewrite length_app, (H a) by (simpl; auto).
  f_equal. apply IH. intros b Hb. apply H. now right.
Qed.

Lemma length_range n : length (range n) = n.
Proof. unfold range. now rewrite length_map, length_seq. Qed.

Lemma concat_sheets_well_formed sheets raw :
  Forall sheet_well_formed sheets -> concat_sheets sheets = Ok raw ->
  sheet_well_formed raw.
Proof.
  intros Hwf H. unfold concat_sheets in H.
  destruct sheets as [|sh0 rest] eqn:E; [discriminate|]. rewrite <- E in *.
  inversion H; subst raw. clear H.
  unfold sheet_well_formed, sheet_rows. cbn [sheet_index sheet_columns].
  rewrite length_range. apply Forall_map. apply Forall_forall. intros j _.
  cbn [values]. rewrite flat_map_concat_map, map_map, <- flat_map_concat_map.
  rewrite (length_flat_map_values sheet_rows).
  - symmetry. apply (length_flat_map_values sheet_rows). reflexivity.
  - intros sh Hsh. unfold sheet_column.
    destruct (nth_error (sheet_columns sh) j) as [x|] eqn:En.
    + rewrite Forall_forall in Hwf. specialize (Hwf _ Hsh).
      unfold sheet_well_formed in Hwf. rewrite Forall_forall in Hwf.
      apply Hwf. eapply nth_error_In. exact En.
    + cbn [values]. apply repeat_length.
Qed.

Lemma set_columns_well_formed sh names df :
  sheet_well_formed sh -> set_columns sh names = Ok df -> well_formed df.
Proof.
  intros Hwf H. apply set_columns_Ok in H. destruct H as (_ & Hi & _ & Hc).
  unfold well_formed, nrows. rewrite Hi, Hc. apply Forall_forall.
  intros [n x] Hin. apply in_combine_r in Hin. cbn [snd].
  unfold sheet_well_formed in Hwf. rewrite Forall_forall in Hwf. exact (Hwf _ Hin).
Qed.

(** What a method of [Prep] returns comes out of [_common], run on a
    well-formed frame when the readers give well-formed data. *)
Lemma run_Ok method file df :
  reads_well_formed -> run method file = Ok df ->
  well_formed df /\ labels df = standard_columns.
Proof.
  intros [Hcsv Hxl] H. unfold run, getattr in H.
  destruct (String.eqb method "nebraska").
  - cbn [bind] in H. apply nebraska_Ok in H. destruct H as (raw & Hraw & H).
    split; [|exact (_common_labels _ _ _ H)].
    apply (_common_well_formed _ _ _ (well_formed_standardized _ (Hcsv _ _ Hraw)) H).
  - destruct (String.eqb method "north_dakota");
      [|destruct (String.eqb method "_common"); discriminate].
    cbn [bind] in H. unfold north_dakota in H.
    bind_inv H sheets Hs. bind_inv H raw Hr. bind_inv H src Hsrc.
    split; [|exact (_common_labels _ _ _ H)].
    apply (_common_well_formed src file df); [|exact H].
    apply (set_columns_well_formed raw north_dakota_names); [|exact Hsrc].
    apply (concat_sheets_well_formed sheets); [|exact Hr].
    exact (Hxl _ _ Hs).
Qed.

Lemma union_labels_seen seen l :
  (forall n, In n l -> In n seen) -> union_labels seen l = [].
Proof.
  induction l as [|n t IH]; intro H; [reflexivity|].
  simpl. assert (existsb (String.eqb n) seen = true) as E.
  { apply existsb_exists. exists n. split; [apply H; now left | apply String.eqb_refl]. }
  rewrite E. apply IH. intros m Hm. apply H. now right.
Qed.

Lemma union_labels_standard dfs :
  dfs <> [] -> (forall df, In df dfs -> labels df = standard_columns) ->
  union_labels [] (flat_map labels dfs) = standard_columns.
Proof.
  intros Hne H. destruct dfs as [|df rest]; [contradiction|].
  cbn [flat_map]. rewrite (H df (or_introl eq_refl)).
  unfold standard_columns at 1. cbn -[flat_map].
  rewrite union_labels_seen; [reflexivity|].
  intros n Hn. apply in_flat_map in Hn. destruct Hn as (d & Hd & Hn).
  rewrite (H d (or_intror Hd)) in Hn. simpl in *. tauto.
Qed.

Lemma rows_of_app (names : list string) (n2 : nat) (g : string -> list cell) :
  forall (n1 : nat) (f : string -> list cell),
    (forall k, In k names -> length (f k) = n1) ->
    rows_of (n1 + n2) (map (fun k => f k ++ g k) names)
    = rows_of n1 (map f names) ++ rows_of n2 (map g names).
Proof.
  induction n1 as [|m IH]; intros f Hf.
  - cbn [Nat.add rows_of app]. f_equal. apply map_ext_in. intros k Hk.
    specialize (Hf k Hk). apply length_zero_iff_nil in Hf. now rewrite Hf.
  - cbn [Nat.add rows_of]. rewrite !map_map. cbn [app]. f_equal.
    + apply map_ext_in. intros k Hk. specialize (Hf k Hk).
      destruct (f k); [discriminate | reflexivity].
    + rewrite <- (IH (fun k => tl (f k))).
      * f_equal. apply map_ext_in. intros k Hk.
        specialize (Hf k Hk). destruct (f k); [discriminate | reflexivity].
      * intros k Hk. specialize (Hf k Hk).
        destruct (f k); [discriminate | simpl in *; lia].
Qed.

Lemma length_column_or_nan n df :
  well_formed df -> length (values (column_or_nan n df)) = nrows df.
Proof.
  intro H. unfold column_or_nan. destruct (lookup n (columns df)) as [x|] eqn:E.
  - apply lookup_In in E. unfold well_formed in H. rewrite Forall_forall in H.
    exact (H _ E).
  - apply repeat_length.
Qed.

Lemma rows_by_label df :
  NoDup (labels df) ->
  rows df = rows_of (nrows df)
              (map (fun n => values (column_or_nan n df)) (labels df)).
Proof.
  intro Hd. unfold rows, labels. f_equal. rewrite map_map.
  apply map_ext_in. intros [n x] Hin. cbn [fst snd]. unfold column_or_nan.
  now rewrite (In_lookup n x _ Hd Hin).
Qed.

Lemma rows_stacked (names : list string) (dfs : list DataFrame) :
  NoDup names ->
  (forall df, In df dfs -> well_formed df /\ labels df = names) ->
  rows_of (length (flat_map index dfs))
          (map (fun n => flat_map values (map (column_or_nan n) dfs)) names)
  = flat_map rows dfs.
Proof.
  intros Hd H. induction dfs as [|df rest IH].
  - reflexivity.
  - cbn [flat_map map]. rewrite length_app.
    destruct (H df (or_introl eq_refl)) as [Hwf Hl].
    rewrite (rows_of_app names _
               (fun n => flat_map values (map (column_or_nan n) rest))
               (length (index df)) (fun n => values (column_or_nan n df))).
    + f_equal.
      * rewrite rows_by_label by (rewrite Hl; exact Hd). now rewrite Hl.
      * apply IH. intros d Hin. apply H. now right.
    + intros k _. now apply length_column_or_nan.
Qed.

(** Stacking outputs of [_common]. *)
Lemma concat_standard dfs big :
  (forall df, In df dfs -> well_formed df /\ labels df = standard_columns) ->
  concat dfs = Ok big ->
  well_formed big /\ rows big = flat_map rows dfs.
Proof.
  intros H Hc. unfold concat in Hc.
  destruct dfs as [|df0 rest] eqn:E; [discriminate|]. rewrite <- E in *.
  rewrite union_labels_standard in Hc;
    [|subst dfs; discriminate | intros d Hd; now apply H].
  apply Ok_inj in Hc. subst big. split.
  - unfold well_formed, nrows. cbn [index columns]. apply Forall_map.
    apply Forall_forall. intros n _. cbn [snd values].
    rewrite flat_map_concat_map, map_map, <- flat_map_concat_map.
    rewrite (length_flat_map_values nrows), (length_flat_map_values nrows).
    + reflexivity.
    + reflexivity.
    + intros d Hd. apply length_column_or_nan. now apply H.
  - unfold rows, nrows. cbn [index columns]. rewrite map_map. cbn [snd values].
    apply rows_stacked; [apply NoDup_standard_columns | exact H].
Qed.

Lemma common_keeps_one df PATH out :
  well_formed df -> incl (labels df) source_columns ->
  _common df PATH = Ok out ->
  exists full,
    without_deduplication df PATH = Ok full /\ nrows full = nrows df /\
    forall i j r, i < j -> j < nrows df ->
      nth_error (rows df) i = nth_error (rows df) j ->
      nth_error (rows full) i = Some r ->
      nth_error (rows full) j = Some r /\ occurrences r (rows out) = 1.
Proof.
  intros Hwf Hincl H.
  destruct (common_keeps_every_row df PATH out Hwf H)
    as (full & Hfull & Hn & Hsame & Hin).
  exists full. split; [exact Hfull|]. split; [exact Hn|].
  intros i j r Hij Hj Hrows Hr. split.
  - rewrite <- (Hsame i j) by (assumption || lia). exact Hr.
  - apply occurrences_NoDup.
    + exact (NoDup_rows_common df PATH out Hwf Hincl H).
    + apply Hin. eapply nth_error_In. exact Hr.
Qed.

Lemma prep_state_keeps_one state_dir method result :
  reads_well_formed -> prep_state state_dir method = Ok result ->
  exists files dfs,
    state_files state_dir = Ok files /\ mapM (run method) files = Ok dfs /\
    forall df r, In df dfs -> In r (rows df) ->
                 occurrences r (rows result) = 1.
Proof.
  intros Hw H. rewrite prep_state_stages in H.
  bind_inv H files Hfiles. bind_inv H dfs Hdfs. bind_inv H big Hbig.
  apply Ok_inj in H. subst result.
  exists files, dfs. split; [exact Hfiles|]. split; [exact Hdfs|].
  assert (forall df, In df dfs -> well_formed df /\ labels df = standard_columns)
    as Hall.
  { intros df Hdf. apply mapM_Ok in Hdfs. clear -Hw Hdfs Hdf.
    induction Hdfs as [|f d fs ds Hfd _ IH]; [contradiction|].
    destruct Hdf as [<-|Hdf]; [|auto].
    exact (run_Ok method f d Hw Hfd). }
  destruct (concat_standard dfs big Hall Hbig) as [Hwb Hrows].
  intros df r Hdf Hr.
  rewrite rows_drop_duplicates by exact Hwb.
  apply occurrences_NoDup; [apply NoDup_kept|].
  apply In_kept. split; [|intros []].
  rewrite Hrows. apply in_flat_map. eauto.
Qed.

End StateAggregator.

(** C5, as the code has it. Within one file: on a well-formed record set
    with no column beyond the eight source columns, every row has a
    standardized row (its row in the frame that [_common] gives when the
    deduplication is left out), two equal rows have the same one, and that
    row stands exactly once in the output of [_common]. Across the files
    of a state, the readers giving one value per row in every column: every
    row that the frame of some file holds, so also a row that the frames of
    two files hold, stands exactly once in the result of [prep_state]. *)
Theorem duplicates_removed_in_file_and_state :
  (forall (df : DataFrame) (PATH : string) (out : DataFrame),
      well_formed df ->
      incl (labels df)
           ["FirstName"; "MiddleName"; "LastName"; "Suffix"; "Street"; "City";
            "State"; "Zip"] ->
      _common df PATH = Ok out ->
      exists full,
        without_deduplication df PATH = Ok full /\ nrows full = nrows df /\
        forall i j r, i < j -> j < nrows df ->
          nth_error (rows df) i = nth_error (rows df) j ->
          nth_error (rows full) i = Some r ->
          nth_error (rows full) j = Some r /\ occurrences r (rows out) = 1)
  /\
  (forall (W : World) (state_dir method : string) (result : DataFrame),
      reads_well_formed -> prep_state state_dir method = Ok result ->
      exists files dfs,
        state_files state_dir = Ok files /\
        mapM (run method) files = Ok dfs /\
        forall df r, In df dfs -> In r (rows df) ->
                     occurrences r (rows result) = 1).
Proof.
  split.
  - exact common_keeps_one.
  - intros W. exact (@prep_state_keeps_one W).
Qed.

Lemma sample_world_reads_well_formed : @reads_well_formed sample_world.
Proof.
  split.
  - intros p df. cbn [read_csv sample_world]. unfold one_of. cbn [find fst snd].
    repeat match goal with
           | |- context [String.eqb ?a p] => destruct (String.eqb a p)
           end; intro H; inversion H; repeat constructor.
  - intros p sheets. cbn [read_excel sample_world]. unfold one_of.
    cbn [find fst snd].
    destruct (String.eqb _ p); intro H; inversion H; repeat constructor.
Qed.

(** * Empty folders and missing state folders *)

Section Folders.

Context `{W : World}.

Lemma prep_state_folders (state_dir method : string) :
  prep_state state_dir method =
  (folders <- listing (fun p => negb (isfile p)) state_dir ;;
   prep_folders folders method).
Proof. reflexivity. Qed.

Lemma listing_no_file folder entries :
  listdir folder = Ok entries ->
  (forall e, In e entries -> isfile (Os.join folder e) = false) ->
  listing isfile folder = Ok [].
Proof.
  intros Hl Hf. unfold listing. rewrite Hl. cbn [bind]. f_equal. clear Hl.
  induction entries as [|e t IH]; [reflexivity|].
  cbn [map filter]. rewrite (Hf e (or_introl eq_refl)).
  apply IH. intros x Hx. apply Hf. now right.
Qed.

Lemma concat_app_nil {A : Type} (l1 l2 : list (list A)) :
  List.concat (l1 ++ [] :: l2) = List.concat (l1 ++ l2).
Proof. now rewrite !concat_app. Qed.

(** A folder without a file can be left out of the folders of the state. *)
Lemma prep_folders_skip l1 folder l2 method :
  listing isfile folder = Ok [] ->
  prep_folders (l1 ++ folder :: l2) method = prep_folders (l1 ++ l2) method.
Proof.
  intro H. unfold prep_folders.
  rewrite !mapM_app. cbn [mapM]. rewrite H. cbn [bind].
  destruct (mapM (listing isfile) l1) as [a|]; cbn [bind]; [|reflexivity].
  destruct (mapM (listing isfile) l2) as [b|]; cbn [bind]; [|reflexivity].
  now rewrite concat_app_nil.
Qed.

(** C9, as the code has it. A state folder that cannot be listed makes
    [prep_state] fail with the error of the listing. A subfolder without a
    file gives no file and no record: the state is processed as if the
    subfolder were not there, with the result or the failure of the other
    subfolders. When no subfolder holds a file there is nothing to
    concatenate and [prep_state] raises ValueError. *)
Theorem empty_subfolder_and_missing_state_folder
        (state_dir method : string) :
  (forall e, listdir state_dir = Err e -> prep_state state_dir method = Err e)
  /\
  (forall l1 folder l2 entries,
      listing (fun p => negb (isfile p)) state_dir = Ok (l1 ++ folder :: l2) ->
      listdir folder = Ok entries ->
      (forall e, In e entries -> isfile (Os.join folder e) = false) ->
      listing isfile folder = Ok [] /\
      prep_state state_dir method = prep_folders (l1 ++ l2) method)
  /\
  (state_files state_dir = Ok [] -> prep_state state_dir method = Err ValueError).
Proof.
  split; [|split].
  - intros e He. unfold prep_state, listing. now rewrite He.
  - intros l1 folder l2 entries Hfolders Hl Hf.
    pose proof (listing_no_file folder entries Hl Hf) as Hnone.
    split; [exact Hnone|].
    rewrite prep_state_folders, Hfolders. cbn [bind].
    now apply prep_folders_skip.
  - intro H. rewrite prep_state_stages, H. reflexivity.
Qed.

End Folders.

(** * Further properties of [_common] *)

Lemma length_select_le {A : Type} (mask : list bool) (l : list A) :
  length (select mask l) <= length l.
Proof.
  revert l. induction mask as [|b m IH]; intros [|a l]; simpl; try lia.
  specialize (IH l). destruct b; simpl; lia.
Qed.

Lemma length_duplicated_from rs : forall seen,
  length (duplicated_from seen rs) = length rs.
Proof.
  induction rs as [|r t IH]; intro seen; simpl; [reflexivity | now rewrite IH].
Qed.

Lemma length_duplicated df : length (duplicated df) = nrows df.
Proof.
  unfold duplicated. rewrite length_duplicated_from. unfold rows.
  apply length_rows_of.
Qed.

(** The first row is never marked as a duplicate. *)
Lemma first_row_kept {A : Type} df (l : list A) :
  0 < nrows df -> length l = nrows df ->
  0 < length (select (map negb (duplicated df)) l).
Proof.
  intros Hn Hl. unfold duplicated, rows.
  destruct (nrows df) as [|k]; [lia|]. destruct l as [|a l]; [discriminate|].
  cbn. lia.
Qed.

Lemma _common_kept_rows (df : DataFrame) (PATH : string) (out : DataFrame) :
  well_formed df -> _common df PATH = Ok out ->
  length (kept_rows df) = nrows df /\
  index out = select (kept_rows df) (index df) /\
  (forall n, In n ["FirstName"; "MiddleName"; "LastName"; "Suffix"; "Street";
                   "City"; "State"; "Zip"] ->
     exists x, getitem out n = Ok x /\
               values x
               = select (kept_rows df)
                        (values (clean_column n (column_or_nan n df)))) /\
  nrows out <= nrows df /\
  (0 < nrows df -> 0 < nrows out).
Proof.
  intros Hwf H. unfold kept_rows.
  destruct (_common_Ok _ _ _ H) as (c & t & Hc & Ht & Hdt & Eout).
  pose proof (clean_Ok _ _ Hwf Hc) as Ec. subst c.
  pose proof (tag_Ok _ _ _ Ht) as (Hi & _).
  assert (index out = select (map negb (duplicated (cleaned df))) (index df))
    as Eidx.
  { rewrite Eout. cbn [index]. rewrite Hi. reflexivity. }
  split; [rewrite length_map, length_duplicated; reflexivity|].
  split; [exact Eidx|]. split; [|split].
  - intros n Hn.
    assert (In n standard_columns /\ n <> "Hunt" /\ n <> "Fish") as (Hs & H1 & H2).
    { simpl in Hn. decompose [or] Hn; subst; try contradiction;
        (split; [simpl; tauto | split; discriminate]). }
    rewrite (_common_column df PATH out (cleaned df) n H Hc Hs H1 H2).
    eexists. split; [reflexivity|].
    unfold cleaned at 1. cbn [columns].
    rewrite (lookup_map_entry n clean_column). unfold column_or_nan.
    destruct (lookup n (columns df)) as [x|]; cbn [option_map values];
      [reflexivity|].
    cbn [clean_column dtype_of values]. rewrite select_repeat. f_equal.
    unfold nrows. rewrite Eidx. apply length_select. symmetry.
    apply repeat_length.
  - unfold nrows. rewrite Eidx. apply length_select_le.
  - intro Hpos. unfold nrows. rewrite Eidx.
    apply (first_row_kept (cleaned df)); [exact Hpos | reflexivity].
Qed.

Lemma _common_mask (df : DataFrame) (PATH : string) (out : DataFrame) :
  well_formed df -> _common df PATH = Ok out ->
  exists mask,
    length mask = nrows df /\
    index out = select mask (index df) /\
    (forall n, In n ["FirstName"; "MiddleName"; "LastName"; "Suffix"; "Street";
                     "City"; "State"; "Zip"] ->
       exists x, getitem out n = Ok x /\
                 values x
                 = select mask (values (clean_column n (column_or_nan n df)))) /\
    nrows out <= nrows df /\
    (0 < nrows df -> 0 < nrows out).
Proof.
  intros Hwf H. exists (kept_rows df). exact (_common_kept_rows df PATH out Hwf H).
Qed.

(** X1. [_common] removes whole rows and nothing else: there is one mask,
    with one entry for each source row, such that the row labels of the
    output are the selected source labels and each of the eight source
    columns of the output holds the selected values of the cleaned source
    column (a column of [NaN] where the source has none). No row is added,
    and a source with a row gives an output with a row. *)
Theorem common_removes_whole_rows (df : DataFrame) (PATH : string) (out : DataFrame) :
  well_formed df -> _common df PATH = Ok out ->
  exists mask,
    length mask = nrows df /\
    index out = select mask (index df) /\
    (forall n, In n ["FirstName"; "MiddleName"; "LastName"; "Suffix"; "Street";
                     "City"; "State"; "Zip"] ->
       exists x, getitem out n = Ok x /\
                 values x
                 = select mask (values (clean_column n (column_or_nan n df)))) /\
    nrows out <= nrows df /\
    (0 < nrows df -> 0 < nrows out).
Proof. apply _common_mask. Qed.

Lemma stripped_text_of n s :
  (In n to_title -> ascii_text s = true) -> stripped (text_of n s).
Proof.
  intro Ha. unfold text_of. destruct (String.eqb n "Zip").
  - apply stripped_zfill, stripped_strip.
  - destruct (existsb (String.eqb n) to_title) eqn:E.
    + apply In_to_title in E.
      apply stripped_title; [apply ascii_strip, Ha, E | apply stripped_strip].
    + apply stripped_strip.
Qed.

(** A text column that [clean] reads, row by row: the source column, the
    output column and the mask of the rows kept. *)
Lemma _common_text_column df PATH out n :
  well_formed df -> _common df PATH = Ok out -> In n ("Zip" :: to_title) ->
  exists x y,
    getitem df n = Ok x /\ getitem out n = Ok y /\
    length (values x) = nrows df /\
    index out = select (kept_rows df) (index df) /\
    values y = map (str_method (text_of n)) (select (kept_rows df) (values x)).
Proof.
  intros Hwf H Hn.
  destruct (_common_Ok _ _ _ H) as (c & _ & Hc & _).
  destruct (clean_reads df c n Hwf Hc Hn) as (x & Hx & Hd & _).
  destruct (_common_kept_rows df PATH out Hwf H) as (Hlen & Hidx & Hcols & _).
  destruct (Hcols n) as (y & Hy & Hv).
  { cbn [In to_title] in Hn. decompose [or] Hn; subst; try contradiction;
      simpl; tauto. }
  pose proof (getitem_lookup _ _ _ Hx) as Hl.
  exists x, y. split; [exact Hx|]. split; [exact Hy|]. split.
  - unfold well_formed in Hwf. rewrite Forall_forall in Hwf.
    exact (Hwf _ (lookup_In _ _ _ Hl)).
  - split; [exact Hidx|].
    rewrite Hv. unfold column_or_nan. rewrite Hl.
    rewrite clean_column_object by exact Hd.
    unfold str_col. cbn [values]. apply select_map.
Qed.

Lemma Forall2_map_cells (P : cell -> cell -> Prop) (f : cell -> cell) l :
  (forall c, In c l -> P c (f c)) -> Forall2 P l (map f l).
Proof.
  induction l as [|c t IH]; intro H; cbn [map]; constructor.
  - apply H. now left.
  - apply IH. intros d Hd. apply H. now right.
Qed.

Lemma text_of_Zip s : text_of "Zip" s = zfill 5 (strip s).
Proof. reflexivity. Qed.

(** C1, as the code has it. On a well-formed record set whose Zip column
    is of dtype [object], the Zip column of the output is the Zip column of
    the source with the rows that the deduplication removes left out, and
    in each row that is kept: the missing value where the source value is
    missing or is not a text; where the source value is a text, that text
    stripped and zero-filled, whose length is the larger of 5 and the
    length of the stripped text, so 5 characters or more, and exactly 5
    only when the stripped text has at most 5. *)
Theorem zip_values_five_or_more (df : DataFrame) (PATH : string) (out : DataFrame) :
  well_formed df ->
  (forall z, getitem df "Zip" = Ok z -> dtype_of z = object) ->
  _common df PATH = Ok out ->
  exists zin zout,
    getitem df "Zip" = Ok zin /\ getitem out "Zip" = Ok zout /\
    length (values zin) = nrows df /\
    index out = select (kept_rows df) (index df) /\
    Forall2 (fun source v =>
               match source with
               | Str s =>
                   v = Str (zfill 5 (strip s)) /\
                   length (zfill 5 (strip s)) = Nat.max 5 (length (strip s))
               | _ => v = NaN
               end)
            (select (kept_rows df) (values zin)) (values zout).
Proof.
  intros Hwf _ H.
  destruct (_common_text_column df PATH out "Zip" Hwf H (or_introl eq_refl))
    as (zin & zout & Hzin & Hzout & Hlz & Hidx & Hv).
  exists zin, zout. repeat (split; [assumption|]).
  rewrite Hv. apply Forall2_map_cells. intros [s| |] _; cbn [str_method];
    [|reflexivity|reflexivity].
  rewrite text_of_Zip. split; [reflexivity | apply length_zfill].
Qed.

Lemma zfill_unsigned w s : signed s = false -> zfill w s = left_padded w s.
Proof.
  unfold zfill, left_padded, signed. destruct s as [|c t]; intro H.
  - now rewrite app_nil_r.
  - now rewrite H.
Qed.

Lemma zfill_signed w c t :
  signed (c :: t) = true -> zfill (S w) (c :: t) = c :: left_padded w t.
Proof.
  unfold zfill, left_padded, signed. intro H. rewrite H. reflexivity.
Qed.

(** C2, as the code has it. On a Zip column of dtype [object], the Zip
    step of [_common] zero-fills the stripped Zip text of every row that is
    kept to 5 characters and cuts nothing: a text
    of 5 characters or more stays as it is; a text that does not start with
    a sign gets '0' characters on its left; a text that starts with '+' or
    '-' keeps the sign in front and gets the '0' characters after it. This
    holds for any text: the step never looks whether the characters are
    digits. A value that is missing or is not a text gives the missing
    value. *)
Theorem zip_step_left_pads (df : DataFrame) (PATH : string) (out : DataFrame) :
  well_formed df ->
  (forall z, getitem df "Zip" = Ok z -> dtype_of z = object) ->
  _common df PATH = Ok out ->
  exists zin zout,
    getitem df "Zip" = Ok zin /\ getitem out "Zip" = Ok zout /\
    length (values zin) = nrows df /\
    index out = select (kept_rows df) (index df) /\
    Forall2 (fun source v =>
               match source with
               | Str s =>
                   exists z,
                     v = Str z /\
                     (5 <= length (strip s) -> z = strip s) /\
                     (signed (strip s) = false -> z = left_padded 5 (strip s)) /\
                     (forall c t, strip s = c :: t -> signed (strip s) = true ->
                                  z = c :: left_padded 4 t)
               | _ => v = NaN
               end)
            (select (kept_rows df) (values zin)) (values zout).
Proof.
  intros Hwf _ H.
  destruct (_common_text_column df PATH out "Zip" Hwf H (or_introl eq_refl))
    as (zin & zout & Hzin & Hzout & Hlz & Hidx & Hv).
  exists zin, zout. repeat (split; [assumption|]).
  rewrite Hv. apply Forall2_map_cells. intros [s| |] _; cbn [str_method];
    [|reflexivity|reflexivity].
  rewrite text_of_Zip. exists (zfill 5 (strip s)). split; [reflexivity|].
  split; [apply zfill_long|]. split; [apply zfill_unsigned|].
  intros c t E Hs. rewrite E in *. now apply zfill_signed.
Qed.

(** X2. Of the source columns of dtype [object]: in the output of
    [_common] a text of one of the eight source columns has no white space
    at either end; each value of the five name and address columns is
    missing or the title case of the stripped source text of some row,
    which a second title-casing leaves as it is. For the name and address
    columns, the first and the last of these hold when the source texts
    are ASCII. *)
Theorem common_text_is_clean (df : DataFrame) (PATH : string) (out : DataFrame) :
  well_formed df -> _common df PATH = Ok out ->
  (forall n x y s,
      In n ["FirstName"; "MiddleName"; "LastName"; "Suffix"; "Street"; "City";
            "State"; "Zip"] ->
      getitem df n = Ok x -> dtype_of x = object ->
      (In n to_title -> ascii_values (values x) = true) ->
      getitem out n = Ok y -> In (Str s) (values y) -> strip s = s) /\
  (forall n x,
      In n ["FirstName"; "MiddleName"; "LastName"; "Street"; "City"] ->
      getitem df n = Ok x -> dtype_of x = object ->
      exists y,
        getitem out n = Ok y /\
        (forall v, In v (values y) ->
           v = NaN \/
           exists t, In (Str t) (values x) /\ v = Str (title (strip t))) /\
        (ascii_values (values x) = true ->
         forall s, In (Str s) (values y) -> title s = s)).
Proof.
  intros Hwf H. split.
  - intros n x y s Hn Hx Hd Ha Hy Hs.
    destruct (_common_mask df PATH out Hwf H) as (mask & _ & _ & Hcols & _).
    destruct (Hcols n Hn) as (y' & Hy' & Hv).
    rewrite Hy in Hy'. apply Ok_inj in Hy'. subst y'.
    unfold column_or_nan in Hv. rewrite (getitem_lookup _ _ _ Hx) in Hv.
    rewrite clean_column_object in Hv by exact Hd.
    rewrite Hv in Hs. apply In_select in Hs. cbn [str_col values] in Hs.
    apply in_map_iff in Hs. destruct Hs as ([t| |] & E & Hin); try discriminate.
    cbn [str_method] in E. inversion E.
    apply strip_stripped, stripped_text_of.
    intro Ht. exact (ascii_values_In _ _ (Ha Ht) Hin).
  - intros n x0 Hn Hx0 _.
    destruct (_common_text_column df PATH out n Hwf H (or_intror Hn))
      as (x & y & Hx & Hy & _ & _ & Hv).
    rewrite Hx0 in Hx. apply Ok_inj in Hx. subst x0.
    assert (forall t, text_of n t = title (strip t)) as Et.
    { intro t. cbn [In to_title] in Hn.
      decompose [or] Hn; subst; try contradiction; reflexivity. }
    exists y. split; [exact Hy|]. split.
    + intros v Hin. rewrite Hv in Hin. apply in_map_iff in Hin.
      destruct Hin as ([t| |] & <- & Hin);
        [right | now left | now left].
      apply In_select in Hin. exists t. split; [exact Hin|].
      cbn [str_method]. now rewrite Et.
    + intros Ha s Hin. rewrite Hv in Hin. apply in_map_iff in Hin.
      destruct Hin as ([t| |] & E & Hin); try discriminate.
      apply In_select in Hin. cbn [str_method] in E. inversion E.
      rewrite Et. apply title_title, ascii_strip.
      exact (ascii_values_In _ _ Ha Hin).
Qed.

(** What the [.str] accessor returns when it returns. *)
Lemma str_accessor_Ok x vs : str_accessor x = Ok vs -> accepted x.
Proof.
  unfold accepted, str_accessor. destruct (dtype_of x); [|discriminate].
  destruct (existsb is_num (values x) && negb (existsb is_str (values x)));
    [discriminate | reflexivity].
Qed.

Lemma str_map_accepted f x y : str_map f x = Ok y -> accepted x.
Proof.
  unfold str_map. intro H. bind_inv H vs Hvs. exact (str_accessor_Ok _ _ Hvs).
Qed.

(** A run of line 31 that returns has found every [object] column fit for
    the [.str] accessor. *)
Lemma apply_strip_accepted df df1 :
  well_formed df -> apply strip_if_object df = Ok df1 ->
  forall d, In d (columns df) -> dtype_of (snd d) = object -> accepted (snd d).
Proof.
  intros Hwf H d Hd Hobj. unfold apply in H.
  destruct (index df) as [|i idx] eqn:Ei.
  - unfold well_formed, nrows in Hwf. rewrite Ei, Forall_forall in Hwf.
    specialize (Hwf _ Hd). cbn [length] in Hwf.
    apply length_zero_iff_nil in Hwf.
    unfold accepted, str_accessor. now rewrite Hobj, Hwf.
  - destruct (columns df) as [|c cols] eqn:Ec; [contradiction|].
    bind_inv H cols' Hm. apply mapM_Ok in Hm.
    destruct (Forall2_In_l _ _ _ _ Hm Hd) as (y & _ & Hy).
    bind_inv Hy x' Hx'. unfold strip_if_object in Hx'. rewrite Hobj in Hx'.
    exact (str_map_accepted _ _ _ Hx').
Qed.

(** X3. [_common] returns only on a frame whose labels are all different,
    whose columns of dtype [object] are all fit for the [.str] accessor,
    and which has, once each, a Zip column and the five name and address
    columns, each of them fit for the [.str] accessor: not a column of
    numbers. *)
Theorem common_returns_only_if (df : DataFrame) (PATH : string) (out : DataFrame) :
  well_formed df -> _common df PATH = Ok out ->
  NoDup (labels df) /\
  (forall c, In c (columns df) -> dtype_of (snd c) = object ->
             accepted (snd c)) /\
  forall n, In n ["Zip"; "FirstName"; "MiddleName"; "LastName"; "Street"; "City"] ->
    exists x, getitem df n = Ok x /\ accepted x /\
              dtype_of x <> numeric.
Proof.
  intros Hwf H.
  destruct (_common_Ok _ _ _ H) as (c & t & Hc & Ht & Hdt & _).
  assert (forall d, In d (columns df) -> dtype_of (snd d) = object ->
                    accepted (snd d)) as Hacc.
  { unfold clean in Hc. bind_inv Hc df1 H1.
    exact (apply_strip_accepted df df1 Hwf H1). }
  split; [|split; [exact Hacc|]].
  - pose proof (tag_Ok _ _ _ Ht) as (_ & _ & _ & _ & Hnd & _).
    specialize (Hnd Hdt). rewrite labels_drop_duplicates in Hnd.
    destruct (clean_shape _ _ Hc) as [_ Hl]. now rewrite <- Hl.
  - intros n Hn. destruct (clean_reads df c n Hwf Hc Hn) as (x & Hx & Hd & _).
    exists x. split; [exact Hx|]. split; [|rewrite Hd; discriminate].
    apply (Hacc (n, x)); [|exact Hd].
    exact (lookup_In _ _ _ (getitem_lookup _ _ _ Hx)).
Qed.

Lemma getitem_stripped df n :
  getitem (mkDataFrame (index df)
             (map (fun c => (fst c, strip_col (snd c))) (columns df))) n
  = match named n (columns df) with
    | [] => Err (KeyError n)
    | [c] => Ok (strip_col (snd c))
    | _ => Err AttributeError
    end.
Proof.
  unfold getitem. cbn [columns].
  fold (named n (map (fun c => (fst c, strip_col (snd c))) (columns df))).
  rewrite (named_map_entry n (fun c => strip_col (snd c))).
  destruct (named n (columns df)) as [|c [|c' rest]]; reflexivity.
Qed.

Lemma named_nil n cols : ~ In n (map fst cols) -> named n cols = [].
Proof.
  intro H. unfold named. induction cols as [|[m x] t IH]; [reflexivity|].
  simpl in *. destruct (String.eqb m n) eqn:E.
  - apply String.eqb_eq in E. exfalso. auto.
  - apply IH. auto.
Qed.

(** X4. On a well-formed frame whose [object] columns the [.str] accessor
    takes, [_common] raises KeyError 'Zip' when there is no Zip column, and
    AttributeError when the Zip column is not of dtype [object], as a column
    of numbers read from a spreadsheet is. *)
Theorem common_zip_errors (df : DataFrame) (PATH : string) :
  well_formed df ->
  (forall d, In d (columns df) -> dtype_of (snd d) = object -> accepted (snd d)) ->
  (~ In "Zip" (labels df) -> _common df PATH = Err (KeyError "Zip")) /\
  (forall z, getitem df "Zip" = Ok z -> dtype_of z = numeric ->
             _common df PATH = Err AttributeError).
Proof.
  intros Hwf Hacc. split.
  - intro Hn. unfold _common. rewrite (apply_strip_total _ Hwf Hacc).
    cbn [bind]. rewrite getitem_stripped, (named_nil _ _ Hn). reflexivity.
  - intros z Hz Hd. unfold _common. rewrite (apply_strip_total _ Hwf Hacc).
    cbn [bind]. rewrite getitem_stripped.
    unfold getitem in Hz. fold (named "Zip" (columns df)) in Hz.
    destruct (named "Zip" (columns df)) as [|c [|c' rest]]; try discriminate.
    apply Ok_inj in Hz. subst z. cbn [bind].
    assert (str_zfill 5 (strip_col (snd c)) = Err AttributeError) as E.
    { unfold str_zfill, str_map, str_accessor, strip_col.
      rewrite Hd. cbv beta iota. rewrite Hd. reflexivity. }
    rewrite E. reflexivity.
Qed.

(** X5. The output of [_common] on a well-formed frame is well formed:
    each of its ten columns, the two flag columns and a Suffix column made
    of [NaN] included, holds exactly one value for each output row. *)
Theorem common_output_well_formed (df : DataFrame) (PATH : string) (out : DataFrame) :
  well_formed df -> _common df PATH = Ok out ->
  length (columns out) = 10 /\
  forall c, In c (columns out) -> length (values (snd c)) = nrows out.
Proof.
  intros Hwf H. split.
  - pose proof (_common_labels _ _ _ H) as Hl. unfold labels in Hl.
    rewrite <- (length_map fst), Hl. reflexivity.
  - pose proof (_common_well_formed _ _ _ Hwf H) as Hwo.
    unfold well_formed in Hwo. rewrite Forall_forall in Hwo. exact Hwo.
Qed.

(** * Further properties of [nebraska] *)

Section NebraskaColumns.

Context `{W : World}.

Lemma _common_NoDup_labels df PATH out :
  _common df PATH = Ok out -> NoDup (labels df).
Proof.
  intro H. destruct (_common_Ok _ _ _ H) as (c & t & Hc & Ht & Hdt & _).
  pose proof (tag_Ok _ _ _ Ht) as (_ & _ & _ & _ & Hnd & _).
  specialize (Hnd Hdt). rewrite labels_drop_duplicates in Hnd.
  destruct (clean_shape _ _ Hc) as [_ Hl]. now rewrite <- Hl.
Qed.

(** X6. [nebraska] takes each standard column from the source column that
    the renaming maps to it (FirstName from firstName, Zip from zip, and so
    on): with one mask for all of them, the output column holds the
    selected values of the cleaned source column. *)
Theorem nebraska_takes_renamed_columns (PATH : string) (raw out : DataFrame) :
  read_csv PATH = Ok raw -> well_formed raw -> nebraska PATH = Ok out ->
  exists mask,
    length mask = nrows raw /\
    index out = select mask (index raw) /\
    forall src std x,
      In (src, std)
         [("firstName", "FirstName"); ("middleName", "MiddleName");
          ("lastName", "LastName"); ("street", "Street"); ("city", "City");
          ("state", "State"); ("zip", "Zip")] ->
      getitem raw src = Ok x ->
      exists y, getitem out std = Ok y /\
                values y = select mask (values (clean_column std x)).
Proof.
  intros Hraw Hwf H. apply nebraska_Ok in H. destruct H as (raw' & Hraw' & H).
  rewrite Hraw in Hraw'. apply Ok_inj in Hraw'. subst raw'.
  pose proof (_common_NoDup_labels _ _ _ H) as Hnd.
  destruct (_common_mask _ PATH out (well_formed_standardized _ Hwf) H)
    as (mask & Hlen & Hidx & Hcols & _).
  exists mask. split; [exact Hlen|]. split; [exact Hidx|].
  intros src std x Hin Hx.
  assert (lookup std (columns (nebraska_standardized raw)) = Some x) as Hl.
  { apply In_lookup; [exact Hnd|].
    apply getitem_lookup, lookup_In in Hx.
    simpl in Hin. decompose [or] Hin; try contradiction;
      match goal with E : (_, _) = (_, _) |- _ => inversion E; subst end;
      apply (In_columns_standardized raw _ x Hx); simpl; intuition discriminate. }
  destruct (Hcols std) as (y & Hy & Hv).
  { simpl in Hin. decompose [or] Hin; try contradiction;
      match goal with E : (_, _) = (_, _) |- _ => inversion E; subst end;
      simpl; tauto. }
  exists y. split; [exact Hy|]. rewrite Hv. unfold column_or_nan.
  now rewrite Hl.
Qed.

End NebraskaColumns.

(** X7. What the Sex and email columns of a file hold never reaches the
    output of [nebraska]: two parsed files that are equal once these two
    columns are left out give the same result, or the same exception. *)
Theorem nebraska_ignores_optional_columns (W1 W2 : World) (PATH : string)
        (df1 df2 : DataFrame) :
  @read_csv W1 PATH = Ok df1 -> @read_csv W2 PATH = Ok df2 ->
  without ["email"] (without ["Sex"] df1)
  = without ["email"] (without ["Sex"] df2) ->
  nebraska (W := W1) PATH = nebraska (W := W2) PATH.
Proof.
  intros H1 H2 E. unfold nebraska. rewrite H1, H2. cbn [bind].
  rewrite !drop_if_present. cbn [bind]. rewrite !drop_if_present. cbn [bind].
  now rewrite E.
Qed.

(** * Further properties of [north_dakota] *)

Lemma NoDup_select {A : Type} (mask : list bool) (l : list A) :
  NoDup l -> NoDup (select mask l).
Proof.
  revert l. induction mask as [|b m IH]; intros [|a l] H; simpl;
    try constructor.
  inversion H as [|? ? Hn Hd]; subst. destruct b; [|auto].
  constructor; [|auto]. intro Hin. apply Hn. eapply In_select. exact Hin.
Qed.

Lemma NoDup_range n : NoDup (range n).
Proof.
  unfold range. generalize (seq_NoDup n 0). generalize (seq 0 n).
  intros ks Hd. induction Hd as [|k ks Hn _ IH]; [constructor|].
  cbn [map]. constructor; [|exact IH].
  intro Hin. apply in_map_iff in Hin. destruct Hin as (j & Ej & Hj).
  apply Nat2Z.inj in Ej. subst j. contradiction.
Qed.

Lemma In_range n z : In z (range n) -> (0 <= z < Z.of_nat n)%Z.
Proof.
  unfold range. intro H. apply in_map_iff in H. destruct H as (k & <- & Hk).
  apply in_seq in Hk. lia.
Qed.

Section NorthDakota.

Context `{W : World}.

(** X8. [north_dakota] raises ValueError on a workbook without a sheet
    (nothing to concatenate) and on a workbook whose widest sheet does not
    have exactly seven columns (the seven names do not fit). *)
Theorem north_dakota_refuses (PATH : string) (sheets : list Sheet) :
  read_excel PATH = Ok sheets ->
  sheets = [] \/ width sheets <> 7 ->
  north_dakota PATH = Err ValueError.
Proof.
  intros Hs Hbad. unfold north_dakota. rewrite Hs. cbn [bind].
  destruct sheets as [|sh rest]; [reflexivity|].
  destruct Hbad as [E|Hw]; [discriminate|].
  unfold concat_sheets. cbn [bind]. unfold set_columns.
  cbn [sheet_columns]. rewrite length_map, length_seq.
  fold (width (sh :: rest)).
  destruct (Nat.eqb_spec (length north_dakota_names) (width (sh :: rest)))
    as [E|_]; [|reflexivity].
  exfalso. apply Hw. rewrite <- E. reflexivity.
Qed.

(** X9. [north_dakota] numbers the rows of all sheets afresh before the
    common processing: the output has at most as many rows as the sheets
    have together, and its row labels are distinct numbers from 0 up to
    that total. *)
Theorem north_dakota_rows (PATH : string) (sheets : list Sheet) (out : DataFrame) :
  read_excel PATH = Ok sheets -> Forall sheet_well_formed sheets ->
  north_dakota PATH = Ok out ->
  nrows out <= list_sum (map sheet_rows sheets) /\
  NoDup (index out) /\
  forall l, In l (index out) ->
            (0 <= l < Z.of_nat (list_sum (map sheet_rows sheets)))%Z.
Proof.
  intros Hs Hwf H. unfold north_dakota in H. rewrite Hs in H. cbn [bind] in H.
  bind_inv H raw Hr. bind_inv H df Hdf.
  pose proof (concat_sheets_well_formed _ _ Hwf Hr) as Hwr.
  pose proof (set_columns_well_formed _ _ _ Hwr Hdf) as Hwd.
  apply set_columns_Ok in Hdf. destruct Hdf as (_ & Hi & _).
  assert (index df = range (list_sum (map sheet_rows sheets))) as Eidx.
  { rewrite Hi. unfold concat_sheets in Hr.
    destruct sheets as [|sh rest] eqn:E; [discriminate|]. rewrite <- E in *.
    apply Ok_inj in Hr. subst raw. cbn [sheet_index]. f_equal.
    apply (length_flat_map_values sheet_rows). reflexivity. }
  destruct (_common_mask df PATH out Hwd H) as (mask & _ & Ho & _ & Hle & _).
  split; [|split].
  - unfold nrows in Hle. rewrite Eidx, length_range in Hle. exact Hle.
  - rewrite Ho, Eidx. apply NoDup_select, NoDup_range.
  - intros l Hl. rewrite Ho, Eidx in Hl. apply In_select in Hl.
    now apply In_range.
Qed.

End NorthDakota.

Section NorthDakotaColumns.

Context `{W : World}.

(** X10. [north_dakota] names the columns of the workbook by position, the
    last name first: LastName is column 0 of the stacked sheets, FirstName
    column 1, MiddleName column 2, then Street, City, State and Zip.  With
    one mask for all of them, the output column holds the selected values
    of the cleaned column at that position. *)
Theorem north_dakota_takes_columns_by_position
        (PATH : string) (sheets : list Sheet) (out : DataFrame) :
  read_excel PATH = Ok sheets -> Forall sheet_well_formed sheets ->
  north_dakota PATH = Ok out ->
  exists mask,
    length mask = list_sum (map sheet_rows sheets) /\
    forall j std,
      In (j, std)
         [(0, "LastName"); (1, "FirstName"); (2, "MiddleName");
          (3, "Street"); (4, "City"); (5, "State"); (6, "Zip")] ->
      exists y, getitem out std = Ok y /\
                values y
                = select mask (values (clean_column std (stacked j sheets))).
Proof.
  intros Hs Hwf H. unfold north_dakota in H. rewrite Hs in H. cbn [bind] in H.
  bind_inv H raw Hr. bind_inv H df Hdf.
  pose proof (concat_sheets_well_formed _ _ Hwf Hr) as Hwr.
  pose proof (set_columns_well_formed _ _ _ Hwr Hdf) as Hwd.
  apply set_columns_Ok in Hdf. destruct Hdf as (_ & Hi & Hlen & Hcols).
  unfold concat_sheets in Hr.
  destruct sheets as [|sh rest] eqn:E; [discriminate|]. rewrite <- E in *.
  apply Ok_inj in Hr. subst raw. cbn [sheet_index sheet_columns] in *.
  rewrite length_map, length_seq in Hlen.
  rewrite <- Hlen in Hcols.
  destruct (_common_mask df PATH out Hwd H) as (mask & Hm & _ & Hc & _).
  exists mask. split.
  - rewrite Hm. unfold nrows. rewrite Hi, length_range.
    apply (length_flat_map_values sheet_rows). reflexivity.
  - intros j std Hin.
    assert (In std ["FirstName"; "MiddleName"; "LastName"; "Suffix"; "Street";
                    "City"; "State"; "Zip"] /\
            column_or_nan std df = stacked j sheets) as [Hstd Hcol].
    { unfold column_or_nan. rewrite Hcols.
      simpl in Hin. decompose [or] Hin; try contradiction;
        match goal with E : (_, _) = (_, _) |- _ => inversion E; subst j std end;
        (split; [simpl; tauto | reflexivity]). }
    destruct (Hc std Hstd) as (y & Hy & Hv). exists y.
    split; [exact Hy|]. now rewrite Hv, Hcol.
Qed.

End NorthDakotaColumns.

(** * Further properties of [prep_state] *)

Lemma mapM_Err {A B : Type} (f : A -> result B) (l : list A) (a : A) (e : error) :
  In a l -> f a = Err e -> exists e', mapM f l = Err e'.
Proof.
  induction l as [|x t IH]; intros Hin He; [contradiction|].
  cbn [mapM]. destruct (f x) as [b|e0] eqn:Ex; cbn [bind]; [|eauto].
  destruct Hin as [->|Hin]; [congruence|].
  destruct (IH Hin He) as (e' & ->). cbn [bind]. eauto.
Qed.

Section StateFolders.

Context `{W : World}.

Lemma In_listing keep d l f :
  listing keep d = Ok l ->
  In f l <-> exists names name,
               listdir d = Ok names /\ In name names /\
               f = Os.join d name /\ keep f = true.
Proof.
  unfold listing. intro H. bind_inv H names Hn. apply Ok_inj in H. subst l.
  rewrite filter_In, in_map_iff. split.
  - intros [(name & <- & Hin) Hk]. exists names, name. auto.
  - intros (names' & name & Hl & Hin & -> & Hk).
    rewrite Hn in Hl. apply Ok_inj in Hl. subst names'. split; eauto.
Qed.

(** X11. The files that [prep_state] reads are exactly the files that sit
    in an entry of the state folder that is not a file: a file directly in
    the state folder is not read, and nothing deeper than one subfolder
    is. *)
Theorem state_files_are_one_level_down (state_dir : string) (files : list string) :
  state_files state_dir = Ok files ->
  forall f,
    In f files <->
    exists top sub entries name,
      listdir state_dir = Ok top /\ In sub top /\
      isfile (Os.join state_dir sub) = false /\
      listdir (Os.join state_dir sub) = Ok entries /\ In name entries /\
      f = Os.join (Os.join state_dir sub) name /\ isfile f = true.
Proof.
  unfold state_files. intro H. bind_inv H folders Hfo. bind_inv H filess Hfi.
  apply Ok_inj in H. subst files. apply mapM_Ok in Hfi. intro f.
  rewrite in_concat. split.
  - intros (fl & Hfl & Hf).
    destruct (Forall2_In_r _ _ _ _ Hfi Hfl) as (folder & Hfolder & Hl).
    apply (In_listing _ _ _ f Hl) in Hf.
    destruct Hf as (entries & name & He & Hname & -> & Hk).
    apply (In_listing _ _ _ folder Hfo) in Hfolder.
    destruct Hfolder as (top & sub & Ht & Hsub & -> & Hnot).
    apply negb_true_iff in Hnot.
    exists top, sub, entries, name. auto 10.
  - intros (top & sub & entries & name & Ht & Hsub & Hnot & He & Hname & -> & Hk).
    assert (In (Os.join state_dir sub) folders) as Hfolder.
    { apply (In_listing _ _ _ _ Hfo). exists top, sub.
      rewrite Hnot. auto. }
    destruct (Forall2_In_l _ _ _ _ Hfi Hfolder) as (fl & Hfl & Hl).
    exists fl. split; [exact Hfl|].
    apply (In_listing _ _ _ _ Hl). exists entries, name. auto.
Qed.

Lemma mapM_returns (files : list string) (method : string) :
  (forall g, In g files -> exists d, run method g = Ok d) ->
  exists dfs, mapM (run method) files = Ok dfs.
Proof.
  induction files as [|g t IH]; intro H; [now exists []|].
  destruct (H g (or_introl eq_refl)) as (d & Hd).
  destruct IH as (dfs & Hdfs); [intros; apply H; now right|].
  exists (d :: dfs). cbn [mapM]. rewrite Hd. cbn [bind]. rewrite Hdfs.
  reflexivity.
Qed.

(** X12. [prep_state] is all or nothing: when the method fails on one of
    the files found, [prep_state] fails, whatever the other files give; and
    it fails with the error of that file when the method returns on all the
    files found before it. *)
Theorem prep_state_fails_with_any_file (state_dir method : string)
        (files : list string) (f : string) (e : error) :
  state_files state_dir = Ok files -> In f files -> run method f = Err e ->
  (exists e', prep_state state_dir method = Err e') /\
  (forall before after,
     files = before ++ f :: after ->
     (forall g, In g before -> exists d, run method g = Ok d) ->
     prep_state state_dir method = Err e).
Proof.
  intros Hfiles Hin He. rewrite prep_state_stages, Hfiles. cbn [bind]. split.
  - destruct (mapM_Err (run method) files f e Hin He) as (e' & ->).
    cbn [bind]. eauto.
  - intros before after -> Hb. rewrite mapM_app.
    destruct (mapM_returns before method Hb) as (dfs & ->).
    cbn [bind mapM]. rewrite He. reflexivity.
Qed.

Lemma concat_standard_labels dfs big :
  (forall df, In df dfs -> labels df = standard_columns) ->
  concat dfs = Ok big -> labels big = standard_columns.
Proof.
  intros H Hc. unfold concat in Hc.
  destruct dfs as [|df0 rest] eqn:E; [discriminate|]. rewrite <- E in *.
  rewrite union_labels_standard in Hc; [|subst dfs; discriminate | exact H].
  apply Ok_inj in Hc. subst big. unfold labels. cbn [columns].
  rewrite map_map. cbn [fst]. apply map_id.
Qed.

Lemma prep_state_result (state_dir method : string) (result : DataFrame) :
  reads_well_formed -> prep_state state_dir method = Ok result ->
  exists files dfs big,
    state_files state_dir = Ok files /\ mapM (run method) files = Ok dfs /\
    dfs <> [] /\
    (forall df, In df dfs -> well_formed df /\ labels df = standard_columns) /\
    concat dfs = Ok big /\ result = drop_duplicates big /\
    well_formed big /\ labels big = standard_columns /\
    rows big = flat_map rows dfs.
Proof.
  intros Hw H. rewrite prep_state_stages in H.
  bind_inv H files Hfiles. bind_inv H dfs Hdfs. bind_inv H big Hbig.
  apply Ok_inj in H. subst result.
  assert (forall df, In df dfs -> well_formed df /\ labels df = standard_columns)
    as Hall.
  { intros df Hdf. pose proof (mapM_Ok _ _ _ Hdfs) as HF.
    destruct (Forall2_In_r _ _ _ _ HF Hdf) as (f & _ & Hf).
    exact (run_Ok method f df Hw Hf). }
  destruct (concat_standard dfs big Hall Hbig) as [Hwb Hrows].
  exists files, dfs, big.
  split; [exact Hfiles|]. split; [exact Hdfs|].
  split; [intros ->; discriminate Hbig|]. split; [exact Hall|].
  split; [exact Hbig|]. split; [reflexivity|]. split; [exact Hwb|].
  split; [|exact Hrows].
  apply (concat_standard_labels dfs); [|exact Hbig].
  intros df Hdf. now apply Hall.
Qed.

(** X13. The result of [prep_state] has the ten standard columns, one value
    per row in each, no row twice, and no row of its own making: every row
    of the result is a row of the frame that the method gave for one of the
    files found. *)
Theorem prep_state_result_rows (state_dir method : string) (result : DataFrame) :
  reads_well_formed -> prep_state state_dir method = Ok result ->
  labels result = standard_columns /\ well_formed result /\
  NoDup (rows result) /\
  forall r, In r (rows result) ->
    exists files f df,
      state_files state_dir = Ok files /\ In f files /\
      run method f = Ok df /\ In r (rows df).
Proof.
  intros Hw H.
  destruct (prep_state_result _ _ _ Hw H)
    as (files & dfs & big & Hfiles & Hdfs & _ & _ & _ & -> & Hwb & Hlb & Hrows).
  split; [now rewrite labels_drop_duplicates|].
  split; [now apply well_formed_drop_duplicates|].
  rewrite rows_drop_duplicates by exact Hwb.
  split; [apply NoDup_kept|].
  intros r Hr. apply In_kept in Hr. destruct Hr as [Hr _].
  rewrite Hrows in Hr. apply in_flat_map in Hr. destruct Hr as (df & Hdf & Hr).
  destruct (Forall2_In_r _ _ _ _ (mapM_Ok _ _ _ Hdfs) Hdf) as (f & Hf & Hrun).
  exists files, f, df. auto.
Qed.

End StateFolders.

(** * Paths and flags *)

Lemma string_append_assoc (a b c : string) :
  ((a ++ b) ++ c)%string = (a ++ (b ++ c))%string.
Proof. induction a as [|x a IH]; simpl; [reflexivity | now rewrite IH]. Qed.

Lemma occurs_in_append_r t a c : occurs_in t a -> occurs_in t (a ++ c)%string.
Proof.
  intros (p & q & ->). exists p, (q ++ c)%string.
  now rewrite !string_append_assoc.
Qed.

Lemma occurs_in_append_l t a c : occurs_in t a -> occurs_in t (c ++ a)%string.
Proof.
  intros (p & q & ->). exists (c ++ p)%string, q.
  now rewrite !string_append_assoc.
Qed.

(** [join] keeps what its parts hold: the name always, the directory
    unless the name starts with the separator. *)
Lemma occurs_in_join t a b :
  (occurs_in t a /\ Os.startswith_sep b = false) \/ occurs_in t b ->
  occurs_in t (Os.join a b).
Proof.
  unfold Os.join. intros [[Ha Hb]|Hb].
  - rewrite Hb. destruct (String.eqb a "" || Os.endswith_sep a);
      now apply occurs_in_append_r.
  - destruct (Os.startswith_sep b); [exact Hb|].
    destruct (String.eqb a "" || Os.endswith_sep a).
    + now apply occurs_in_append_l.
    + apply occurs_in_append_l. now apply (occurs_in_append_l t b "/").
Qed.

Lemma _common_flag df PATH out name :
  _common df PATH = Ok out -> name = "Hunt" \/ name = "Fish" ->
  lookup name (columns out) = Some (flag name PATH (nrows out)).
Proof.
  intros H Hn. destruct (_common_Ok _ _ _ H) as (c & t & _ & Ht & _ & ->).
  apply tag_Ok in Ht. destruct Ht as (Hi & Hh & Hf & _).
  cbn [columns]. unfold nrows. cbn [index]. rewrite Hi.
  destruct Hn as [-> | ->];
    (rewrite lookup_fresh by (simpl; tauto)); unfold column_or_nan;
    [rewrite Hh | rewrite Hf]; reflexivity.
Qed.

Section PathsAndFlags.

Context `{W : World}.

Lemma run_common method f df :
  run method f = Ok df -> exists src, _common src f = Ok df.
Proof.
  unfold run, getattr. intro H.
  destruct (String.eqb method "nebraska").
  - cbn [bind] in H. apply nebraska_Ok in H. destruct H as (raw & _ & H). eauto.
  - destruct (String.eqb method "north_dakota");
      [|destruct (String.eqb method "_common"); discriminate].
    cbn [bind] in H. unfold north_dakota in H.
    bind_inv H sheets Hs. bind_inv H raw Hr. bind_inv H src Hsrc. eauto.
Qed.

Lemma run_flag method f df name :
  run method f = Ok df -> name = "Hunt" \/ name = "Fish" ->
  occurs_in name f ->
  exists x, getitem df name = Ok x /\ values x = repeat (Str "Y") (nrows df).
Proof.
  intros H Hn Hocc. destruct (run_common _ _ _ H) as (src & Hc).
  exists (flag name f (nrows df)). split.
  - apply lookup_getitem; [|now apply (_common_flag src)].
    rewrite (_common_labels _ _ _ Hc). apply NoDup_standard_columns.
  - rewrite values_flag. apply contains_iff in Hocc. now rewrite Hocc.
Qed.

(** X14. A file found by [prep_state] is flagged by every part of its
    path: when "Hunt" (or "Fish") occurs in the name of the state folder,
    of the subfolder or of the file itself, the frame that the method gives
    for the file holds "Y" on every row of the Hunt (or Fish) column. *)
Theorem file_flagged_by_any_part_of_path
        (state_dir sub name method flag_name : string) (df : DataFrame) :
  relative_names ->
  flag_name = "Hunt" \/ flag_name = "Fish" ->
  forall top entries,
    listdir state_dir = Ok top -> In sub top ->
    listdir (Os.join state_dir sub) = Ok entries -> In name entries ->
    occurs_in flag_name state_dir \/ occurs_in flag_name sub \/
    occurs_in flag_name name ->
    run method (Os.join (Os.join state_dir sub) name) = Ok df ->
    exists x, getitem df flag_name = Ok x /\
              values x = repeat (Str "Y") (nrows df).
Proof.
  intros Hrel Hn top entries Ht Hsub He Hname Hocc Hrun.
  apply (run_flag method _ df flag_name Hrun Hn).
  apply occurs_in_join. destruct Hocc as [H|[H|H]]; [left | left | now right];
    (split; [|exact (Hrel _ _ He _ Hname)]);
    apply occurs_in_join; [left | now right].
  split; [exact H | exact (Hrel _ _ Ht _ Hsub)].
Qed.

Lemma concat_standard_columns dfs big :
  (forall df, In df dfs -> labels df = standard_columns) ->
  concat dfs = Ok big ->
  forall n, In n standard_columns ->
    exists d, lookup n (columns big)
              = Some (mkSeries d (flat_map values (map (column_or_nan n) dfs))).
Proof.
  intros H Hc n Hn. unfold concat in Hc.
  destruct dfs as [|df0 rest] eqn:E; [discriminate|]. rewrite <- E in *.
  rewrite union_labels_standard in Hc; [|subst dfs; discriminate | exact H].
  apply Ok_inj in Hc. subst big. cbn [columns].
  eexists.
  apply (lookup_fresh
           (fun m => mkSeries
                       (if existsb (fun x => is_object (dtype_of x))
                                   (map (column_or_nan m) dfs)
                        then object else numeric)
                       (flat_map values (map (column_or_nan m) dfs)))
           standard_columns n Hn).
Qed.

(** X15. A state folder whose name holds "Hunt" (or "Fish") flags the whole
    state: every row of the result of [prep_state] has "Y" in the Hunt (or
    Fish) column, whatever the subfolders are called. *)
Theorem state_folder_name_flags_every_row
        (state_dir method flag_name : string) (result : DataFrame) :
  relative_names ->
  flag_name = "Hunt" \/ flag_name = "Fish" ->
  occurs_in flag_name state_dir ->
  prep_state state_dir method = Ok result ->
  exists x, getitem result flag_name = Ok x /\
            forall v, In v (values x) -> v = Str "Y".
Proof.
  intros Hrel Hn Hocc H. rewrite prep_state_stages in H.
  bind_inv H files Hfiles. bind_inv H dfs Hdfs. bind_inv H big Hbig.
  apply Ok_inj in H. subst result.
  pose proof (mapM_Ok _ _ _ Hdfs) as HF.
  assert (forall df, In df dfs -> labels df = standard_columns) as Hlab.
  { intros df Hdf. destruct (Forall2_In_r _ _ _ _ HF Hdf) as (f & _ & Hf).
    destruct (run_common _ _ _ Hf) as (src & Hc).
    exact (_common_labels _ _ _ Hc). }
  assert (In flag_name standard_columns) as Hstd
      by (destruct Hn as [-> | ->]; simpl; tauto).
  destruct (concat_standard_columns dfs big Hlab Hbig flag_name Hstd)
    as (d & Hl).
  eexists. split.
  - apply lookup_getitem.
    + rewrite labels_drop_duplicates, (concat_standard_labels dfs big Hlab Hbig).
      apply NoDup_standard_columns.
    + rewrite lookup_drop_duplicates, Hl. reflexivity.
  - cbn [values dtype_of]. intros v Hv. apply In_select in Hv.
    apply in_flat_map in Hv. destruct Hv as (x & Hx & Hv).
    apply in_map_iff in Hx. destruct Hx as (df & <- & Hdf).
    destruct (Forall2_In_r _ _ _ _ HF Hdf) as (f & Hf & Hrun).
    assert (occurs_in flag_name f) as Hof.
    { unfold state_files in Hfiles. bind_inv Hfiles folders Hfo.
      bind_inv Hfiles filess Hfi. apply Ok_inj in Hfiles. subst files.
      apply in_concat in Hf. destruct Hf as (fl & Hfl & Hf).
      destruct (Forall2_In_r _ _ _ _ (mapM_Ok _ _ _ Hfi) Hfl)
        as (folder & Hfolder & Hlist).
      apply (In_listing _ _ _ f Hlist) in Hf.
      destruct Hf as (entries & name & He & Hname & -> & _).
      apply (In_listing _ _ _ folder Hfo) in Hfolder.
      destruct Hfolder as (top & sub & Ht & Hsub & -> & _).
      apply occurs_in_join. left. split; [|exact (Hrel _ _ He _ Hname)].
      apply occurs_in_join. left. split; [exact Hocc|].
      exact (Hrel _ _ Ht _ Hsub). }
    destruct (run_flag method f df flag_name Hrun Hn Hof) as (y & Hy & Hvy).
    unfold column_or_nan in Hv. rewrite (getitem_lookup _ _ _ Hy), Hvy in Hv.
    now apply repeat_spec in Hv.
Qed.

End PathsAndFlags.

Lemma one_of_relative (table : list (string * list string)) :
  Forall (fun e => Forall (fun n => Os.startswith_sep n = false) (snd e))
         table ->
  forall d names, one_of table d = Ok names ->
    forall n, In n names -> Os.startswith_sep n = false.
Proof.
  intros Ht d names H n Hn. unfold one_of in H.
  destruct (find (fun e => String.eqb (fst e) d) table) as [e|] eqn:E;
    [|discriminate].
  apply Ok_inj in H. subst names. apply find_some in E. destruct E as [E _].
  rewrite Forall_forall in Ht. specialize (Ht e E).
  rewrite Forall_forall in Ht. now apply Ht.
Qed.

(** * Further properties of [prep_all_states] *)

Section AllStates.

Context `{W : World}.

Lemma prep_all_states_stages :
  prep_all_states =
    (ne <- prep_state "Nebraska" "nebraska" ;;
     nd <- prep_state "North Dakota" "north_dakota" ;;
     concat [ne; nd]).
Proof.
  unfold prep_all_states. cbn [combine mapM fst snd].
  destruct (prep_state "Nebraska" "nebraska") as [ne|e]; [|reflexivity].
  cbn [bind].
  destruct (prep_state "North Dakota" "north_dakota") as [nd|e];
    reflexivity.
Qed.

Lemma prep_state_standard (state_dir method : string) (result : DataFrame) :
  reads_well_formed -> prep_state state_dir method = Ok result ->
  well_formed result /\ labels result = standard_columns.
Proof.
  intros Hw H.
  destruct (prep_state_result _ _ _ Hw H)
    as (files & dfs & big & _ & _ & _ & _ & _ & -> & Hwb & Hlab & _).
  split; [now apply well_formed_drop_duplicates|].
  now rewrite labels_drop_duplicates.
Qed.

(** X16. [prep_all_states] stacks the two states and does nothing else:
    its rows are the rows of Nebraska followed by the rows of North Dakota,
    with the row labels each state came with, under the ten standard
    columns.  No row is dropped at this level, so a record that both states
    hold is in the result twice. *)
Theorem prep_all_states_stacks_the_states (all : DataFrame) :
  reads_well_formed -> prep_all_states = Ok all ->
  exists ne nd,
    prep_state "Nebraska" "nebraska" = Ok ne /\
    prep_state "North Dakota" "north_dakota" = Ok nd /\
    labels all = standard_columns /\ well_formed all /\
    index all = index ne ++ index nd /\
    rows all = rows ne ++ rows nd.
Proof.
  intros Hw H. rewrite prep_all_states_stages in H.
  bind_inv H ne Hne. bind_inv H nd Hnd. exists ne, nd.
  destruct (prep_state_standard _ _ _ Hw Hne) as [Hw1 Hl1].
  destruct (prep_state_standard _ _ _ Hw Hnd) as [Hw2 Hl2].
  assert (forall df, In df [ne; nd] ->
                     well_formed df /\ labels df = standard_columns) as Hall.
  { intros df [<- | [<- | []]]; now split. }
  destruct (concat_standard [ne; nd] all Hall H) as [Hwa Hrows].
  split; [exact Hne|]. split; [exact Hnd|].
  split; [apply (concat_standard_labels [ne; nd]); [|exact H];
          intros df Hdf; now apply Hall|].
  split; [exact Hwa|]. split.
  - apply Ok_inj in H. subst all. cbn [index flat_map].
    now rewrite app_nil_r.
  - rewrite Hrows. cbn [flat_map]. now rewrite app_nil_r.
Qed.

(** X17. [prep_all_states] raises exactly the first error of its two
    states, Nebraska before North Dakota; the last concatenation never
    raises. *)
Theorem prep_all_states_raises_first_error (e : error) :
  prep_all_states = Err e <->
  prep_state "Nebraska" "nebraska" = Err e \/
  (exists ne, prep_state "Nebraska" "nebraska" = Ok ne /\
              prep_state "North Dakota" "north_dakota" = Err e).
Proof.
  rewrite prep_all_states_stages.
  destruct (prep_state "Nebraska" "nebraska") as [ne|e1]; cbn [bind].
  - destruct (prep_state "North Dakota" "north_dakota") as [nd|e2];
      cbn [bind].
    + split; [discriminate|].
      intros [H | (x & _ & H)]; discriminate.
    + split.
      * intro H. right. exists ne. split; [reflexivity | exact H].
      * intros [H | (x & _ & H)]; [discriminate | exact H].
  - split; [now left|]. intros [H | (x & H & _)]; [exact H | discriminate].
Qed.

End AllStates.

End Program.

(** * Sample runs *)

(** The runs below read the Unicode database of the samples. *)
#[local] Existing Instance sample_unicode.

(** Checks that the [object] columns of a sample are fit for [.str]. *)
Ltac accepts_all :=
  let d := fresh "d" in
  let Hin := fresh "Hin" in
  let Hobj := fresh "Hobj" in
  intros d Hin Hobj; simpl in Hin;
  repeat (destruct Hin as [<-|Hin];
          [first [reflexivity | discriminate Hobj]|]);
  contradiction.

(** Checks the dtype, or the characters, of the text columns of a sample. *)
Ltac ascii_columns :=
  let n := fresh "n" in
  let x := fresh "x" in
  let Hn := fresh "Hn" in
  let Hx := fresh "Hx" in
  intros n x Hn Hx; cbn [In] in Hn;
  decompose [or] Hn; subst; try contradiction;
  vm_compute in Hx; apply Ok_inj in Hx; subst x; reflexivity.

Lemma common_output_columns_witness :
  labels sample_out =
    ["FirstName"; "MiddleName"; "LastName"; "Suffix"; "Street"; "City";
     "State"; "Zip"; "Hunt"; "Fish"]
  /\ length (columns sample_out) = 10.
Proof.
  apply (common_output_columns sample sample_path sample_out).
  vm_compute. reflexivity.
Defined.

Lemma hunt_fish_follow_path_witness :
  exists hunt fish,
    getitem sample_out "Hunt" = Ok hunt /\ getitem sample_out "Fish" = Ok fish /\
    (occurs_in "Hunt" sample_path ->
     values hunt = repeat (Str "Y") (nrows sample_out)) /\
    (~ occurs_in "Hunt" sample_path ->
     values hunt = repeat (Str "") (nrows sample_out)) /\
    (occurs_in "Fish" sample_path ->
     values fish = repeat (Str "Y") (nrows sample_out)) /\
    (~ occurs_in "Fish" sample_path ->
     values fish = repeat (Str "") (nrows sample_out)).
Proof.
  apply (hunt_fish_follow_path sample sample_path sample_out).
  vm_compute. reflexivity.
Defined.

Lemma north_dakota_suffix_is_missing_witness :
  exists suffix,
    getitem north_dakota_out "Suffix" = Ok suffix /\
    values suffix = repeat NaN (nrows north_dakota_out) /\
    (forall c, In c (values suffix) -> is_str c = false /\ c <> Str "").
Proof.
  apply (north_dakota_suffix_is_missing (W := sample_world)
           "North Dakota/Hunt/a.xlsx" north_dakota_out).
  vm_compute. reflexivity.
Defined.

Lemma empty_record_set_passes_witness :
  exists out,
    _common no_rows "Nebraska/Fish/2020.txt" = Ok out /\
    labels out =
      ["FirstName"; "MiddleName"; "LastName"; "Suffix"; "Street"; "City";
       "State"; "Zip"; "Hunt"; "Fish"] /\
    index out = [] /\
    Forall (fun c => values (snd c) = []) (columns out).
Proof.
  apply (empty_record_set_passes no_rows "Nebraska/Fish/2020.txt").
  - repeat constructor.
  - reflexivity.
  - apply unique_NoDup. reflexivity.
  - intros n Hn. cbn [In] in Hn.
    destruct Hn as [<-|[<-|[<-|[<-|[<-|[<-|[]]]]]]];
      (eexists; split; [reflexivity | reflexivity]).
Defined.

Lemma nebraska_optional_and_required_columns_witness :
  (exists out, nebraska (W := sample_world) "Nebraska/Hunt/2021.txt" = Ok out /\
               ~ In "Sex" (labels out) /\ ~ In "email" (labels out)) /\
  (exists m, In m ["permitYear"; "Permit Type"; "FullName"] /\
             nebraska (W := sample_world) "Nebraska/Hunt/no year.txt"
             = Err (KeyError m)).
Proof.
  split.
  - apply (nebraska_optional_and_required_columns (W := sample_world)
             "Nebraska/Hunt/2021.txt" nebraska_2021 eq_refl).
    + repeat constructor.
    + repeat constructor.
    + apply unique_NoDup. reflexivity.
    + intros n Hn. simpl in Hn.
      repeat (destruct Hn as [<-|Hn]; [simpl; tauto|]). contradiction.
  - apply (proj2 (nebraska_optional_and_required_columns (W := sample_world)
                    "Nebraska/Hunt/no year.txt" nebraska_no_year eq_refl)
                 "permitYear").
    + simpl. tauto.
    + simpl. intuition discriminate.
Defined.

Lemma zip_values_five_or_more_witness :
  exists zin zout,
    getitem sample "Zip" = Ok zin /\ getitem sample_out "Zip" = Ok zout /\
    length (values zin) = nrows sample /\
    index sample_out = select (kept_rows sample) (index sample) /\
    Forall2 (fun source v =>
               match source with
               | Str s =>
                   v = Str (zfill 5 (strip s)) /\
                   length (zfill 5 (strip s)) = Nat.max 5 (length (strip s))
               | _ => v = NaN
               end)
            (select (kept_rows sample) (values zin)) (values zout).
Proof.
  apply (zip_values_five_or_more sample sample_path sample_out).
  - repeat constructor.
  - intros z Hz. vm_compute in Hz. apply Ok_inj in Hz. now subst z.
  - vm_compute. reflexivity.
Defined.

(** The claim C1 fails where a Zip text has more than 5 characters: the
    nine characters of "685011234" come out as they went in. It fails as
    well where the Zip value is missing: it stays missing. *)
Lemma zip_of_nine_characters_is_kept :
  (exists out,
      _common long_zip "Nebraska/Hunt/2020.txt" = Ok out /\
      getitem out "Zip" = Ok (text_column ["685011234"]) /\
      ~ zip_all_five out)
  /\
  (exists out,
      _common missing_zip "Nebraska/Hunt/2020.txt" = Ok out /\
      getitem out "Zip" = Ok (mkSeries object [NaN]) /\
      ~ zip_all_five out).
Proof.
  split.
  - eexists. split; [vm_compute; reflexivity|].
    split; [reflexivity|].
    intro H. specialize (H _ eq_refl).
    inversion H as [|? ? (s & Hs & Hl) _]; subst.
    inversion Hs; subst s. discriminate Hl.
  - eexists. split; [vm_compute; reflexivity|].
    split; [reflexivity|].
    intro H. specialize (H _ eq_refl).
    inversion H as [|? ? (s & Hs & _) _]; subst. discriminate.
Qed.

Lemma zip_step_left_pads_witness :
  exists zin zout,
    getitem sample "Zip" = Ok zin /\ getitem sample_out "Zip" = Ok zout /\
    length (values zin) = nrows sample /\
    index sample_out = select (kept_rows sample) (index sample) /\
    Forall2 (fun source v =>
               match source with
               | Str s =>
                   exists z,
                     v = Str z /\
                     (5 <= length (strip s) -> z = strip s) /\
                     (signed (strip s) = false -> z = left_padded 5 (strip s)) /\
                     (forall c t, strip s = c :: t -> signed (strip s) = true ->
                                  z = c :: left_padded 4 t)
               | _ => v = NaN
               end)
            (select (kept_rows sample) (values zin)) (values zout).
Proof.
  apply (zip_step_left_pads sample sample_path sample_out).
  - repeat constructor.
  - intros z Hz. vm_compute in Hz. apply Ok_inj in Hz. now subst z.
  - vm_compute. reflexivity.
Defined.

(** The claim C2 fails on a Zip text that starts with a sign: "-12" is not
    padded on its left, which would give "00-12"; the sign stays in front
    and the zeros come after it. *)
Lemma zip_sign_stays_in_front :
  _common signed_zip "Nebraska/Hunt/2020.txt" = Ok signed_zip_out /\
  getitem signed_zip "Zip" = Ok (text_column ["-12"]) /\
  getitem signed_zip_out "Zip" = Ok (text_column ["-0012"]) /\
  left_padded 5 (strip "-12") = of_string "00-12" /\
  of_string "-0012" <> left_padded 5 (strip "-12").
Proof.
  split; [vm_compute; reflexivity|].
  split; [reflexivity|]. split; [reflexivity|].
  split; [reflexivity | discriminate].
Qed.

Lemma common_twice_witness : _common sample_out sample_path = Ok sample_out.
Proof.
  apply (common_twice sample sample_path sample_out).
  - repeat constructor.
  - intros n Hn. simpl in *. tauto.
  - ascii_columns.
  - ascii_columns.
  - vm_compute. reflexivity.
Defined.

(** The claim C4 fails on a record set with a column that the output does
    not keep: two rows that differ only there both reach the output, and a
    second run removes one of them. It fails as well on a name that is not
    ASCII: the lower case of the I with a dot above ends in a combining
    mark, which is not cased, so the second run puts the R after it in
    upper case. *)
Lemma common_twice_differs :
  (_common two_phones sample_path = Ok two_phones_out /\
   _common two_phones_out sample_path = Ok two_phones_again /\
   two_phones_again <> two_phones_out)
  /\
  (incl (labels demir)
        ["FirstName"; "MiddleName"; "LastName"; "Suffix"; "Street"; "City";
         "State"; "Zip"] /\
   _common demir sample_path = Ok demir_out /\
   _common demir_out sample_path = Ok demir_again /\
   demir_again <> demir_out).
Proof.
  split.
  - split; [vm_compute; reflexivity|].
    split; [vm_compute; reflexivity|].
    discriminate.
  - split; [intros n Hn; simpl in *; tauto|].
    split; [vm_compute; reflexivity|].
    split; [vm_compute; reflexivity|].
    discriminate.
Qed.

Lemma duplicates_removed_in_file_and_state_witness :
  (exists full,
      without_deduplication listed_twice sample_path = Ok full /\
      nth_error (rows full) 2 = Some john_doe /\
      occurrences john_doe (rows listed_twice_out) = 1)
  /\
  (exists files dfs,
      state_files (W := sample_world) "Nebraska" = Ok files /\
      mapM (run (W := sample_world) "nebraska") files = Ok dfs /\
      forall df r, In df dfs -> In r (rows df) ->
                   occurrences r (rows nebraska_state) = 1).
Proof.
  split.
  - destruct (proj1 duplicates_removed_in_file_and_state
                listed_twice sample_path listed_twice_out)
      as (full & Hfull & _ & Hrows).
    + repeat constructor.
    + intros n Hn. simpl in *. tauto.
    + vm_compute. reflexivity.
    + exists full. split; [exact Hfull|].
      apply (Hrows 0 2 john_doe).
      * lia.
      * vm_compute. lia.
      * reflexivity.
      * vm_compute in Hfull. apply Ok_inj in Hfull. subst full. reflexivity.
  - apply (proj2 duplicates_removed_in_file_and_state
             sample_world "Nebraska" "nebraska" nebraska_state).
    + exact sample_world_reads_well_formed.
    + vm_compute. reflexivity.
Defined.

(** The claim C5 fails within one file on a record set with a column that
    the output does not keep: rows 0 and 2 of [two_phones] are equal, row 1
    differs from them in the telephone number only, and the standardized
    row of rows 0 and 2 stands twice in the output of [_common]. *)
Lemma duplicate_rows_after_common :
  nth_error (rows two_phones) 0 = nth_error (rows two_phones) 2 /\
  _common two_phones sample_path = Ok two_phones_out /\
  (exists full, without_deduplication two_phones sample_path = Ok full /\
                nth_error (rows full) 0 = Some john_doe /\
                nth_error (rows full) 2 = Some john_doe) /\
  occurrences john_doe (rows two_phones_out) = 2.
Proof.
  split; [reflexivity|]. split; [vm_compute; reflexivity|].
  split; [|reflexivity].
  eexists. split; [vm_compute; reflexivity|]. split; reflexivity.
Qed.

Lemma empty_subfolder_and_missing_state_folder_witness :
  prep_state (W := sample_world) "Kansas" "nebraska" = Err FileNotFoundError /\
  (listing (W := sample_world) (isfile (World := sample_world)) "Nebraska/Fish" = Ok [] /\
   prep_state (W := sample_world) "Nebraska" "nebraska"
   = prep_folders (W := sample_world) ["Nebraska/Hunt"] "nebraska") /\
  prep_state (W := sample_world) "Iowa" "nebraska" = Err ValueError.
Proof.
  split; [|split].
  - apply (proj1 (empty_subfolder_and_missing_state_folder (W := sample_world) "Kansas" "nebraska")).
    reflexivity.
  - apply (proj1 (proj2 (empty_subfolder_and_missing_state_folder (W := sample_world) "Nebraska" "nebraska"))
                 ["Nebraska/Hunt"] "Nebraska/Fish" [] []).
    + reflexivity.
    + reflexivity.
    + intros e [].
  - apply (proj2 (proj2 (empty_subfolder_and_missing_state_folder (W := sample_world) "Iowa" "nebraska"))).
    reflexivity.
Defined.

(** The claim C9 fails for a state whose only subfolder is empty: the
    folder holds zero files, and [prep_state] raises. *)
Lemma empty_subfolder_raises :
  listdir (World := sample_world) "Iowa" = Ok ["Fish"] /\
  listdir (World := sample_world) "Iowa/Fish" = Ok [] /\
  prep_state (W := sample_world) "Iowa" "nebraska" = Err ValueError /\
  ~ (exists df, prep_state (W := sample_world) "Iowa" "nebraska" = Ok df).
Proof.
  repeat split. intros [df H]. discriminate H.
Qed.

Lemma common_removes_whole_rows_witness :
  exists mask,
    length mask = nrows sample /\
    index sample_out = select mask (index sample) /\
    (forall n, In n ["FirstName"; "MiddleName"; "LastName"; "Suffix"; "Street";
                     "City"; "State"; "Zip"] ->
       exists x, getitem sample_out n = Ok x /\
                 values x
                 = select mask (values (clean_column n (column_or_nan n sample)))) /\
    nrows sample_out <= nrows sample /\
    (0 < nrows sample -> 0 < nrows sample_out).
Proof.
  apply (common_removes_whole_rows sample sample_path sample_out).
  - repeat constructor.
  - vm_compute. reflexivity.
Defined.

Lemma common_text_is_clean_witness :
  (forall n x y s,
      In n ["FirstName"; "MiddleName"; "LastName"; "Suffix"; "Street"; "City";
            "State"; "Zip"] ->
      getitem sample n = Ok x -> dtype_of x = object ->
      (In n to_title -> ascii_values (values x) = true) ->
      getitem sample_out n = Ok y -> In (Str s) (values y) -> strip s = s) /\
  (forall n x,
      In n ["FirstName"; "MiddleName"; "LastName"; "Street"; "City"] ->
      getitem sample n = Ok x -> dtype_of x = object ->
      exists y,
        getitem sample_out n = Ok y /\
        (forall v, In v (values y) ->
           v = NaN \/
           exists t, In (Str t) (values x) /\ v = Str (title (strip t))) /\
        (ascii_values (values x) = true ->
         forall s, In (Str s) (values y) -> title s = s)).
Proof.
  apply (common_text_is_clean sample sample_path sample_out).
  - repeat constructor.
  - vm_compute. reflexivity.
Defined.

Lemma common_returns_only_if_witness :
  NoDup (labels sample) /\
  (forall c, In c (columns sample) -> dtype_of (snd c) = object ->
             accepted (snd c)) /\
  forall n, In n ["Zip"; "FirstName"; "MiddleName"; "LastName"; "Street"; "City"] ->
    exists x, getitem sample n = Ok x /\ accepted x /\
              dtype_of x <> numeric.
Proof.
  apply (common_returns_only_if sample sample_path sample_out).
  - repeat constructor.
  - vm_compute. reflexivity.
Defined.

Lemma common_zip_errors_witness :
  _common no_zip sample_path = Err (KeyError "Zip") /\
  _common numeric_zip sample_path = Err AttributeError.
Proof.
  split.
  - apply (common_zip_errors no_zip sample_path).
    + repeat constructor.
    + accepts_all.
    + simpl. intuition discriminate.
  - apply (proj2 (common_zip_errors numeric_zip sample_path
                    ltac:(repeat constructor) ltac:(accepts_all))
                 (mkSeries numeric [Num 68501])); reflexivity.
Defined.

Lemma common_output_well_formed_witness :
  length (columns sample_out) = 10 /\
  forall c, In c (columns sample_out) -> length (values (snd c)) = nrows sample_out.
Proof.
  apply (common_output_well_formed sample sample_path sample_out).
  - repeat constructor.
  - vm_compute. reflexivity.
Defined.

Lemma nebraska_takes_renamed_columns_witness :
  exists mask,
    length mask = nrows nebraska_2021 /\
    index nebraska_2021_out = select mask (index nebraska_2021) /\
    forall src std x,
      In (src, std)
         [("firstName", "FirstName"); ("middleName", "MiddleName");
          ("lastName", "LastName"); ("street", "Street"); ("city", "City");
          ("state", "State"); ("zip", "Zip")] ->
      getitem nebraska_2021 src = Ok x ->
      exists y, getitem nebraska_2021_out std = Ok y /\
                values y = select mask (values (clean_column std x)).
Proof.
  apply (nebraska_takes_renamed_columns (W := sample_world) "Nebraska/Hunt/2021.txt").
  - reflexivity.
  - repeat constructor.
  - vm_compute. reflexivity.
Defined.

Lemma nebraska_ignores_optional_columns_witness :
  nebraska (W := sample_world) "Nebraska/Hunt/2020.txt"
  = nebraska (W := bare_world) "Nebraska/Hunt/2020.txt".
Proof.
  apply (nebraska_ignores_optional_columns sample_world bare_world
           "Nebraska/Hunt/2020.txt" nebraska_2020 nebraska_2020_bare);
    reflexivity.
Defined.

Lemma north_dakota_refuses_witness :
  north_dakota (W := short_world) "North Dakota/Hunt/short.xlsx" = Err ValueError.
Proof.
  apply (north_dakota_refuses (W := short_world) "North Dakota/Hunt/short.xlsx"
           [sheet_short]).
  - reflexivity.
  - right. vm_compute. discriminate.
Defined.

Lemma north_dakota_rows_witness :
  nrows north_dakota_out <= list_sum (map sheet_rows [sheet_a; sheet_b]) /\
  NoDup (index north_dakota_out) /\
  forall l, In l (index north_dakota_out) ->
            (0 <= l < Z.of_nat (list_sum (map sheet_rows [sheet_a; sheet_b])))%Z.
Proof.
  apply (north_dakota_rows (W := sample_world) "North Dakota/Hunt/a.xlsx").
  - reflexivity.
  - repeat constructor.
  - vm_compute. reflexivity.
Defined.

Lemma north_dakota_takes_columns_by_position_witness :
  exists mask,
    length mask = list_sum (map sheet_rows [sheet_a; sheet_b]) /\
    forall j std,
      In (j, std)
         [(0, "LastName"); (1, "FirstName"); (2, "MiddleName");
          (3, "Street"); (4, "City"); (5, "State"); (6, "Zip")] ->
      exists y, getitem north_dakota_out std = Ok y /\
                values y
                = select mask
                    (values (clean_column std (stacked j [sheet_a; sheet_b]))).
Proof.
  apply (north_dakota_takes_columns_by_position (W := sample_world) "North Dakota/Hunt/a.xlsx").
  - reflexivity.
  - repeat constructor.
  - vm_compute. reflexivity.
Defined.

Lemma state_files_are_one_level_down_witness :
  In "Nebraska/notes.txt" ["Nebraska/Hunt/2020.txt"; "Nebraska/Hunt/2021.txt"]
  <->
  exists top sub entries name,
    listdir (World := sample_world) "Nebraska" = Ok top /\ In sub top /\
    isfile (World := sample_world) (Os.join "Nebraska" sub) = false /\
    listdir (World := sample_world) (Os.join "Nebraska" sub) = Ok entries /\
    In name entries /\
    "Nebraska/notes.txt" = Os.join (Os.join "Nebraska" sub) name /\
    isfile (World := sample_world) "Nebraska/notes.txt" = true.
Proof.
  apply (state_files_are_one_level_down (W := sample_world) "Nebraska"
           ["Nebraska/Hunt/2020.txt"; "Nebraska/Hunt/2021.txt"]).
  reflexivity.
Defined.

Lemma prep_state_fails_with_any_file_witness :
  (exists e', prep_state (W := no_year_world) "Nebraska" "nebraska" = Err e') /\
  (forall before after,
     ["Nebraska/Hunt/2020.txt"; "Nebraska/Hunt/no year.txt"]
     = before ++ "Nebraska/Hunt/no year.txt" :: after ->
     (forall g, In g before ->
                exists d, run (W := no_year_world) "nebraska" g = Ok d) ->
     prep_state (W := no_year_world) "Nebraska" "nebraska"
     = Err (KeyError "permitYear")).
Proof.
  apply (prep_state_fails_with_any_file (W := no_year_world) "Nebraska" "nebraska"
           ["Nebraska/Hunt/2020.txt"; "Nebraska/Hunt/no year.txt"]
           "Nebraska/Hunt/no year.txt" (KeyError "permitYear")).
  - reflexivity.
  - simpl. tauto.
  - reflexivity.
Defined.

Lemma prep_state_result_rows_witness :
  labels nebraska_state = standard_columns /\ well_formed nebraska_state /\
  NoDup (rows nebraska_state) /\
  forall r, In r (rows nebraska_state) ->
    exists files f df,
      state_files (W := sample_world) "Nebraska" = Ok files /\ In f files /\
      run (W := sample_world) "nebraska" f = Ok df /\ In r (rows df).
Proof.
  apply (prep_state_result_rows (W := sample_world) "Nebraska" "nebraska").
  - exact sample_world_reads_well_formed.
  - vm_compute. reflexivity.
Defined.

Lemma file_flagged_by_any_part_of_path_witness :
  exists x, getitem nebraska_2021_out "Hunt" = Ok x /\
            values x = repeat (Str "Y") (nrows nebraska_2021_out).
Proof.
  apply (file_flagged_by_any_part_of_path (W := sample_world)
           "Nebraska" "Hunt" "2021.txt" "nebraska" "Hunt" nebraska_2021_out)
    with (top := ["Hunt"; "Fish"; "notes.txt"])
         (entries := ["2020.txt"; "2021.txt"]).
  - unfold relative_names. cbn [listdir sample_world].
    apply one_of_relative. repeat constructor.
  - now left.
  - reflexivity.
  - simpl. tauto.
  - reflexivity.
  - simpl. tauto.
  - right. left. exists "", "". reflexivity.
  - vm_compute. reflexivity.
Defined.

Lemma state_folder_name_flags_every_row_witness :
  exists x, getitem fisher_out "Fish" = Ok x /\
            forall v, In v (values x) -> v = Str "Y".
Proof.
  apply (state_folder_name_flags_every_row (W := fisher_world)
           "Fisher County" "nebraska" "Fish" fisher_out).
  - unfold relative_names. cbn [listdir fisher_world].
    apply one_of_relative. repeat constructor.
  - now right.
  - exists "", "er County". reflexivity.
  - vm_compute. reflexivity.
Defined.

Lemma prep_all_states_stacks_the_states_witness :
  exists ne nd,
    prep_state (W := sample_world) "Nebraska" "nebraska" = Ok ne /\
    prep_state (W := sample_world) "North Dakota" "north_dakota" = Ok nd /\
    labels all_states = standard_columns /\ well_formed all_states /\
    index all_states = index ne ++ index nd /\
    rows all_states = rows ne ++ rows nd.
Proof.
  apply (prep_all_states_stacks_the_states (W := sample_world)).
  - exact sample_world_reads_well_formed.
  - vm_compute. reflexivity.
Defined.
